(** * open-mcr: answer-key extraction from a single sheet

    A shallow embedding of [src/extractor.py].  The module is glue: it
    sequences calls into [image_utils], [corner_finding], [grid_reading]
    and [data_exporting], threads their results, and turns exceptions
    into a [None] result at the per-sheet boundary.

    The embedding therefore has three layers:
    - a small state-and-exception monad that gives Python's sequencing,
      [raise], [try/except] and [print] their meaning;
    - the imported modules and standard output as an interface
      ([Collaborators]) whose operations act on an external world (file
      system, GUI, console);
    - the two functions of [extractor.py], written against that
      interface statement by statement. *)

From Stdlib Require Import Ascii String List ZArith Bool Lia.
Import ListNotations.
Open Scope string_scope.

(** ** Python exceptions *)

(** The classes that the handlers of [extractor.py] tell apart:
    [except corner_finding.CornerFindingError] and [except Exception].
    [NonException] stands for the classes that derive from
    [BaseException] but not from [Exception] ([KeyboardInterrupt],
    [SystemExit]); [CornerFindingError] is an [Exception]. *)
Inductive ExnClass : Type :=
| CornerFindingError
| OtherException
| NonException.

(** An exception object: its class and the text of [str(e)]. *)
Record Exn : Type := mkExn { exn_class : ExnClass; exn_str : string }.

Definition isinstance_CornerFindingError (e : Exn) : bool :=
  match exn_class e with CornerFindingError => true | _ => false end.

Definition isinstance_Exception (e : Exn) : bool :=
  match exn_class e with NonException => false | _ => true end.

(** [IndexError] raised by the subscript [answer_fill_percents[i]]. *)
Definition IndexError : Exn := mkExn OtherException "list index out of range".

(** ** The monad of statements *)

(** A statement either completes with a value or raises. *)
Inductive Outcome (A : Type) : Type :=
| Return (a : A)
| Raise (e : Exn).
Arguments Return {A} a.
Arguments Raise {A} e.

(** A computation over a state [S]; the state survives a raise, as
    side effects do in Python. *)
Definition M (S A : Type) : Type := S -> Outcome A * S.

Definition ret {S A} (a : A) : M S A := fun s => (Return a, s).

Definition raise {S A} (e : Exn) : M S A := fun s => (Raise e, s).

Definition bind {S A B} (m : M S A) (k : A -> M S B) : M S B :=
  fun s => match m s with
           | (Return a, s') => k a s'
           | (Raise e, s') => (Raise e, s')
           end.

Declare Scope py_scope.
Delimit Scope py_scope with py.
Notation "x <- m ;; k" := (bind m (fun x => k))
  (at level 100, m at next level, right associativity) : py_scope.
Notation "m ;;; k" := (bind m (fun _ => k))
  (at level 100, right associativity) : py_scope.
Open Scope py_scope.

(** [try: body / except <catches> as e: handler e], followed by the
    rest of the block [k].  The handlers of [extractor.py] all leave the
    function ([return None] or [raise]), so the handler's outcome is the
    outcome of the whole statement and [k] runs only when [body]
    completed; [k] is outside the protection of this [try]. *)
Definition try_except {S A B} (body : M S A) (catches : Exn -> bool)
    (handler : Exn -> M S B) (k : A -> M S B) : M S B :=
  fun s => match body s with
           | (Return a, s') => k a s'
           | (Raise e, s') => if catches e then handler e s' else (Raise e, s')
           end.

(** List comprehension [[f x for x in l]] with an effectful [f]. *)
Fixpoint mapM {S A B} (f : A -> M S B) (l : list A) : M S (list B) :=
  match l with
  | [] => ret []
  | x :: xs => y <- f x ;; ys <- mapM f xs ;; ret (y :: ys)
  end.

(** ** Python data *)

(** [range(n)] for an [int] [n]: empty when [n <= 0]. *)
Definition py_range (n : Z) : list Z := map Z.of_nat (seq 0 (Z.to_nat n)).

(** [l[i]] on a list: negative indices count from the end, an index out
    of range is [None] here and [IndexError] at the call site. *)
Definition list_getitem {A} (l : list A) (i : Z) : option A :=
  let n := Z.of_nat (length l) in
  if (0 <=? i)%Z then nth_error l (Z.to_nat i)
  else if (0 <=? n + i)%Z then nth_error l (Z.to_nat (n + i))
  else None.

(** [grid_info.Field].  The extractor names two members; the other
    members of the enumeration are kept by name. *)
Inductive Field : Type :=
| TEST_FORM_CODE
| IMAGE_FILE
| OtherField (name : string).

Definition Field_eqb (a b : Field) : bool :=
  match a, b with
  | TEST_FORM_CODE, TEST_FORM_CODE => true
  | IMAGE_FILE, IMAGE_FILE => true
  | OtherField x, OtherField y => String.eqb x y
  | _, _ => false
  end.

(** A [dict] keyed by [Field], in insertion order. *)
Definition dict (V : Type) : Type := list (Field * V).

Fixpoint dict_get {V} (d : dict V) (k : Field) : option V :=
  match d with
  | [] => None
  | (k', v) :: d' => if Field_eqb k k' then Some v else dict_get d' k
  end.

(** [k in d]. *)
Definition dict_contains {V} (d : dict V) (k : Field) : bool :=
  match dict_get d k with Some _ => true | None => false end.

(** [d[k] = v]: a present key keeps its position. *)
Fixpoint dict_set {V} (d : dict V) (k : Field) (v : V) : dict V :=
  match d with
  | [] => [(k, v)]
  | (k', v') :: d' =>
      if Field_eqb k k' then (k', v) :: d' else (k', v') :: dict_set d' k v
  end.

(** The dict built from key/value pairs produced left to right. *)
Definition dict_of_items {V} (items : list (Field * V)) : dict V :=
  fold_left (fun d kv => dict_set d (fst kv) (snd kv)) items [].

(** [x or ""] on an [Optional[str]]. *)
Definition or_empty (x : option string) : string :=
  match x with
  | Some s => if String.eqb s "" then "" else s
  | None => ""
  end.

(** ** Interpreter state: the external world and standard output *)

Record PyState (W : Type) : Type := mkState { world : W; stdout : list string }.
Arguments mkState {W} world stdout.
Arguments world {W} p.
Arguments stdout {W} p.

(** An operation of an imported module: it acts on the world only. *)
Definition Ext (W A : Type) : Type := W -> Outcome A * W.

(** Calling an imported operation from the extractor. *)
Definition call {W A} (op : Ext W A) : M (PyState W) A :=
  fun s => let (o, w') := op (world s) in (o, mkState w' (stdout s)).

(** [print(msg)]: the line is written to [sys.stdout], here [write],
    which acts on the world and may raise ([UnicodeEncodeError] when the
    stream cannot encode the text, [OSError] when it cannot be written).
    [stdout] keeps the lines of the [print] calls that completed. *)
Definition print {W} (write : string -> Ext W unit) (msg : string)
    : M (PyState W) unit :=
  fun s => match write msg (world s) with
           | (Return _, w') => (Return tt, mkState w' (stdout s ++ [msg]))
           | (Raise e, w') => (Raise e, mkState w' (stdout s))
           end.

Section Extractor.

(** Values owned by the imported modules and by [pathlib] / [datetime]. *)
Variables Path Datetime Image Corners Grid GroupInfo BubbleGroup : Type.
Variables Fills Threshold OutputSheet Tracker : Type.

(** [grid_info.FormVariant], the attributes the extractor reads.
    [fields] is a dict whose values may be [None]. *)
Record FormVariant : Type := mkFormVariant {
  fields : dict (option GroupInfo);
  questions : list GroupInfo;
  num_questions : Z
}.

(** The imported modules, and the standard output that [print]
    writes to.  Optional [save_path] arguments are the debug sink.
    [OutputSheet] methods mutate the sheet, which is local to one call
    of the extractor, so they return the updated sheet; images, corners
    and grids are values that no operation changes in place.  Any
    operation may raise, and may read and write the world. *)
Record Collaborators (W : Type) : Type := mkCollaborators {
  (* pathlib: p / s, p.name, p.stem *)
  path_div : Path -> string -> Path;
  path_name : Path -> string;
  path_stem : Path -> string;
  (* data_exporting *)
  format_timestamp_for_file : option Datetime -> Ext W string;
  make_dir_if_not_exists : Path -> Ext W unit;
  OutputSheet_init : list Field -> Z -> Ext W OutputSheet;
  OutputSheet_add :
    OutputSheet -> dict string -> list string -> Ext W OutputSheet;
  OutputSheet_clean_up : OutputSheet -> string -> Ext W OutputSheet;
  OutputSheet_save :
    OutputSheet -> Path -> string -> bool -> option Datetime -> Ext W Path;
  (* image_utils *)
  get_image : Path -> option Path -> Ext W Image;
  prepare_scan_for_processing : Image -> option Path -> Ext W Image;
  dilate : Image -> option Path -> Ext W Image;
  (* corner_finding *)
  find_corner_marks : Image -> option Path -> Ext W Corners;
  (* grid_info *)
  GRID_HORIZONTAL_CELLS : Z;
  GRID_VERTICAL_CELLS : Z;
  (* grid_reading *)
  Grid_init : Corners -> Z -> Z -> Image -> option Path -> Ext W Grid;
  get_group_from_info : GroupInfo -> Grid -> Ext W BubbleGroup;
  get_all_fill_percents : BubbleGroup -> Ext W Fills;
  calculate_bubble_fill_threshold :
    dict Fills -> list Fills -> option Path -> FormVariant -> Ext W Threshold;
  read_answer_as_string :
    Z -> Grid -> bool -> Threshold -> FormVariant -> Fills -> Ext W string;
  read_field_as_string :
    Field -> Grid -> Threshold -> FormVariant -> Fills
    -> Ext W (option string);
  (* the GUI progress widget *)
  tracker_bool : Tracker -> bool;
  set_status : Tracker -> string -> bool -> Ext W unit;
  (* sys.stdout, as print() writes a line to it *)
  stdout_write : string -> Ext W unit
}.

Arguments path_div {W} c.
Arguments path_name {W} c.
Arguments path_stem {W} c.
Arguments format_timestamp_for_file {W} c.
Arguments make_dir_if_not_exists {W} c.
Arguments OutputSheet_init {W} c.
Arguments OutputSheet_add {W} c.
Arguments OutputSheet_clean_up {W} c.
Arguments OutputSheet_save {W} c.
Arguments get_image {W} c.
Arguments prepare_scan_for_processing {W} c.
Arguments dilate {W} c.
Arguments find_corner_marks {W} c.
Arguments GRID_HORIZONTAL_CELLS {W} c.
Arguments GRID_VERTICAL_CELLS {W} c.
Arguments Grid_init {W} c.
Arguments get_group_from_info {W} c.
Arguments get_all_fill_percents {W} c.
Arguments calculate_bubble_fill_threshold {W} c.
Arguments read_answer_as_string {W} c.
Arguments read_field_as_string {W} c.
Arguments tracker_bool {W} c.
Arguments set_status {W} c.
Arguments stdout_write {W} c.

(** The items of [form_variant.fields] with [value is not None]. *)
Fixpoint configured_fields (items : dict (option GroupInfo))
    : list (Field * GroupInfo) :=
  match items with
  | [] => []
  | (key, Some value) :: rest => (key, value) :: configured_fields rest
  | (_, None) :: rest => configured_fields rest
  end.

Section Functions.

Variable W : Type.
Variable C : Collaborators W.

Let St := PyState W.

(** [get_group_from_info(info, grid).get_all_fill_percents()]. *)
Definition group_fill_percents (info : GroupInfo) (grid : Grid)
    : M St Fills :=
  group <- call (get_group_from_info C info grid) ;;
  call (get_all_fill_percents C group).

(** Lines 39-48: create the debug directory if needed; the value is
    [debug_path]. *)
Definition debug_setup (image_path output_folder : Path)
    (files_timestamp : option Datetime) (debug_mode_on : bool)
    : M St (option Path) :=
  if debug_mode_on then
    stamp <- call (format_timestamp_for_file C files_timestamp) ;;
    let debug_dir :=
      path_div C output_folder (stamp ++ "debug_extractor") in
    call (make_dir_if_not_exists C debug_dir) ;;;
    let debug_path := path_div C debug_dir (path_stem C image_path) in
    call (make_dir_if_not_exists C debug_path) ;;;
    ret (Some debug_path)
  else ret None.

(** Lines 51-131: the body of the outer [try]. *)
Definition extraction_body
    (image_path output_folder : Path)
    (multi_answers_as_f empty_answers_as_g : bool)
    (form_variant : FormVariant)
    (files_timestamp : option Datetime)
    (debug_path : option Path) : M St (option Path) :=
  (* Load and prepare the image *)
  image <- call (get_image C image_path debug_path) ;;
  prepared_image <-
    call (prepare_scan_for_processing C image debug_path) ;;
  (* Find corners *)
  try_except
    (call (find_corner_marks C prepared_image debug_path))
    isinstance_CornerFindingError
    (fun e =>
       print (stdout_write C)
             ("Error finding corners in " ++ path_name C image_path
              ++ ": " ++ exn_str e) ;;;
       ret None)
    (fun corners =>
       (* Process the image *)
       morphed_image <- call (dilate C prepared_image debug_path) ;;
       (* Establish grid *)
       grid <- call (Grid_init C corners
                       (GRID_HORIZONTAL_CELLS C)
                       (GRID_VERTICAL_CELLS C)
                       morphed_image debug_path) ;;
       (* Calculate fill percentages *)
       field_items <-
         mapM (fun kv =>
                 fills <- group_fill_percents (snd kv) grid ;;
                 ret (fst kv, fills))
              (configured_fields (fields form_variant)) ;;
       let field_fill_percents := dict_of_items field_items in
       answer_fill_percents <-
         mapM (fun question => group_fill_percents question grid)
              (questions form_variant) ;;
       (* Calculate threshold *)
       threshold <-
         call (calculate_bubble_fill_threshold C
                 field_fill_percents answer_fill_percents
                 debug_path form_variant) ;;
       (* Extract answers *)
       answers <-
         mapM (fun i =>
                 match list_getitem answer_fill_percents i with
                 | Some fills_i =>
                     call (read_answer_as_string C i grid
                             multi_answers_as_f threshold
                             form_variant fills_i)
                 | None => raise IndexError
                 end)
              (py_range (num_questions form_variant)) ;;
       (* Read test form code if available *)
       form_code <-
         match dict_get field_fill_percents TEST_FORM_CODE with
         | Some code_fills =>
             code <- call (read_field_as_string C TEST_FORM_CODE grid
                             threshold form_variant code_fills) ;;
             ret (or_empty code)
         | None => ret ""
         end ;;
       (* Create output sheet for the answer key *)
       keys_results <-
         call (OutputSheet_init C [TEST_FORM_CODE; IMAGE_FILE]
                 (num_questions form_variant)) ;;
       (* Add the extracted key data *)
       let field_data : dict string :=
         [(TEST_FORM_CODE, form_code);
          (IMAGE_FILE, path_name C image_path)] in
       keys_results <-
         call (OutputSheet_add C keys_results field_data answers) ;;
       (* Clean up the data *)
       keys_results <-
         call (OutputSheet_clean_up C keys_results
                 (if empty_answers_as_g then "G" else "")) ;;
       (* Save the answer key *)
       output_path <-
         call (OutputSheet_save C keys_results output_folder
                 "extracted_answer_key" false files_timestamp) ;;
       print (stdout_write C)
             ("✔️ Answer key extracted from '" ++ path_name C image_path
              ++ "' and saved to '" ++ path_name C output_path ++ "'") ;;;
       ret (Some output_path)).

(** Lines 133-137: the handler of [except Exception as e]. *)
Definition extraction_handler (image_path : Path) (debug_mode_on : bool)
    (e : Exn) : M St (option Path) :=
  print (stdout_write C)
        ("❌ Error extracting answer key from '"
         ++ path_name C image_path ++ "': " ++ exn_str e) ;;;
  if debug_mode_on then raise e else ret None.

(** [extractor.extract_answer_key_from_image]. *)
Definition extract_answer_key_from_image
    (image_path output_folder : Path)
    (multi_answers_as_f empty_answers_as_g : bool)
    (form_variant : FormVariant)
    (files_timestamp : option Datetime)
    (debug_mode_on : bool) : M St (option Path) :=
  debug_path <-
    debug_setup image_path output_folder files_timestamp debug_mode_on ;;
  try_except
    (extraction_body image_path output_folder multi_answers_as_f
       empty_answers_as_g form_variant files_timestamp debug_path)
    isinstance_Exception
    (extraction_handler image_path debug_mode_on)
    ret.

(** [if progress_tracker:] on an [Optional[Any]]: the tracker when it
    is present and truthy. *)
Definition tracker_truthy (progress_tracker : option Tracker)
    : option Tracker :=
  match progress_tracker with
  | Some t => if tracker_bool C t then Some t else None
  | None => None
  end.

(** [extractor.extract_answer_key_from_image_gui].  A [Path] is always
    truthy, so [if result:] tests [result is not None]. *)
Definition extract_answer_key_from_image_gui
    (image_path output_folder : Path)
    (multi_answers_as_f empty_answers_as_g : bool)
    (form_variant : FormVariant)
    (files_timestamp : option Datetime)
    (progress_tracker : option Tracker)
    (debug_mode_on : bool) : M St (option Path) :=
  match tracker_truthy progress_tracker with
  | Some t =>
      call (set_status C t
              ("Extracting answer key from '"
               ++ path_name C image_path ++ "'.")
              false)
  | None => ret tt
  end ;;;
  result <- extract_answer_key_from_image image_path output_folder
              multi_answers_as_f empty_answers_as_g form_variant
              files_timestamp debug_mode_on ;;
  match tracker_truthy progress_tracker with
  | Some t =>
      match result with
      | Some p =>
          call (set_status C t
                  ("✔️ Answer key extracted and saved to '"
                   ++ path_name C p ++ "'") false)
      | None =>
          call (set_status C t
                  ("❌ Failed to extract answer key from '"
                   ++ path_name C image_path ++ "'") false)
      end
  | None => ret tt
  end ;;;
  ret result.

(** *** Vocabulary of the statements *)

(** The messages of the two handlers. *)
Definition corner_message (image_path : Path) (e : Exn) : string :=
  "Error finding corners in " ++ path_name C image_path ++ ": " ++ exn_str e.

Definition failure_message (image_path : Path) (e : Exn) : string :=
  "❌ Error extracting answer key from '" ++ path_name C image_path
  ++ "': " ++ exn_str e.

(** Standard output takes the line [msg], whatever the world is. *)
Definition console_accepts (msg : string) : Prop :=
  forall w, exists w', stdout_write C msg w = (Return tt, w').

(** The run up to the corner search: set-up, loading, preparation. *)
Definition reaches_corner_search (image_path output_folder : Path)
    (files_timestamp : option Datetime) (d : bool) (s : St)
    (debug_path : option Path) (prepared_image : Image) (s3 : St) : Prop :=
  exists s1 image s2,
    debug_setup image_path output_folder files_timestamp d s
      = (Return debug_path, s1) /\
    call (get_image C image_path debug_path) s1 = (Return image, s2) /\
    call (prepare_scan_for_processing C image debug_path) s2
      = (Return prepared_image, s3).

Definition success_message (image_path output_path : Path) : string :=
  "✔️ Answer key extracted from '" ++ path_name C image_path
  ++ "' and saved to '" ++ path_name C output_path ++ "'".

(** The values a run of the [try] body computes, under the names they
    have in the source, and the state after each statement. *)
Record Run : Type := mkRun {
  run_image : Image;
  run_prepared_image : Image;
  run_corners : Corners;
  run_morphed_image : Image;
  run_grid : Grid;
  run_field_items : list (Field * Fills);
  run_answer_fill_percents : list Fills;
  run_threshold : Threshold;
  run_answers : list string;
  (** [None] when [TEST_FORM_CODE] is not among the measured fields,
      otherwise what [read_field_as_string] returned. *)
  run_code : option (option string);
  run_sheet_created : OutputSheet;
  run_sheet_filled : OutputSheet;
  run_sheet_cleaned : OutputSheet;
  run_output_path : Path;
  at_image : St;
  at_prepared_image : St;
  at_corners : St;
  at_morphed_image : St;
  at_grid : St;
  at_field_fill_percents : St;
  at_answer_fill_percents : St;
  at_threshold : St;
  at_answers : St;
  at_form_code : St;
  at_sheet_created : St;
  at_sheet_filled : St;
  at_sheet_cleaned : St;
  at_saved : St
}.

Definition run_field_fill_percents (r : Run) : dict Fills :=
  dict_of_items (run_field_items r).

Definition run_form_code (r : Run) : string :=
  match run_code r with
  | Some code => or_empty code
  | None => ""
  end.

Definition run_field_data (image_path : Path) (r : Run) : dict string :=
  [(TEST_FORM_CODE, run_form_code r); (IMAGE_FILE, path_name C image_path)].

(** The success line of the run is printed, leaving the world [w]. *)
Definition reports_success (image_path : Path) (r : Run) (w : W) : Prop :=
  stdout_write C (success_message image_path (run_output_path r))
    (world (at_saved r)) = (Return tt, w).

Definition run_final_state (image_path : Path) (r : Run) (w : W) : St :=
  mkState w
    (stdout (at_saved r) ++ [success_message image_path (run_output_path r)]).

(** The stages of section 4.6 as a relation: [r] records a run of the
    pipeline from state [s] in which every stage completed, each stage
    starting in the state the previous one left and consuming the values
    the previous ones produced. *)
Definition pipeline_steps
    (image_path output_folder : Path)
    (multi_answers_as_f empty_answers_as_g : bool)
    (form_variant : FormVariant)
    (files_timestamp : option Datetime)
    (debug_path : option Path) (s : St) (r : Run) : Prop :=
  (* corner location on the prepared image *)
  call (get_image C image_path debug_path) s
    = (Return (run_image r), at_image r) /\
  call (prepare_scan_for_processing C (run_image r) debug_path) (at_image r)
    = (Return (run_prepared_image r), at_prepared_image r) /\
  call (find_corner_marks C (run_prepared_image r) debug_path)
       (at_prepared_image r)
    = (Return (run_corners r), at_corners r) /\
  (* grid construction from the corners *)
  call (dilate C (run_prepared_image r) debug_path) (at_corners r)
    = (Return (run_morphed_image r), at_morphed_image r) /\
  call (Grid_init C (run_corners r) (GRID_HORIZONTAL_CELLS C)
          (GRID_VERTICAL_CELLS C) (run_morphed_image r) debug_path)
       (at_morphed_image r)
    = (Return (run_grid r), at_grid r) /\
  (* fill percents of every configured field, then of every question *)
  mapM (fun kv =>
          fills <- group_fill_percents (snd kv) (run_grid r) ;;
          ret (fst kv, fills))
       (configured_fields (fields form_variant)) (at_grid r)
    = (Return (run_field_items r), at_field_fill_percents r) /\
  mapM (fun question => group_fill_percents question (run_grid r))
       (questions form_variant) (at_field_fill_percents r)
    = (Return (run_answer_fill_percents r), at_answer_fill_percents r) /\
  (* threshold calibration over the pooled population *)
  call (calculate_bubble_fill_threshold C (run_field_fill_percents r)
          (run_answer_fill_percents r) debug_path form_variant)
       (at_answer_fill_percents r)
    = (Return (run_threshold r), at_threshold r) /\
  (* decoding: the questions, then the form code *)
  mapM (fun i =>
          match list_getitem (run_answer_fill_percents r) i with
          | Some fills_i =>
              call (read_answer_as_string C i (run_grid r) multi_answers_as_f
                      (run_threshold r) form_variant fills_i)
          | None => raise IndexError
          end)
       (py_range (num_questions form_variant)) (at_threshold r)
    = (Return (run_answers r), at_answers r) /\
  match dict_get (run_field_fill_percents r) TEST_FORM_CODE, run_code r with
  | Some code_fills, Some code =>
      call (read_field_as_string C TEST_FORM_CODE (run_grid r)
              (run_threshold r) form_variant code_fills) (at_answers r)
        = (Return code, at_form_code r)
  | None, None => at_form_code r = at_answers r
  | _, _ => False
  end /\
  (* assembly of the record, and its persistence *)
  call (OutputSheet_init C [TEST_FORM_CODE; IMAGE_FILE]
          (num_questions form_variant)) (at_form_code r)
    = (Return (run_sheet_created r), at_sheet_created r) /\
  call (OutputSheet_add C (run_sheet_created r) (run_field_data image_path r)
          (run_answers r)) (at_sheet_created r)
    = (Return (run_sheet_filled r), at_sheet_filled r) /\
  call (OutputSheet_clean_up C (run_sheet_filled r)
          (if empty_answers_as_g then "G" else "")) (at_sheet_filled r)
    = (Return (run_sheet_cleaned r), at_sheet_cleaned r) /\
  call (OutputSheet_save C (run_sheet_cleaned r) output_folder
          "extracted_answer_key" false files_timestamp) (at_sheet_cleaned r)
    = (Return (run_output_path r), at_saved r).

End Functions.

(** ** Call traces

    What the extractor asks of its collaborators, as a test double
    would record it: one event per call, with the arguments that carry
    data (the debug sink [save_path] is not part of an event). *)
Inductive Event : Type :=
| EvFormatTimestamp (timestamp : option Datetime)
| EvMakeDir (dir : Path)
| EvGetImage (image_path : Path)
| EvPrepareScan (image : Image)
| EvFindCorners (prepared_image : Image)
| EvDilate (prepared_image : Image)
| EvGrid (corners : Corners) (horizontal vertical : Z) (morphed_image : Image)
| EvGetGroup (info : GroupInfo) (grid : Grid)
| EvFillPercents (group : BubbleGroup)
| EvThreshold (field_fill_percents : dict Fills)
    (answer_fill_percents : list Fills) (form_variant : FormVariant)
| EvReadAnswer (i : Z) (grid : Grid) (multi_answers_as_f : bool)
    (threshold : Threshold) (fills : Fills)
| EvReadField (field : Field) (grid : Grid) (threshold : Threshold)
    (fills : Fills)
| EvSheetInit (columns : list Field) (n : Z)
| EvSheetAdd (sheet : OutputSheet) (field_data : dict string)
    (answers : list string)
| EvSheetCleanUp (sheet : OutputSheet) (replace_empty_with : string)
| EvSheetSave (sheet : OutputSheet) (folder : Path) (basename : string)
    (sort : bool) (timestamp : option Datetime)
| EvSetStatus (tracker : Tracker) (message : string).

(** A call and how it ended: [None] when it completed, the exception
    when it raised. *)
Definition Entry : Type := (Event * option Exn)%type.

Definition completed (x : Entry) : Prop := snd x = None.

(** The calls [seg] all completed but the last one, [ev], which raised
    [e]. *)
Definition last_raised (seg : list Entry) (ev : Event) (e : Exn) : Prop :=
  exists before,
    seg = (before ++ [(ev, Some e)])%list /\ Forall completed before.

(** The pipeline stage an event belongs to. *)
Inductive Stage : Type :=
| StDebugSetup
| StLoadImage
| StPrepareScan
| StCornerLocation
| StDilate
| StGridConstruction
| StFillMeasurement (info : GroupInfo)
| StThresholdCalibration
| StDecodeAnswer (i : Z)
| StDecodeField (field : Field)
| StAssembleRecord
| StSaveRecord
| StProgress.

(** [get_all_fill_percents] is the second half of the measurement of
    the group that [get_group_from_info] has just looked up, so only
    the lookup opens a measurement stage. *)
Definition stage_of (ev : Event) : list Stage :=
  match ev with
  | EvFormatTimestamp _ | EvMakeDir _ => [StDebugSetup]
  | EvGetImage _ => [StLoadImage]
  | EvPrepareScan _ => [StPrepareScan]
  | EvFindCorners _ => [StCornerLocation]
  | EvDilate _ => [StDilate]
  | EvGrid _ _ _ _ => [StGridConstruction]
  | EvGetGroup info _ => [StFillMeasurement info]
  | EvFillPercents _ => []
  | EvThreshold _ _ _ => [StThresholdCalibration]
  | EvReadAnswer i _ _ _ _ => [StDecodeAnswer i]
  | EvReadField field _ _ _ => [StDecodeField field]
  | EvSheetInit _ _ | EvSheetAdd _ _ _ | EvSheetCleanUp _ _ =>
      [StAssembleRecord]
  | EvSheetSave _ _ _ _ _ => [StSaveRecord]
  | EvSetStatus _ _ => [StProgress]
  end.

Definition stages_of (trace : list Event) : list Stage :=
  flat_map stage_of trace.

(** Whether [TEST_FORM_CODE] is among the configured fields. *)
Definition has_form_code (form_variant : FormVariant) : bool :=
  existsb (Field_eqb TEST_FORM_CODE)
          (map fst (configured_fields (fields form_variant))).

(** The stages of a run in which every stage completes, in order. *)
Definition expected_stages (debug_mode_on : bool) (form_variant : FormVariant)
    : list Stage :=
  ((if debug_mode_on then [StDebugSetup; StDebugSetup; StDebugSetup] else [])
   ++ [StLoadImage; StPrepareScan; StCornerLocation; StDilate;
       StGridConstruction]
   ++ map StFillMeasurement
        (map snd (configured_fields (fields form_variant)))
   ++ map StFillMeasurement (questions form_variant)
   ++ [StThresholdCalibration]
   ++ map StDecodeAnswer (py_range (num_questions form_variant))
   ++ (if has_form_code form_variant then [StDecodeField TEST_FORM_CODE]
       else [])
   ++ [StAssembleRecord; StAssembleRecord; StAssembleRecord; StSaveRecord])%list.

(** An operation that also appends its event to a trace kept beside
    the world. *)
Definition traced_op {W A} (ev : Event) (op : Ext W A)
    : Ext (W * list Event) A :=
  fun wl => let (o, w') := op (fst wl) in (o, (w', (snd wl ++ [ev])%list)).

(** An operation that leaves a log kept beside the world as it is:
    writing to standard output is not a call of an imported module. *)
Definition unlogged_op {W L A} (op : Ext W A) : Ext (W * L) A :=
  fun wl => let (o, w') := op (fst wl) in (o, (w', snd wl)).

(** The same collaborators, recording every call. *)
Definition traced {W} (C : Collaborators W)
    : Collaborators (W * list Event) :=
  {| path_div := path_div C;
     path_name := path_name C;
     path_stem := path_stem C;
     format_timestamp_for_file := fun ts =>
       traced_op (EvFormatTimestamp ts) (format_timestamp_for_file C ts);
     make_dir_if_not_exists := fun p =>
       traced_op (EvMakeDir p) (make_dir_if_not_exists C p);
     OutputSheet_init := fun cols n =>
       traced_op (EvSheetInit cols n) (OutputSheet_init C cols n);
     OutputSheet_add := fun sh fd ans =>
       traced_op (EvSheetAdd sh fd ans) (OutputSheet_add C sh fd ans);
     OutputSheet_clean_up := fun sh r =>
       traced_op (EvSheetCleanUp sh r) (OutputSheet_clean_up C sh r);
     OutputSheet_save := fun sh folder name sort ts =>
       traced_op (EvSheetSave sh folder name sort ts)
         (OutputSheet_save C sh folder name sort ts);
     get_image := fun p sp => traced_op (EvGetImage p) (get_image C p sp);
     prepare_scan_for_processing := fun img sp =>
       traced_op (EvPrepareScan img) (prepare_scan_for_processing C img sp);
     dilate := fun img sp => traced_op (EvDilate img) (dilate C img sp);
     find_corner_marks := fun img sp =>
       traced_op (EvFindCorners img) (find_corner_marks C img sp);
     GRID_HORIZONTAL_CELLS := GRID_HORIZONTAL_CELLS C;
     GRID_VERTICAL_CELLS := GRID_VERTICAL_CELLS C;
     Grid_init := fun c h v img sp =>
       traced_op (EvGrid c h v img) (Grid_init C c h v img sp);
     get_group_from_info := fun info g =>
       traced_op (EvGetGroup info g) (get_group_from_info C info g);
     get_all_fill_percents := fun grp =>
       traced_op (EvFillPercents grp) (get_all_fill_percents C grp);
     calculate_bubble_fill_threshold := fun ffp afp sp fv =>
       traced_op (EvThreshold ffp afp fv)
         (calculate_bubble_fill_threshold C ffp afp sp fv);
     read_answer_as_string := fun i g maf t fv fills =>
       traced_op (EvReadAnswer i g maf t fills)
         (read_answer_as_string C i g maf t fv fills);
     read_field_as_string := fun k g t fv fills =>
       traced_op (EvReadField k g t fills)
         (read_field_as_string C k g t fv fills);
     tracker_bool := tracker_bool C;
     set_status := fun t msg b =>
       traced_op (EvSetStatus t msg) (set_status C t msg b);
     stdout_write := fun msg => unlogged_op (stdout_write C msg) |}.

(** A state with an empty trace beside its world, and the calls a
    statement makes when it is run from there. *)
Definition start_trace {W} (s : PyState W) : PyState (W * list Event) :=
  mkState (world s, []) (stdout s).

Definition call_trace {W A} (m : M (PyState (W * list Event)) A)
    (s : PyState W) : list Event :=
  snd (world (snd (m (start_trace s)))).

(** An operation that also logs how it ended. *)
Definition observed_op {W A} (ev : Event) (op : Ext W A)
    : Ext (W * list Entry) A :=
  fun wl =>
    let (o, w') := op (fst wl) in
    (o, (w', (snd wl
              ++ [(ev, match o with
                       | Return _ => None
                       | Raise e => Some e
                       end)])%list)).

(** The same collaborators, recording every call and its ending. *)
Definition observed {W} (C : Collaborators W)
    : Collaborators (W * list Entry) :=
  {| path_div := path_div C;
     path_name := path_name C;
     path_stem := path_stem C;
     format_timestamp_for_file := fun ts =>
       observed_op (EvFormatTimestamp ts) (format_timestamp_for_file C ts);
     make_dir_if_not_exists := fun p =>
       observed_op (EvMakeDir p) (make_dir_if_not_exists C p);
     OutputSheet_init := fun cols n =>
       observed_op (EvSheetInit cols n) (OutputSheet_init C cols n);
     OutputSheet_add := fun sh fd ans =>
       observed_op (EvSheetAdd sh fd ans) (OutputSheet_add C sh fd ans);
     OutputSheet_clean_up := fun sh r =>
       observed_op (EvSheetCleanUp sh r) (OutputSheet_clean_up C sh r);
     OutputSheet_save := fun sh folder name sort ts =>
       observed_op (EvSheetSave sh folder name sort ts)
         (OutputSheet_save C sh folder name sort ts);
     get_image := fun p sp => observed_op (EvGetImage p) (get_image C p sp);
     prepare_scan_for_processing := fun img sp =>
       observed_op (EvPrepareScan img) (prepare_scan_for_processing C img sp);
     dilate := fun img sp => observed_op (EvDilate img) (dilate C img sp);
     find_corner_marks := fun img sp =>
       observed_op (EvFindCorners img) (find_corner_marks C img sp);
     GRID_HORIZONTAL_CELLS := GRID_HORIZONTAL_CELLS C;
     GRID_VERTICAL_CELLS := GRID_VERTICAL_CELLS C;
     Grid_init := fun c h v img sp =>
       observed_op (EvGrid c h v img) (Grid_init C c h v img sp);
     get_group_from_info := fun info g =>
       observed_op (EvGetGroup info g) (get_group_from_info C info g);
     get_all_fill_percents := fun grp =>
       observed_op (EvFillPercents grp) (get_all_fill_percents C grp);
     calculate_bubble_fill_threshold := fun ffp afp sp fv =>
       observed_op (EvThreshold ffp afp fv)
         (calculate_bubble_fill_threshold C ffp afp sp fv);
     read_answer_as_string := fun i g maf t fv fills =>
       observed_op (EvReadAnswer i g maf t fills)
         (read_answer_as_string C i g maf t fv fills);
     read_field_as_string := fun k g t fv fills =>
       observed_op (EvReadField k g t fills)
         (read_field_as_string C k g t fv fills);
     tracker_bool := tracker_bool C;
     set_status := fun t msg b =>
       observed_op (EvSetStatus t msg) (set_status C t msg b);
     stdout_write := fun msg => unlogged_op (stdout_write C msg) |}.

(** A state with an empty log beside its world, and the log of a
    statement that is run from there. *)
Definition start_log {W} (s : PyState W) : PyState (W * list Entry) :=
  mkState (world s, []) (stdout s).

Definition call_log {W A} (m : M (PyState (W * list Entry)) A)
    (s : PyState W) : list Entry :=
  snd (world (snd (m (start_log s)))).

(** The same collaborators behind another standard output. *)
Definition on_console {W} (write : string -> Ext W unit)
    (C : Collaborators W) : Collaborators W :=
  {| path_div := path_div C;
     path_name := path_name C;
     path_stem := path_stem C;
     format_timestamp_for_file := format_timestamp_for_file C;
     make_dir_if_not_exists := make_dir_if_not_exists C;
     OutputSheet_init := OutputSheet_init C;
     OutputSheet_add := OutputSheet_add C;
     OutputSheet_clean_up := OutputSheet_clean_up C;
     OutputSheet_save := OutputSheet_save C;
     get_image := get_image C;
     prepare_scan_for_processing := prepare_scan_for_processing C;
     dilate := dilate C;
     find_corner_marks := find_corner_marks C;
     GRID_HORIZONTAL_CELLS := GRID_HORIZONTAL_CELLS C;
     GRID_VERTICAL_CELLS := GRID_VERTICAL_CELLS C;
     Grid_init := Grid_init C;
     get_group_from_info := get_group_from_info C;
     get_all_fill_percents := get_all_fill_percents C;
     calculate_bubble_fill_threshold := calculate_bubble_fill_threshold C;
     read_answer_as_string := read_answer_as_string C;
     read_field_as_string := read_field_as_string C;
     tracker_bool := tracker_bool C;
     set_status := set_status C;
     stdout_write := write |}.

(** The same collaborators when the user interrupts the program while
    the image is being loaded: [KeyboardInterrupt] is not an
    [Exception]. *)
Definition interrupted_at_load {W} (C : Collaborators W) : Collaborators W :=
  {| path_div := path_div C;
     path_name := path_name C;
     path_stem := path_stem C;
     format_timestamp_for_file := format_timestamp_for_file C;
     make_dir_if_not_exists := make_dir_if_not_exists C;
     OutputSheet_init := OutputSheet_init C;
     OutputSheet_add := OutputSheet_add C;
     OutputSheet_clean_up := OutputSheet_clean_up C;
     OutputSheet_save := OutputSheet_save C;
     get_image := fun _ _ w =>
       (Raise (mkExn NonException "KeyboardInterrupt"), w);
     prepare_scan_for_processing := prepare_scan_for_processing C;
     dilate := dilate C;
     find_corner_marks := find_corner_marks C;
     GRID_HORIZONTAL_CELLS := GRID_HORIZONTAL_CELLS C;
     GRID_VERTICAL_CELLS := GRID_VERTICAL_CELLS C;
     Grid_init := Grid_init C;
     get_group_from_info := get_group_from_info C;
     get_all_fill_percents := get_all_fill_percents C;
     calculate_bubble_fill_threshold := calculate_bubble_fill_threshold C;
     read_answer_as_string := read_answer_as_string C;
     read_field_as_string := read_field_as_string C;
     tracker_bool := tracker_bool C;
     set_status := set_status C;
     stdout_write := stdout_write C |}.

(** Between two states of a traced run, the calls made belong to the
    given stages. *)
Definition emits {W} (s s' : PyState (W * list Event)) (stages : list Stage)
    : Prop :=
  exists seg,
    snd (world s') = (snd (world s) ++ seg)%list /\ stages_of seg = stages.

(** ** Relating two runs

    Two worlds related by [R] are indistinguishable to the pipeline.
    An operation respects [R] when, from related worlds, both sides
    end the same way and leave related worlds. *)
Section Relations.

Variables W1 W2 : Type.
Variable R : W1 -> W2 -> Prop.

Definition sim_ext {A} (op1 : Ext W1 A) (op2 : Ext W2 A) : Prop :=
  forall w1 w2, R w1 w2 ->
    fst (op1 w1) = fst (op2 w2) /\ R (snd (op1 w1)) (snd (op2 w2)).

(** The same for statements of the extractor; both sides print the
    same messages. *)
Definition sim_M {A} (m1 : M (PyState W1) A) (m2 : M (PyState W2) A)
    : Prop :=
  forall s1 s2, R (world s1) (world s2) ->
    fst (m1 s1) = fst (m2 s2) /\
    R (world (snd (m1 s1))) (world (snd (m2 s2))) /\
    exists msgs,
      stdout (snd (m1 s1)) = (stdout s1 ++ msgs)%list /\
      stdout (snd (m2 s2)) = (stdout s2 ++ msgs)%list.

(** [Simulates P C1 C2]: every operation of [C1] and [C2] respects
    [R]; operations with a debug sink do so whenever the two sinks
    are related by [P]. *)
Record Simulates (P : option Path -> option Path -> Prop)
    (C1 : Collaborators W1) (C2 : Collaborators W2) : Prop := {
  sim_path_div : forall p s, path_div C1 p s = path_div C2 p s;
  sim_path_name : forall p, path_name C1 p = path_name C2 p;
  sim_path_stem : forall p, path_stem C1 p = path_stem C2 p;
  sim_grid_h : GRID_HORIZONTAL_CELLS C1 = GRID_HORIZONTAL_CELLS C2;
  sim_grid_v : GRID_VERTICAL_CELLS C1 = GRID_VERTICAL_CELLS C2;
  sim_tracker_bool : forall t, tracker_bool C1 t = tracker_bool C2 t;
  sim_format_timestamp : forall ts,
    sim_ext (format_timestamp_for_file C1 ts)
            (format_timestamp_for_file C2 ts);
  sim_make_dir : forall p,
    sim_ext (make_dir_if_not_exists C1 p)
            (make_dir_if_not_exists C2 p);
  sim_sheet_init : forall cols n,
    sim_ext (OutputSheet_init C1 cols n) (OutputSheet_init C2 cols n);
  sim_sheet_add : forall sh fd ans,
    sim_ext (OutputSheet_add C1 sh fd ans)
            (OutputSheet_add C2 sh fd ans);
  sim_sheet_clean_up : forall sh r,
    sim_ext (OutputSheet_clean_up C1 sh r)
            (OutputSheet_clean_up C2 sh r);
  sim_sheet_save : forall sh folder name sort ts,
    sim_ext (OutputSheet_save C1 sh folder name sort ts)
            (OutputSheet_save C2 sh folder name sort ts);
  sim_get_image : forall p sp1 sp2, P sp1 sp2 ->
    sim_ext (get_image C1 p sp1) (get_image C2 p sp2);
  sim_prepare : forall img sp1 sp2, P sp1 sp2 ->
    sim_ext (prepare_scan_for_processing C1 img sp1)
            (prepare_scan_for_processing C2 img sp2);
  sim_dilate : forall img sp1 sp2, P sp1 sp2 ->
    sim_ext (dilate C1 img sp1) (dilate C2 img sp2);
  sim_find_corners : forall img sp1 sp2, P sp1 sp2 ->
    sim_ext (find_corner_marks C1 img sp1)
            (find_corner_marks C2 img sp2);
  sim_grid_init : forall c h v img sp1 sp2, P sp1 sp2 ->
    sim_ext (Grid_init C1 c h v img sp1) (Grid_init C2 c h v img sp2);
  sim_get_group : forall info g,
    sim_ext (get_group_from_info C1 info g)
            (get_group_from_info C2 info g);
  sim_fill_percents : forall grp,
    sim_ext (get_all_fill_percents C1 grp)
            (get_all_fill_percents C2 grp);
  sim_threshold : forall ffp afp fv sp1 sp2, P sp1 sp2 ->
    sim_ext (calculate_bubble_fill_threshold C1 ffp afp sp1 fv)
            (calculate_bubble_fill_threshold C2 ffp afp sp2 fv);
  sim_read_answer : forall i g maf t fv fills,
    sim_ext (read_answer_as_string C1 i g maf t fv fills)
            (read_answer_as_string C2 i g maf t fv fills);
  sim_read_field : forall k g t fv fills,
    sim_ext (read_field_as_string C1 k g t fv fills)
            (read_field_as_string C2 k g t fv fills);
  sim_set_status : forall t msg b,
    sim_ext (set_status C1 t msg b) (set_status C2 t msg b);
  sim_stdout_write : forall msg,
    sim_ext (stdout_write C1 msg) (stdout_write C2 msg)
}.

End Relations.

(** Relations used to compare runs that keep a trace: worlds related
    by [R] whose traces differ by the prefix [pre]; a traced world and
    the same world without its trace; a world that is still within [Q]
    of a starting point [w0]. *)
Definition with_trace {W1 W2} (R : W1 -> W2 -> Prop) (pre : list Event)
    (a : W1 * list Event) (b : W2 * list Event) : Prop :=
  R (fst a) (fst b) /\ snd b = (pre ++ snd a)%list.

Definition erased {W} (a : W * list Event) (w : W) : Prop := fst a = w.

Definition within {W} (Q : W -> W -> Prop) (w0 w1 w2 : W) : Prop :=
  w1 = w2 /\ Q w0 w1.

(** An operation on the right-hand run that the relation does not
    see, and one on the left-hand run that moreover always completes. *)
Definition silent_ext {W1 W2 A} (R : W1 -> W2 -> Prop) (op : Ext W2 A)
    : Prop :=
  forall w1 w2, R w1 w2 -> R w1 (snd (op w2)).

Definition quiet_ext {W1 W2 A} (R : W1 -> W2 -> Prop) (op : Ext W1 A)
    : Prop :=
  forall w1 w2, R w1 w2 ->
    R (snd (op w1)) w2 /\ exists a, fst (op w1) = Return a.

(** [view] reads the answer cells of the row a sheet holds:
    [OutputSheet.add] stores the answers it is given, and
    [OutputSheet.clean_up] replaces the empty ones by its argument. *)
Definition shows_answers {W} (C : Collaborators W)
    (view : OutputSheet -> list string) : Prop :=
  (forall sh fd ans w sh' w',
     OutputSheet_add C sh fd ans w = (Return sh', w') -> view sh' = ans) /\
  (forall sh r w sh' w',
     OutputSheet_clean_up C sh r w = (Return sh', w') ->
     view sh' = map (fun a => if String.eqb a "" then r else a) (view sh)).

(** [Preserves Q C]: no operation of [C] moves the world out of [Q],
    that is, whatever an operation writes is invisible to [Q]. *)
Definition preserves_ext {W A} (Q : W -> W -> Prop) (op : Ext W A) : Prop :=
  forall w, Q w (snd (op w)).

Record Preserves {W} (Q : W -> W -> Prop) (C : Collaborators W) : Prop := {
  pres_format_timestamp : forall ts,
    preserves_ext Q (format_timestamp_for_file C ts);
  pres_make_dir : forall p, preserves_ext Q (make_dir_if_not_exists C p);
  pres_sheet_init : forall cols n,
    preserves_ext Q (OutputSheet_init C cols n);
  pres_sheet_add : forall sh fd ans,
    preserves_ext Q (OutputSheet_add C sh fd ans);
  pres_sheet_clean_up : forall sh r,
    preserves_ext Q (OutputSheet_clean_up C sh r);
  pres_sheet_save : forall sh folder name sort ts,
    preserves_ext Q (OutputSheet_save C sh folder name sort ts);
  pres_get_image : forall p sp, preserves_ext Q (get_image C p sp);
  pres_prepare : forall img sp,
    preserves_ext Q (prepare_scan_for_processing C img sp);
  pres_dilate : forall img sp, preserves_ext Q (dilate C img sp);
  pres_find_corners : forall img sp,
    preserves_ext Q (find_corner_marks C img sp);
  pres_grid_init : forall c h v img sp,
    preserves_ext Q (Grid_init C c h v img sp);
  pres_get_group : forall info g,
    preserves_ext Q (get_group_from_info C info g);
  pres_fill_percents : forall grp,
    preserves_ext Q (get_all_fill_percents C grp);
  pres_threshold : forall ffp afp sp fv,
    preserves_ext Q (calculate_bubble_fill_threshold C ffp afp sp fv);
  pres_read_answer : forall i g maf t fv fills,
    preserves_ext Q (read_answer_as_string C i g maf t fv fills);
  pres_read_field : forall k g t fv fills,
    preserves_ext Q (read_field_as_string C k g t fv fills);
  pres_set_status : forall t msg b,
    preserves_ext Q (set_status C t msg b);
  pres_stdout_write : forall msg, preserves_ext Q (stdout_write C msg)
}.

End Extractor.

Arguments path_div {_ _ _ _ _ _ _ _ _ _ _ _} c.
Arguments path_name {_ _ _ _ _ _ _ _ _ _ _ _} c.
Arguments path_stem {_ _ _ _ _ _ _ _ _ _ _ _} c.
Arguments format_timestamp_for_file {_ _ _ _ _ _ _ _ _ _ _ _} c.
Arguments make_dir_if_not_exists {_ _ _ _ _ _ _ _ _ _ _ _} c.
Arguments OutputSheet_init {_ _ _ _ _ _ _ _ _ _ _ _} c.
Arguments OutputSheet_add {_ _ _ _ _ _ _ _ _ _ _ _} c.
Arguments OutputSheet_clean_up {_ _ _ _ _ _ _ _ _ _ _ _} c.
Arguments OutputSheet_save {_ _ _ _ _ _ _ _ _ _ _ _} c.
Arguments get_image {_ _ _ _ _ _ _ _ _ _ _ _} c.
Arguments prepare_scan_for_processing {_ _ _ _ _ _ _ _ _ _ _ _} c.
Arguments dilate {_ _ _ _ _ _ _ _ _ _ _ _} c.
Arguments find_corner_marks {_ _ _ _ _ _ _ _ _ _ _ _} c.
Arguments GRID_HORIZONTAL_CELLS {_ _ _ _ _ _ _ _ _ _ _ _} c.
Arguments GRID_VERTICAL_CELLS {_ _ _ _ _ _ _ _ _ _ _ _} c.
Arguments Grid_init {_ _ _ _ _ _ _ _ _ _ _ _} c.
Arguments get_group_from_info {_ _ _ _ _ _ _ _ _ _ _ _} c.
Arguments get_all_fill_percents {_ _ _ _ _ _ _ _ _ _ _ _} c.
Arguments calculate_bubble_fill_threshold {_ _ _ _ _ _ _ _ _ _ _ _} c.
Arguments read_answer_as_string {_ _ _ _ _ _ _ _ _ _ _ _} c.
Arguments read_field_as_string {_ _ _ _ _ _ _ _ _ _ _ _} c.
Arguments tracker_bool {_ _ _ _ _ _ _ _ _ _ _ _} c.
Arguments set_status {_ _ _ _ _ _ _ _ _ _ _ _} c.
Arguments stdout_write {_ _ _ _ _ _ _ _ _ _ _ _} c.
Arguments mkCollaborators {_ _ _ _ _ _ _ _ _ _ _ _}.
Arguments group_fill_percents {_ _ _ _ _ _ _ _ _ _ _ _} C.
Arguments debug_setup {_ _ _ _ _ _ _ _ _ _ _ _} C.
Arguments extraction_body {_ _ _ _ _ _ _ _ _ _ _ _} C.
Arguments extraction_handler {_ _ _ _ _ _ _ _ _ _ _ _} C.
Arguments extract_answer_key_from_image {_ _ _ _ _ _ _ _ _ _ _ _} C.
Arguments tracker_truthy {_ _ _ _ _ _ _ _ _ _ _ _} C.
Arguments extract_answer_key_from_image_gui {_ _ _ _ _ _ _ _ _ _ _ _} C.
Arguments traced {_ _ _ _ _ _ _ _ _ _ _ _} C.
Arguments observed {_ _ _ _ _ _ _ _ _ _ _ _} C.
Arguments on_console {_ _ _ _ _ _ _ _ _ _ _ _} write C.
Arguments interrupted_at_load {_ _ _ _ _ _ _ _ _ _ _ _} C.
Arguments start_log {_ _ _ _ _ _ _ _ _ _ _ _} s.
Arguments call_log {_ _ _ _ _ _ _ _ _ _ _ _} {_} m s.
Arguments observed_op {_ _ _ _ _ _ _ _ _ _ _ _} {_} ev op.
Arguments completed {_ _ _ _ _ _ _ _ _ _ _} x.
Arguments last_raised {_ _ _ _ _ _ _ _ _ _ _} seg ev e.
Arguments Preserves {_ _ _ _ _ _ _ _ _ _ _ _} Q C.
Arguments corner_message {_ _ _ _ _ _ _ _ _ _ _ _} C.
Arguments failure_message {_ _ _ _ _ _ _ _ _ _ _ _} C.
Arguments console_accepts {_ _ _ _ _ _ _ _ _ _ _ _} C msg.
Arguments reaches_corner_search {_ _ _ _ _ _ _ _ _ _ _ _} C.
Arguments start_trace {_ _ _ _ _ _ _ _ _ _ _ _} s.
Arguments call_trace {_ _ _ _ _ _ _ _ _ _ _ _} {_} m s.
Arguments with_trace {_ _ _ _ _ _ _ _ _ _ _ _} {_} R pre a b.
Arguments erased {_ _ _ _ _ _ _ _ _ _ _ _} a w.
Arguments success_message {_ _ _ _ _ _ _ _ _ _ _ _} C.
Arguments mkRun {_ _ _ _ _ _ _ _}.
Arguments run_image {_ _ _ _ _ _ _ _} r.
Arguments run_prepared_image {_ _ _ _ _ _ _ _} r.
Arguments run_corners {_ _ _ _ _ _ _ _} r.
Arguments run_morphed_image {_ _ _ _ _ _ _ _} r.
Arguments run_grid {_ _ _ _ _ _ _ _} r.
Arguments run_field_items {_ _ _ _ _ _ _ _} r.
Arguments run_answer_fill_percents {_ _ _ _ _ _ _ _} r.
Arguments run_threshold {_ _ _ _ _ _ _ _} r.
Arguments run_answers {_ _ _ _ _ _ _ _} r.
Arguments run_code {_ _ _ _ _ _ _ _} r.
Arguments run_sheet_created {_ _ _ _ _ _ _ _} r.
Arguments run_sheet_filled {_ _ _ _ _ _ _ _} r.
Arguments run_sheet_cleaned {_ _ _ _ _ _ _ _} r.
Arguments run_output_path {_ _ _ _ _ _ _ _} r.
Arguments at_image {_ _ _ _ _ _ _ _} r.
Arguments at_prepared_image {_ _ _ _ _ _ _ _} r.
Arguments at_corners {_ _ _ _ _ _ _ _} r.
Arguments at_morphed_image {_ _ _ _ _ _ _ _} r.
Arguments at_grid {_ _ _ _ _ _ _ _} r.
Arguments at_field_fill_percents {_ _ _ _ _ _ _ _} r.
Arguments at_answer_fill_percents {_ _ _ _ _ _ _ _} r.
Arguments at_threshold {_ _ _ _ _ _ _ _} r.
Arguments at_answers {_ _ _ _ _ _ _ _} r.
Arguments at_form_code {_ _ _ _ _ _ _ _} r.
Arguments at_sheet_created {_ _ _ _ _ _ _ _} r.
Arguments at_sheet_filled {_ _ _ _ _ _ _ _} r.
Arguments at_sheet_cleaned {_ _ _ _ _ _ _ _} r.
Arguments at_saved {_ _ _ _ _ _ _ _} r.
Arguments run_field_fill_percents {_ _ _ _ _ _ _ _} r.
Arguments run_form_code {_ _ _ _ _ _ _ _} r.
Arguments run_field_data {_ _ _ _ _ _ _ _ _ _ _ _} C.
Arguments run_final_state {_ _ _ _ _ _ _ _ _ _ _ _} C.
Arguments reports_success {_ _ _ _ _ _ _ _ _ _ _ _} C.
Arguments pipeline_steps {_ _ _ _ _ _ _ _ _ _ _ _} C.
Arguments shows_answers {_ _ _ _ _ _ _ _ _ _ _ _} C view.
Arguments traced_op {_ _ _ _ _ _ _ _ _ _ _ _} {_} ev op.
Arguments Simulates {_ _ _ _ _ _ _ _ _ _ _ _} {_} R P C1 C2.
Arguments sim_ext {_ _} R {_} op1 op2.
Arguments sim_path_div {_ _ _ _ _ _ _ _ _ _ _ _ _ _ _ _ _}.
Arguments sim_path_name {_ _ _ _ _ _ _ _ _ _ _ _ _ _ _ _ _}.
Arguments sim_path_stem {_ _ _ _ _ _ _ _ _ _ _ _ _ _ _ _ _}.
Arguments sim_grid_h {_ _ _ _ _ _ _ _ _ _ _ _ _ _ _ _ _}.
Arguments sim_grid_v {_ _ _ _ _ _ _ _ _ _ _ _ _ _ _ _ _}.
Arguments sim_tracker_bool {_ _ _ _ _ _ _ _ _ _ _ _ _ _ _ _ _}.
Arguments sim_format_timestamp {_ _ _ _ _ _ _ _ _ _ _ _ _ _ _ _ _}.
Arguments sim_make_dir {_ _ _ _ _ _ _ _ _ _ _ _ _ _ _ _ _}.
Arguments sim_sheet_init {_ _ _ _ _ _ _ _ _ _ _ _ _ _ _ _ _}.
Arguments sim_sheet_add {_ _ _ _ _ _ _ _ _ _ _ _ _ _ _ _ _}.
Arguments sim_sheet_clean_up {_ _ _ _ _ _ _ _ _ _ _ _ _ _ _ _ _}.
Arguments sim_sheet_save {_ _ _ _ _ _ _ _ _ _ _ _ _ _ _ _ _}.
Arguments sim_get_image {_ _ _ _ _ _ _ _ _ _ _ _ _ _ _ _ _}.
Arguments sim_prepare {_ _ _ _ _ _ _ _ _ _ _ _ _ _ _ _ _}.
Arguments sim_dilate {_ _ _ _ _ _ _ _ _ _ _ _ _ _ _ _ _}.
Arguments sim_find_corners {_ _ _ _ _ _ _ _ _ _ _ _ _ _ _ _ _}.
Arguments sim_grid_init {_ _ _ _ _ _ _ _ _ _ _ _ _ _ _ _ _}.
Arguments sim_get_group {_ _ _ _ _ _ _ _ _ _ _ _ _ _ _ _ _}.
Arguments sim_fill_percents {_ _ _ _ _ _ _ _ _ _ _ _ _ _ _ _ _}.
Arguments sim_threshold {_ _ _ _ _ _ _ _ _ _ _ _ _ _ _ _ _}.
Arguments sim_read_answer {_ _ _ _ _ _ _ _ _ _ _ _ _ _ _ _ _}.
Arguments sim_read_field {_ _ _ _ _ _ _ _ _ _ _ _ _ _ _ _ _}.
Arguments sim_set_status {_ _ _ _ _ _ _ _ _ _ _ _ _ _ _ _ _}.
Arguments sim_stdout_write {_ _ _ _ _ _ _ _ _ _ _ _ _ _ _ _ _}.
Arguments pres_format_timestamp {_ _ _ _ _ _ _ _ _ _ _ _ _ _}.
Arguments pres_make_dir {_ _ _ _ _ _ _ _ _ _ _ _ _ _}.
Arguments pres_sheet_init {_ _ _ _ _ _ _ _ _ _ _ _ _ _}.
Arguments pres_sheet_add {_ _ _ _ _ _ _ _ _ _ _ _ _ _}.
Arguments pres_sheet_clean_up {_ _ _ _ _ _ _ _ _ _ _ _ _ _}.
Arguments pres_sheet_save {_ _ _ _ _ _ _ _ _ _ _ _ _ _}.
Arguments pres_get_image {_ _ _ _ _ _ _ _ _ _ _ _ _ _}.
Arguments pres_prepare {_ _ _ _ _ _ _ _ _ _ _ _ _ _}.
Arguments pres_dilate {_ _ _ _ _ _ _ _ _ _ _ _ _ _}.
Arguments pres_find_corners {_ _ _ _ _ _ _ _ _ _ _ _ _ _}.
Arguments pres_grid_init {_ _ _ _ _ _ _ _ _ _ _ _ _ _}.
Arguments pres_get_group {_ _ _ _ _ _ _ _ _ _ _ _ _ _}.
Arguments pres_fill_percents {_ _ _ _ _ _ _ _ _ _ _ _ _ _}.
Arguments pres_threshold {_ _ _ _ _ _ _ _ _ _ _ _ _ _}.
Arguments pres_read_answer {_ _ _ _ _ _ _ _ _ _ _ _ _ _}.
Arguments pres_read_field {_ _ _ _ _ _ _ _ _ _ _ _ _ _}.
Arguments pres_set_status {_ _ _ _ _ _ _ _ _ _ _ _ _ _}.
Arguments pres_stdout_write {_ _ _ _ _ _ _ _ _ _ _ _ _ _}.
Arguments sim_M {_ _} R {_} m1 m2.
Arguments EvFormatTimestamp {_ _ _ _ _ _ _ _ _ _ _}.
Arguments EvMakeDir {_ _ _ _ _ _ _ _ _ _ _}.
Arguments EvGetImage {_ _ _ _ _ _ _ _ _ _ _}.
Arguments EvPrepareScan {_ _ _ _ _ _ _ _ _ _ _}.
Arguments EvFindCorners {_ _ _ _ _ _ _ _ _ _ _}.
Arguments EvDilate {_ _ _ _ _ _ _ _ _ _ _}.
Arguments EvGrid {_ _ _ _ _ _ _ _ _ _ _}.
Arguments EvGetGroup {_ _ _ _ _ _ _ _ _ _ _}.
Arguments EvFillPercents {_ _ _ _ _ _ _ _ _ _ _}.
Arguments EvThreshold {_ _ _ _ _ _ _ _ _ _ _}.
Arguments EvReadAnswer {_ _ _ _ _ _ _ _ _ _ _}.
Arguments EvReadField {_ _ _ _ _ _ _ _ _ _ _}.
Arguments EvSheetInit {_ _ _ _ _ _ _ _ _ _ _}.
Arguments EvSheetAdd {_ _ _ _ _ _ _ _ _ _ _}.
Arguments EvSheetCleanUp {_ _ _ _ _ _ _ _ _ _ _}.
Arguments EvSheetSave {_ _ _ _ _ _ _ _ _ _ _}.
Arguments EvSetStatus {_ _ _ _ _ _ _ _ _ _ _}.
Arguments StDebugSetup {_}.
Arguments StLoadImage {_}.
Arguments StPrepareScan {_}.
Arguments StCornerLocation {_}.
Arguments StDilate {_}.
Arguments StGridConstruction {_}.
Arguments StFillMeasurement {_}.
Arguments StThresholdCalibration {_}.
Arguments StDecodeAnswer {_}.
Arguments StDecodeField {_}.
Arguments StAssembleRecord {_}.
Arguments StSaveRecord {_}.
Arguments StProgress {_}.
Arguments has_form_code {_} form_variant.
Arguments expected_stages {_} debug_mode_on form_variant.
Arguments emits {_ _ _ _ _ _ _ _ _ _ _ _} s s' stages.
Arguments stage_of {_ _ _ _ _ _ _ _ _ _ _} ev.
Arguments stages_of {_ _ _ _ _ _ _ _ _ _ _} trace.
Arguments configured_fields {_} items.
Arguments mkFormVariant {_}.
Arguments fields {_} f.
Arguments questions {_} f.
Arguments num_questions {_} f.

(** ** A test double for the imported modules

    Concrete collaborators on which the extractor can be run: scans are
    tables of fill percents, the world is a small file system.  The
    decoder and the corner-mark check follow the specification; the rest
    is the simplest behaviour with the right interface. *)
Module Double.

Definition Path : Type := list string.

Definition div (p : Path) (s : string) : Path := (p ++ [s])%list.

Definition name (p : Path) : string := last p "".

Fixpoint has_dot (s : string) : bool :=
  match s with
  | EmptyString => false
  | String c rest => if Ascii.eqb c "."%char then true else has_dot rest
  end.

(** The characters before the last dot. *)
Fixpoint before_last_dot (s : string) : string :=
  match s with
  | EmptyString => EmptyString
  | String c rest =>
      if has_dot rest then String c (before_last_dot rest)
      else if Ascii.eqb c "."%char then EmptyString
      else String c (before_last_dot rest)
  end.

(** [p.stem]: the name without its last suffix; a name whose only dot
    is the leading one has no suffix. *)
Definition stem (p : Path) : string :=
  let n := name p in
  match before_last_dot n with
  | EmptyString => n
  | s => s
  end.

(** A scan: how many corner marks it shows, and the fill percent of
    every bubble of every group. *)
Record Scan : Type := mkScan { fiducials : nat; bubbles : list (list Z) }.

Record Sheet : Type := mkSheet {
  columns : list Field;
  sheet_questions : Z;
  rows : list (list string * list string)
}.

Inductive Artifact : Type :=
| Directory
| DebugImage
| Csv (sheet : Sheet).

Record World : Type := mkWorld {
  scans : list (Path * Scan);
  written : list (Path * Artifact);
  status_line : list string
}.

Definition FormVariant : Type := FormVariant nat.

Fixpoint path_eqb (p q : Path) : bool :=
  match p, q with
  | [], [] => true
  | a :: p', b :: q' => String.eqb a b && path_eqb p' q'
  | _, _ => false
  end.

Fixpoint find_scan (l : list (Path * Scan)) (p : Path) : option Scan :=
  match l with
  | [] => None
  | (q, s) :: l' => if path_eqb p q then Some s else find_scan l' p
  end.

Definition write (p : Path) (a : Artifact) (w : World) : World :=
  mkWorld (scans w) (written w ++ [(p, a)]) (status_line w).

(** A debug capture: written only when a sink is given. *)
Definition capture (save_path : option Path) (what : string) (w : World)
    : World :=
  match save_path with
  | Some dir => write (div dir what) DebugImage w
  | None => w
  end.

Definition letter (i : nat) : string :=
  String (Ascii.ascii_of_nat (65 + i)) EmptyString.

(** The letters of the bubbles whose fill percent meets the threshold,
    in index order, counting from bubble [i]. *)
Fixpoint marked_from (i : nat) (threshold : Z) (fills : list Z) : list string :=
  match fills with
  | [] => []
  | f :: rest =>
      if (threshold <=? f)%Z
      then letter i :: marked_from (S i) threshold rest
      else marked_from (S i) threshold rest
  end.

(** Modelled from the spec: [grid_reading.read_answer_as_string] is not
    among the sources.  Section 4.5: no bubble marked gives the empty
    answer, one gives its letter, several give the sentinel ["F"] when
    multiple marks are collapsed and all marked letters otherwise. *)
Definition decode (multi_answers_as_f : bool) (threshold : Z)
    (fills : list Z) : string :=
  match marked_from 0 threshold fills with
  | [] => ""
  | [l] => l
  | ls => if multi_answers_as_f then "F" else String.concat "" ls
  end.

Definition pooled (field_fills : dict (list Z)) (answer_fills : list (list Z))
    : list Z :=
  (concat (map snd field_fills) ++ concat answer_fills)%list.

(** Modelled from the spec: [grid_reading.calculate_bubble_fill_threshold]
    is not among the sources.  Section 4.4: a cut between the low and
    the high cluster of the pooled population, here the midpoint of its
    extremes, and a default when the population does not separate. *)
Definition calibrate (population : list Z) : Z :=
  let lo := fold_right Z.min 100%Z population in
  let hi := fold_right Z.max 0%Z population in
  if (hi - lo <? 20)%Z then 50%Z else ((lo + hi) / 2)%Z.

Definition replace_empty (r : string) (a : string) : string :=
  if String.eqb a "" then r else a.

Definition ok {A} (a : A) (w : World) : Outcome A * World := (Return a, w).

Definition fail {A} (c : ExnClass) (msg : string) (w : World)
    : Outcome A * World := (Raise (mkExn c msg), w).

(** The progress tracker [0] is a window that has been destroyed: its
    [set_status] raises.  Standard output accepts every line. *)
Definition collaborators
    : Collaborators Path string Scan nat Scan nat (list Z) (list Z) Z
        Sheet nat World :=
  {| path_div := div;
     path_name := name;
     path_stem := stem;
     format_timestamp_for_file := fun ts =>
       ok (match ts with Some t => t ++ "__" | None => "" end);
     make_dir_if_not_exists := fun p w => ok tt (write p Directory w);
     OutputSheet_init := fun cols n => ok (mkSheet cols n []);
     OutputSheet_add := fun sh fd ans =>
       ok (mkSheet (columns sh) (sheet_questions sh)
             (rows sh ++
              [(map (fun c => match dict_get fd c with
                              | Some v => v
                              | None => ""
                              end) (columns sh), ans)]));
     OutputSheet_clean_up := fun sh r =>
       ok (mkSheet (columns sh) (sheet_questions sh)
             (map (fun row => (fst row, map (replace_empty r) (snd row)))
                  (rows sh)));
     OutputSheet_save := fun sh folder base _ ts w =>
       let file :=
         div folder
           (match ts with Some t => t ++ "__" | None => "" end
            ++ base ++ ".csv") in
       ok file (write file (Csv sh) w);
     get_image := fun p sp w =>
       match find_scan (scans w) p with
       | Some img => ok img (capture sp "original.png" w)
       | None => fail OtherException "cannot read image" w
       end;
     prepare_scan_for_processing := fun img sp w =>
       ok img (capture sp "prepared.png" w);
     dilate := fun img sp w => ok img (capture sp "dilated.png" w);
     find_corner_marks := fun img sp w =>
       if (4 <=? fiducials img)%nat
       then ok (fiducials img) (capture sp "corners.png" w)
       else fail CornerFindingError "fewer than 4 corner marks" w;
     GRID_HORIZONTAL_CELLS := 36%Z;
     GRID_VERTICAL_CELLS := 48%Z;
     Grid_init := fun _ _ _ img sp w => ok img (capture sp "grid.png" w);
     get_group_from_info := fun info grid =>
       match nth_error (bubbles grid) info with
       | Some g => ok g
       | None => fail OtherException "group outside the grid"
       end;
     get_all_fill_percents := fun g => ok g;
     calculate_bubble_fill_threshold := fun ffp afp sp _ w =>
       ok (calibrate (pooled ffp afp)) (capture sp "threshold.txt" w);
     read_answer_as_string := fun _ _ maf t _ fills =>
       ok (decode maf t fills);
     read_field_as_string := fun _ _ t _ fills =>
       ok (match decode false t fills with
           | EmptyString => None
           | s => Some s
           end);
     tracker_bool := fun _ => true;
     set_status := fun t msg _ w =>
       match t with
       | O => fail OtherException "window has been destroyed" w
       | S _ =>
           ok tt (mkWorld (scans w) (written w) (status_line w ++ [msg]))
       end;
     stdout_write := fun _ => ok tt |}.

(** A standard output that encodes ASCII only and raises
    [UnicodeEncodeError] on any other character. *)
Fixpoint is_ascii (s : string) : bool :=
  match s with
  | EmptyString => true
  | String c rest => (Ascii.nat_of_ascii c <? 128)%nat && is_ascii rest
  end.

Definition ascii_console (msg : string) : Ext World unit :=
  if is_ascii msg then ok tt
  else fail OtherException "'ascii' codec can't encode character".

(** The answer cells of the last row of a sheet. *)
Definition last_answers (sh : Sheet) : list string :=
  snd (last (rows sh) ([], [])).

(** Worlds that hold the same scans: all that the double ever reads. *)
Definition same_scans (w1 w2 : World) : Prop := scans w1 = scans w2.

(** A sheet with a form-code group, a last-name group and three
    questions; question 1 marks B, question 2 marks A and C, question 3
    is blank. *)
Definition sheet_scan : Scan :=
  mkScan 4 [[5; 90; 4]%Z; [88; 6; 3]%Z;
            [10; 95; 5]%Z; [80; 5; 85]%Z; [5; 5; 5]%Z].

(** The same sheet with a torn corner. *)
Definition torn_scan : Scan := mkScan 3 (bubbles sheet_scan).

Definition form : FormVariant :=
  mkFormVariant
    [(OtherField "LAST_NAME", Some 0%nat); (TEST_FORM_CODE, Some 1%nat);
     (OtherField "COURSE_ID", None)]
    [2%nat; 3%nat; 4%nat] 3%Z.

(** A layout without a form-code field. *)
Definition form_without_code : FormVariant :=
  mkFormVariant [(OtherField "LAST_NAME", Some 0%nat); (TEST_FORM_CODE, None)]
    [2%nat; 3%nat; 4%nat] 3%Z.

Definition desk : World :=
  mkWorld [(["in"; "key.png"], sheet_scan); (["in"; "torn.png"], torn_scan)]
    [] [].

Definition start : PyState World := mkState desk [].

(** The same desk with an empty call trace beside it. *)
Definition Event : Type :=
  Event Path string Scan nat Scan nat (list Z) (list Z) Z Sheet nat.

Definition traced_start : PyState (World * list Event) :=
  mkState (desk, []) [].

(** The record of a run on the double. *)
Definition Run : Type := Run Path Scan nat Scan (list Z) Z Sheet World.

(** The arguments of the runs below. *)
Definition key_image : Path := ["in"; "key.png"].
Definition torn_image : Path := ["in"; "torn.png"].
Definition missing_image : Path := ["in"; "none.png"].
Definition out_folder : Path := ["out"].
Definition stamp : option string := Some "2024".
Definition csv : Path := ["out"; "2024__extracted_answer_key.csv"].

(** [extract_answer_key_from_image] on the double: multiple marks are
    collapsed, empty answers are shown as ["G"]. *)
Abbreviation extract image fv debug_mode_on :=
  (extract_answer_key_from_image collaborators image out_folder true true fv
     stamp debug_mode_on).

Abbreviation extract_traced image fv debug_mode_on :=
  (extract_answer_key_from_image (traced collaborators) image out_folder
     true true fv stamp debug_mode_on).

Abbreviation extract_gui tracker :=
  (extract_answer_key_from_image_gui collaborators
     key_image out_folder true true form stamp tracker false).

End Double.

(** * The desktop shell: [main_gui.py]

    The script asks the user what to do, optionally extracts an answer
    key from one image, and hands the remaining images to
    [process_input].  It is embedded as one statement, [main_gui], over
    the collaborators of the extractor and those of the shell. *)

(** [user_interface.FormVariantSelection]; the script names one member. *)
Inductive FormVariantSelection : Type :=
| VARIANT_150_Q
| OtherVariant (name : string).

Definition FormVariantSelection_eqb (a b : FormVariantSelection) : bool :=
  match a, b with
  | VARIANT_150_Q, VARIANT_150_Q => true
  | OtherVariant x, OtherVariant y => String.eqb x y
  | _, _ => false
  end.

(** [sys.exit(0)]: [SystemExit] is not an [Exception]. *)
Definition SystemExit_0 : Exn := mkExn NonException "0".

(** The line break of the status texts. *)
Definition newline : string := String (ascii_of_nat 10) EmptyString.

(** What a statement prints: nothing at all, or lines that, together
    with its outcome, satisfy [Q]. *)
Definition prints_nothing {W A} (m : M (PyState W) A) : Prop :=
  forall s, stdout (snd (m s)) = stdout s.

Definition outputs {W A} (m : M (PyState W) A)
    (Q : Outcome A -> list string -> Prop) : Prop :=
  forall s, exists out,
    stdout (snd (m s)) = (stdout s ++ out)%list /\ Q (fst (m s)) out.

Section Shell.

Variables Path Datetime Image Corners Grid GroupInfo BubbleGroup : Type.
Variables Fills Threshold OutputSheet Tracker Window : Type.

(** The attributes of the object [user_interface.MainWindow()] returns,
    as the script reads them. *)
Record UserInput : Type := mkUserInput {
  ui_cancelled : bool;
  ui_extract_answer_key_mode : bool;
  ui_extract_answer_key_image : option Path;
  ui_input_folder : Path;
  ui_output_folder : Path;
  ui_multi_answers_as_f : bool;
  ui_empty_answers_as_g : bool;
  ui_keys_file : option Path;
  ui_arrangement_map : option Path;
  ui_sort_results : bool;
  ui_output_mcta : bool;
  ui_debug_mode : bool;
  ui_form_variant : FormVariantSelection
}.

(** What the script imports besides the extractor.  [window_cancelled]
    reads the attribute [cancelled] of the extraction window, which the
    user sets while the window is open; [now] is
    [datetime.now().replace(microsecond=0)]; [path_eqb] is equality of
    paths. *)
Record Shell (W : Type) : Type := mkShell {
  (* user_interface *)
  MainWindow : Ext W UserInput;
  create_extraction_window : UserInput -> Ext W Window;
  window_set_status : Window -> string -> Ext W unit;
  start_progress : Window -> Ext W unit;
  stop_progress : Window -> Ext W unit;
  wait_for_close : Window -> Ext W unit;
  window_cancelled : Window -> Ext W bool;
  create_and_pack_progress : UserInput -> Z -> Ext W Tracker;
  (* datetime, pathlib *)
  now : Ext W Datetime;
  path_eqb : Path -> Path -> bool;
  (* file_handling *)
  list_file_paths : Path -> Ext W (list Path);
  filter_images : list Path -> Ext W (list Path);
  (* grid_info *)
  form_150q : FormVariant GroupInfo;
  form_75q : FormVariant GroupInfo;
  (* process_input *)
  process_input :
    list Path -> Path -> bool -> bool -> option Path -> option Path ->
    bool -> bool -> bool -> FormVariant GroupInfo -> Tracker -> Datetime ->
    Ext W unit
}.

Arguments MainWindow {W} s.
Arguments create_extraction_window {W} s.
Arguments window_set_status {W} s.
Arguments start_progress {W} s.
Arguments stop_progress {W} s.
Arguments wait_for_close {W} s.
Arguments window_cancelled {W} s.
Arguments create_and_pack_progress {W} s.
Arguments now {W} s.
Arguments path_eqb {W} s.
Arguments list_file_paths {W} s.
Arguments filter_images {W} s.
Arguments form_150q {W} s.
Arguments form_75q {W} s.
Arguments process_input {W} s.

(** The events that belong to the pipeline proper: everything but the
    debug set-up and the progress widget. *)
Definition is_pipeline_event
    (ev : Event Path Datetime Image Corners Grid GroupInfo BubbleGroup Fills
            Threshold OutputSheet Tracker) : bool :=
  match ev with
  | EvFormatTimestamp _ | EvMakeDir _ | EvSetStatus _ _ => false
  | _ => true
  end.

(** Every call a traced statement makes satisfies [P], however the
    statement ends. *)
Definition only_calls {W A}
    (P : Event Path Datetime Image Corners Grid GroupInfo BubbleGroup Fills
           Threshold OutputSheet Tracker -> Prop)
    (m : M (PyState (W * list (Event Path Datetime Image Corners Grid
                                 GroupInfo BubbleGroup Fills Threshold
                                 OutputSheet Tracker))) A) : Prop :=
  forall s, exists seg,
    snd (world (snd (m s))) = (snd (world s) ++ seg)%list /\ Forall P seg.

(** How the calls of an observed statement end.  [propagates P m]:
    [m] prints nothing and calls only operations that satisfy [P];
    either all its calls completed, or the last one raised and [m] ends
    with that very exception. *)
Definition propagates {W A}
    (P : Event Path Datetime Image Corners Grid GroupInfo BubbleGroup Fills
           Threshold OutputSheet Tracker -> Prop)
    (m : M (PyState (W * list (Entry Path Datetime Image Corners Grid
                                 GroupInfo BubbleGroup Fills Threshold
                                 OutputSheet Tracker))) A) : Prop :=
  forall s, exists seg,
    snd (world (snd (m s))) = (snd (world s) ++ seg)%list /\
    stdout (snd (m s)) = stdout s /\
    Forall (fun x => P (fst x)) seg /\
    (Forall completed seg \/
     exists ev e, last_raised seg ev e /\ fst (m s) = Raise e).

(** The same for a statement that handles corner-finding errors and
    prints: when the last call raised anything else, the statement ends
    with that exception and has printed nothing. *)
Definition propagates_unexpected {W A}
    (P : Event Path Datetime Image Corners Grid GroupInfo BubbleGroup Fills
           Threshold OutputSheet Tracker -> Prop)
    (m : M (PyState (W * list (Entry Path Datetime Image Corners Grid
                                 GroupInfo BubbleGroup Fills Threshold
                                 OutputSheet Tracker))) A) : Prop :=
  forall s, exists seg,
    snd (world (snd (m s))) = (snd (world s) ++ seg)%list /\
    Forall (fun x => P (fst x)) seg /\
    (Forall completed seg \/
     exists ev e, last_raised seg ev e /\
       (isinstance_CornerFindingError e = true \/
        (fst (m s) = Raise e /\ stdout (snd (m s)) = stdout s))).

(** A statement that calls no imported operation. *)
Definition calls_nothing {W L A} (m : M (PyState (W * L)) A) : Prop :=
  forall s, snd (world (snd (m s))) = snd (world s).

(** A relation between a world with a log and the same world without. *)
Definition without_log {W L} (a : W * L) (w : W) : Prop := fst a = w.

Section Script.

Variable W : Type.
Variable C : Collaborators Path Datetime Image Corners Grid GroupInfo
               BubbleGroup Fills Threshold OutputSheet Tracker W.
Variable S : Shell W.

Let St := PyState W.

(** The status texts of the GUI variant of the extractor. *)
Definition gui_start_message (image_path : Path) : string :=
  "Extracting answer key from '" ++ path_name C image_path ++ "'.".

Definition gui_final_message (image_path : Path) (result : option Path)
    : string :=
  match result with
  | Some p =>
      "✔️ Answer key extracted and saved to '" ++ path_name C p ++ "'"
  | None =>
      "❌ Failed to extract answer key from '" ++ path_name C image_path ++ "'"
  end.

(** What [extract_answer_key_from_image] reports on standard output,
    by outcome: the success line with a path; with [None] the corner
    line or, debug mode off, the failure line of an [Exception]; with an
    exception, the failure line only for an [Exception] raised again in
    debug mode. *)
Definition sheet_report (image_path : Path) (debug_mode_on : bool)
    (o : Outcome (option Path)) (out : list string) : Prop :=
  match o with
  | Return (Some p) => out = [success_message C image_path p]
  | Return None =>
      exists e,
        (isinstance_CornerFindingError e = true /\
         out = [corner_message C image_path e]) \/
        (debug_mode_on = false /\ isinstance_Exception e = true /\
         out = [failure_message C image_path e])
  | Raise e =>
      out = [] \/
      (debug_mode_on = true /\ isinstance_Exception e = true /\
       out = [failure_message C image_path e])
  end.

(** [user_input.extract_answer_key_mode and
    user_input.extract_answer_key_image]: the image when the expression
    is truthy. *)
Definition key_image_of (user_input : UserInput) : option Path :=
  if ui_extract_answer_key_mode user_input
  then ui_extract_answer_key_image user_input
  else None.

(** [grid_i.form_150q if user_input.form_variant ==
    FormVariantSelection.VARIANT_150_Q else grid_i.form_75q]. *)
Definition selected_form_variant (user_input : UserInput)
    : FormVariant GroupInfo :=
  if FormVariantSelection_eqb (ui_form_variant user_input) VARIANT_150_Q
  then form_150q S
  else form_75q S.

(** The status texts of the extraction window. *)
Definition shell_success_message (extracted_key_path : Path) : string :=
  "✔️ Answer key successfully extracted and saved to:" ++ newline
  ++ path_name C extracted_key_path ++ newline ++ newline
  ++ "You can now use this file as an answer key for processing other sheets.".

Definition shell_failure_message : string :=
  "❌ Failed to extract answer key from the selected image." ++ newline
  ++ "Please check the image quality and try again.".

Definition shell_error_message (e : Exn) : string :=
  "❌ Error during answer key extraction:" ++ newline ++ exn_str e.

(** Lines 25-43: the [try] statement of the script; its value is
    [user_input.keys_file] as it stands afterwards. *)
Definition extraction_attempt (user_input : UserInput) (key_image : Path)
    (extraction_window : Window) (form_variant : FormVariant GroupInfo)
    (files_timestamp : Datetime) : M St (option Path) :=
  try_except
    (extracted_key_path <-
       extract_answer_key_from_image C key_image
         (ui_output_folder user_input)
         (ui_multi_answers_as_f user_input)
         (ui_empty_answers_as_g user_input)
         form_variant (Some files_timestamp) (ui_debug_mode user_input) ;;
     match extracted_key_path with
     | Some p =>
         call (window_set_status S extraction_window
                 (shell_success_message p)) ;;;
         (* Set the extracted key as the keys file for processing *)
         ret (Some p)
     | None =>
         call (window_set_status S extraction_window
                 shell_failure_message) ;;;
         ret (ui_keys_file user_input)
     end)
    isinstance_Exception
    (fun e =>
       call (window_set_status S extraction_window
               (shell_error_message e)) ;;;
       ret (ui_keys_file user_input))
    ret.

(** Lines 14-49: the extraction mode; its value is the keys file. *)
Definition extraction_phase (user_input : UserInput) (key_image : Path)
    : M St (option Path) :=
  (* Create extraction window *)
  extraction_window <- call (create_extraction_window S user_input) ;;
  call (window_set_status S extraction_window
          "Starting answer key extraction...") ;;;
  call (start_progress S extraction_window) ;;;
  (* Extract answer key from the selected image *)
  let form_variant := selected_form_variant user_input in
  files_timestamp <- call (now S) ;;
  keys_file <-
    extraction_attempt user_input key_image extraction_window form_variant
      files_timestamp ;;
  call (stop_progress S extraction_window) ;;;
  call (wait_for_close S extraction_window) ;;;
  cancelled <- call (window_cancelled S extraction_window) ;;
  if cancelled then raise SystemExit_0 else ret keys_file.

(** Lines 51-63: the images left to process. *)
Definition remaining_images (user_input : UserInput) : M St (list Path) :=
  listed <- call (list_file_paths S (ui_input_folder user_input)) ;;
  image_paths <- call (filter_images S listed) ;;
  (* If we extracted an answer key, remove that image from processing list *)
  let image_paths :=
    match key_image_of user_input with
    | Some key_image =>
        filter (fun path => negb (path_eqb S path key_image)) image_paths
    | None => image_paths
    end in
  (* Check if there are any images left to process *)
  match image_paths with
  | [] => raise SystemExit_0
  | _ :: _ => ret image_paths
  end.

(** [main_gui.py]. *)
Definition main_gui : M St unit :=
  user_input <- call (MainWindow S) ;;
  (if ui_cancelled user_input then raise SystemExit_0 else ret tt) ;;;
  (* Check if we're in answer key extraction mode *)
  keys_file <-
    match key_image_of user_input with
    | Some key_image => extraction_phase user_input key_image
    | None => ret (ui_keys_file user_input)
    end ;;
  (* Continue with normal processing if there are other images to process *)
  image_paths <- remaining_images user_input ;;
  progress_tracker <-
    call (create_and_pack_progress S user_input
            (Z.of_nat (length image_paths))) ;;
  files_timestamp <- call (now S) ;;
  call (process_input S image_paths
          (ui_output_folder user_input)
          (ui_multi_answers_as_f user_input)
          (ui_empty_answers_as_g user_input)
          keys_file
          (ui_arrangement_map user_input)
          (ui_sort_results user_input)
          (ui_output_mcta user_input)
          (ui_debug_mode user_input)
          (selected_form_variant user_input)
          progress_tracker files_timestamp).

(** *** Vocabulary of the statements about the shell *)

(** An operation that always completes. *)
Definition completes {A} (op : Ext W A) : Prop :=
  forall w, exists a, fst (op w) = Return a.

(** The extraction window works: none of its operations raises. *)
Definition window_works : Prop :=
  (forall u, completes (create_extraction_window S u)) /\
  (forall win msg, completes (window_set_status S win msg)) /\
  (forall win, completes (start_progress S win)) /\
  (forall win, completes (stop_progress S win)) /\
  (forall win, completes (wait_for_close S win)) /\
  (forall win, completes (window_cancelled S win)) /\
  completes (now S).

End Script.

End Shell.

Arguments mkUserInput {_}.
Arguments ui_cancelled {_} u.
Arguments ui_extract_answer_key_mode {_} u.
Arguments ui_extract_answer_key_image {_} u.
Arguments ui_input_folder {_} u.
Arguments ui_output_folder {_} u.
Arguments ui_multi_answers_as_f {_} u.
Arguments ui_empty_answers_as_g {_} u.
Arguments ui_keys_file {_} u.
Arguments ui_arrangement_map {_} u.
Arguments ui_sort_results {_} u.
Arguments ui_output_mcta {_} u.
Arguments ui_debug_mode {_} u.
Arguments ui_form_variant {_} u.
Arguments key_image_of {_} user_input.
Arguments mkShell {_ _ _ _ _ _}.
Arguments MainWindow {_ _ _ _ _ _} s.
Arguments create_extraction_window {_ _ _ _ _ _} s.
Arguments window_set_status {_ _ _ _ _ _} s.
Arguments start_progress {_ _ _ _ _ _} s.
Arguments stop_progress {_ _ _ _ _ _} s.
Arguments wait_for_close {_ _ _ _ _ _} s.
Arguments window_cancelled {_ _ _ _ _ _} s.
Arguments create_and_pack_progress {_ _ _ _ _ _} s.
Arguments now {_ _ _ _ _ _} s.
Arguments path_eqb {_ _ _ _ _ _} s.
Arguments list_file_paths {_ _ _ _ _ _} s.
Arguments filter_images {_ _ _ _ _ _} s.
Arguments form_150q {_ _ _ _ _ _} s.
Arguments form_75q {_ _ _ _ _ _} s.
Arguments process_input {_ _ _ _ _ _} s.
Arguments is_pipeline_event {_ _ _ _ _ _ _ _ _ _ _} ev.
Arguments gui_start_message {_ _ _ _ _ _ _ _ _ _ _ _} C.
Arguments gui_final_message {_ _ _ _ _ _ _ _ _ _ _ _} C.
Arguments selected_form_variant {_ _ _ _ _ _} S.
Arguments shell_success_message {_ _ _ _ _ _ _ _ _ _ _ _} C.
Arguments extraction_attempt {_ _ _ _ _ _ _ _ _ _ _ _ _} C S.
Arguments extraction_phase {_ _ _ _ _ _ _ _ _ _ _ _ _} C S.
Arguments remaining_images {_ _ _ _ _ _} S.
Arguments main_gui {_ _ _ _ _ _ _ _ _ _ _ _ _} C S.
Arguments completes {_ _} op.
Arguments only_calls {_ _ _ _ _ _ _ _ _ _ _ _ _} P m.
Arguments propagates {_ _ _ _ _ _ _ _ _ _ _ _ _} P m.
Arguments propagates_unexpected {_ _ _ _ _ _ _ _ _ _ _ _ _} P m.
Arguments sheet_report {_ _ _ _ _ _ _ _ _ _ _ _} C.
Arguments window_works {_ _ _ _ _ _} S.

(** ** A test double for the shell

    The user asks for the answer key of [key.png]; the input folder
    holds that image and a second sheet; every window operation
    completes and the user closes the extraction window without
    cancelling. *)
Module Desk.

Definition UserInput : Type := UserInput Double.Path.

Definition request (debug_mode : bool) : UserInput :=
  mkUserInput false true (Some Double.key_image) ["in"] Double.out_folder
    true true None None false false debug_mode (OtherVariant "75q").

(** The same request when the image to extract cannot be read. *)
Definition request_missing (debug_mode : bool) : UserInput :=
  mkUserInput false true (Some Double.missing_image) ["in"] Double.out_folder
    true true None None false false debug_mode (OtherVariant "75q").

Definition show (msg : string) (w : Double.World) : Double.World :=
  Double.mkWorld (Double.scans w) (Double.written w)
    (Double.status_line w ++ [msg]).

(** The result file of the grading: one row per graded image. *)
Definition graded (image_paths : list Double.Path) : Double.Sheet :=
  Double.mkSheet [IMAGE_FILE] 0
    (map (fun p => ([Double.name p], [])) image_paths).

Definition shell (user_input : UserInput)
    : Shell Double.Path string nat nat nat Double.World :=
  {| MainWindow := Double.ok user_input;
     create_extraction_window := fun _ => Double.ok 0%nat;
     window_set_status := fun _ msg w => Double.ok tt (show msg w);
     start_progress := fun _ => Double.ok tt;
     stop_progress := fun _ => Double.ok tt;
     wait_for_close := fun _ => Double.ok tt;
     window_cancelled := fun _ => Double.ok false;
     create_and_pack_progress := fun _ _ => Double.ok 1%nat;
     now := Double.ok "2024";
     path_eqb := Double.path_eqb;
     list_file_paths := fun _ w => Double.ok (map fst (Double.scans w)) w;
     filter_images := fun l => Double.ok l;
     form_150q := Double.form_without_code;
     form_75q := Double.form;
     process_input := fun image_paths out _ _ _ _ _ _ _ _ _ _ w =>
       Double.ok tt
         (Double.write (Double.div out "results.csv")
            (Double.Csv (graded image_paths)) w) |}.

Abbreviation main debug_mode :=
  (main_gui Double.collaborators (shell (request debug_mode))).

(** A folder that holds nothing but the image of the answer key. *)
Definition lonely : PyState Double.World :=
  mkState (Double.mkWorld [(Double.key_image, Double.sheet_scan)] [] []) [].

(** A layout that announces four questions and describes three. *)
Definition short_form : Double.FormVariant :=
  mkFormVariant (fields Double.form) (questions Double.form) 4%Z.

End Desk.

(** * Properties *)

(** ** Sequencing *)

Lemma bind_eq {S A B} (m : M S A) (k : A -> M S B) s a s1 :
  m s = (Return a, s1) -> bind m k s = k a s1.
Proof. intros H. unfold bind. rewrite H. reflexivity. Qed.

Lemma bind_raise {S A B} (m : M S A) (k : A -> M S B) s e s1 :
  m s = (Raise e, s1) -> bind m k s = (Raise e, s1).
Proof. intros H. unfold bind. rewrite H. reflexivity. Qed.

Lemma bind_Return_inv {S A B} (m : M S A) (k : A -> M S B) s b s' :
  bind m k s = (Return b, s') ->
  exists a s1, m s = (Return a, s1) /\ k a s1 = (Return b, s').
Proof.
  unfold bind. destruct (m s) as [[a | e] s1]; intros H.
  - exists a, s1. split; [reflexivity | exact H].
  - discriminate.
Qed.

Lemma try_except_eq {S A B} (body : M S A) catches (h : Exn -> M S B) k s a s1 :
  body s = (Return a, s1) -> try_except body catches h k s = k a s1.
Proof. intros H. unfold try_except. rewrite H. reflexivity. Qed.

Lemma try_except_caught {S A B} (body : M S A) catches (h : Exn -> M S B) k s e s1 :
  body s = (Raise e, s1) -> catches e = true ->
  try_except body catches h k s = h e s1.
Proof. intros H Hc. unfold try_except. rewrite H, Hc. reflexivity. Qed.

Lemma try_except_uncaught {S A B} (body : M S A) catches (h : Exn -> M S B) k s e s1 :
  body s = (Raise e, s1) -> catches e = false ->
  try_except body catches h k s = (Raise e, s1).
Proof. intros H Hc. unfold try_except. rewrite H, Hc. reflexivity. Qed.

Lemma call_eq {W A} (op : Ext W A) (s : PyState W) o w' :
  op (world s) = (o, w') -> call op s = (o, mkState w' (stdout s)).
Proof. intros H. unfold call. rewrite H. reflexivity. Qed.

Lemma call_inv {W A} (op : Ext W A) (s s' : PyState W) o :
  call op s = (o, s') ->
  op (world s) = (o, world s') /\ stdout s' = stdout s.
Proof.
  unfold call. destruct (op (world s)) as [o' w']. intros H.
  inversion H; subst. split; reflexivity.
Qed.

Lemma call_stdout {W A} (op : Ext W A) (s : PyState W) :
  stdout (snd (call op s)) = stdout s.
Proof. unfold call. destruct (op (world s)). reflexivity. Qed.

Lemma state_eta {W} (s : PyState W) : mkState (world s) (stdout s) = s.
Proof. destruct s. reflexivity. Qed.

Lemma print_eq {W} (write : string -> Ext W unit) msg (s : PyState W) w' :
  write msg (world s) = (Return tt, w') ->
  print write msg s = (Return tt, mkState w' (stdout s ++ [msg])).
Proof. intros H. unfold print. rewrite H. reflexivity. Qed.

Lemma print_raise {W} (write : string -> Ext W unit) msg (s : PyState W)
    e w' :
  write msg (world s) = (Raise e, w') ->
  print write msg s = (Raise e, mkState w' (stdout s)).
Proof. intros H. unfold print. rewrite H. reflexivity. Qed.

Lemma print_Return_inv {W} (write : string -> Ext W unit) msg
    (s s' : PyState W) u :
  print write msg s = (Return u, s') ->
  write msg (world s) = (Return tt, world s') /\
  s' = mkState (world s') (stdout s ++ [msg]).
Proof.
  unfold print. destruct (write msg (world s)) as [[[] | e] w']; intros H.
  - inversion H; subst. split; reflexivity.
  - discriminate.
Qed.

Lemma print_Raise_inv {W} (write : string -> Ext W unit) msg
    (s s' : PyState W) e :
  print write msg s = (Raise e, s') ->
  write msg (world s) = (Raise e, world s') /\ stdout s' = stdout s.
Proof.
  unfold print. destruct (write msg (world s)) as [[[] | e'] w']; intros H.
  - discriminate.
  - inversion H; subst. split; reflexivity.
Qed.

(** A class caught by the inner handler is caught by the outer one. *)
Lemma CornerFindingError_is_Exception e :
  isinstance_CornerFindingError e = true -> isinstance_Exception e = true.
Proof.
  unfold isinstance_CornerFindingError, isinstance_Exception.
  destruct (exn_class e); intros H; try reflexivity; discriminate.
Qed.

Section ErrorHandling.

Context {Path Datetime Image Corners Grid GroupInfo BubbleGroup : Type}.
Context {Fills Threshold OutputSheet Tracker W : Type}.
Variable C : Collaborators Path Datetime Image Corners Grid GroupInfo
               BubbleGroup Fills Threshold OutputSheet Tracker W.

Variables image_path output_folder : Path.
Variables multi_answers_as_f empty_answers_as_g : bool.
Variable form_variant : FormVariant GroupInfo.
Variable files_timestamp : option Datetime.

Local Abbreviation extract :=
  (extract_answer_key_from_image C image_path output_folder
     multi_answers_as_f empty_answers_as_g form_variant files_timestamp).
Local Abbreviation body :=
  (extraction_body C image_path output_folder
     multi_answers_as_f empty_answers_as_g form_variant files_timestamp).
Local Abbreviation setup :=
  (debug_setup C image_path output_folder files_timestamp).

(** The debug set-up prints nothing. *)
Lemma debug_setup_stdout d s :
  stdout (snd (setup d s)) = stdout s.
Proof.
  unfold debug_setup. destruct d; [| reflexivity].
  unfold bind.
  destruct (call (format_timestamp_for_file C files_timestamp) s)
    as [[stamp | e] s1] eqn:E1; simpl.
  2:{ rewrite <- (call_stdout (format_timestamp_for_file C files_timestamp) s).
      rewrite E1. reflexivity. }
  assert (H1 : stdout s1 = stdout s).
  { rewrite <- (call_stdout (format_timestamp_for_file C files_timestamp) s).
    rewrite E1. reflexivity. }
  match goal with |- context [call ?op s1] =>
    pose proof (call_stdout op s1) as H2; destruct (call op s1) as [[[] | e] s2]
  end; simpl in *; [| congruence].
  match goal with |- context [call ?op s2] =>
    pose proof (call_stdout op s2) as H3; destruct (call op s2) as [[[] | e] s3]
  end; simpl in *; congruence.
Qed.

(** With the debug flag off there is no set-up at all. *)
Lemma debug_setup_off s : setup false s = (Return None, s).
Proof. reflexivity. Qed.

(** C1, as the code has it: when the run has reached the corner search
    and [find_corner_marks] raises a [CornerFindingError], the function
    prints the corner message naming the sheet and, the line being
    written, returns [None]; it does so whatever [debug_mode_on] is, the
    inner handler never re-raises. *)
Theorem corner_error_aborts_sheet d s debug_path prepared_image s3 e w4 w5 :
  reaches_corner_search C image_path output_folder files_timestamp d s
    debug_path prepared_image s3 ->
  find_corner_marks C prepared_image debug_path (world s3) = (Raise e, w4) ->
  isinstance_CornerFindingError e = true ->
  stdout_write C (corner_message C image_path e) w4 = (Return tt, w5) ->
  extract d s
  = (Return None, mkState w5 (stdout s3 ++ [corner_message C image_path e])).
Proof.
  intros (s1 & image & s2 & Hs & Hi & Hp) Hc He Hprint.
  unfold extract_answer_key_from_image.
  rewrite (bind_eq _ _ _ _ _ Hs).
  erewrite try_except_eq; [reflexivity |].
  unfold extraction_body.
  rewrite (bind_eq _ _ _ _ _ Hi), (bind_eq _ _ _ _ _ Hp).
  erewrite try_except_caught; [| apply call_eq; exact Hc | exact He].
  erewrite bind_eq; [reflexivity |].
  apply (print_eq (stdout_write C) _ (mkState w4 (stdout s3))). exact Hprint.
Qed.

(** An [Exception] that leaves the body of the [try] reaches the
    handler at the boundary of the sheet. *)
Lemma exception_reaches_handler d s debug_path s1 e s2 w3 :
  setup d s = (Return debug_path, s1) ->
  body debug_path s1 = (Raise e, s2) ->
  isinstance_Exception e = true ->
  stdout_write C (failure_message C image_path e) (world s2)
    = (Return tt, w3) ->
  extract d s
  = (if d then Raise e else Return None,
     mkState w3 (stdout s2 ++ [failure_message C image_path e])).
Proof.
  intros Hs Hb He Hprint.
  unfold extract_answer_key_from_image.
  rewrite (bind_eq _ _ _ _ _ Hs).
  erewrite try_except_caught; [| exact Hb | exact He].
  unfold extraction_handler.
  erewrite bind_eq; [| apply print_eq; exact Hprint].
  destruct d; reflexivity.
Qed.

End ErrorHandling.

(** ** Two runs side by side

    The rules below build [sim_M] for a statement from [sim_M] for its
    parts; the extractor is then related to itself clause by clause. *)
Section Simulation.

Context {W1 W2 : Type}.
Variable R : W1 -> W2 -> Prop.

Lemma sim_ret {A} (a : A) : sim_M R (ret a) (ret a).
Proof.
  intros s1 s2 H. simpl. repeat split; [exact H |].
  exists []. rewrite !app_nil_r. split; reflexivity.
Qed.

Lemma sim_raise {A} (e : Exn) : sim_M R (A := A) (raise e) (raise e).
Proof.
  intros s1 s2 H. simpl. repeat split; [exact H |].
  exists []. rewrite !app_nil_r. split; reflexivity.
Qed.

Lemma sim_print (w1 : string -> Ext W1 unit) (w2 : string -> Ext W2 unit)
    (msg : string) :
  sim_ext R (w1 msg) (w2 msg) -> sim_M R (print w1 msg) (print w2 msg).
Proof.
  intros Hop s1 s2 H. destruct (Hop _ _ H) as [Ho Hw].
  unfold print.
  destruct (w1 msg (world s1)) as [o1 w1'], (w2 msg (world s2)) as [o2 w2'].
  simpl in *. subst o2. destruct o1 as [u | e]; simpl.
  - repeat split; [exact Hw |]. exists [msg]. split; reflexivity.
  - repeat split; [exact Hw |].
    exists []. rewrite !app_nil_r. split; reflexivity.
Qed.

Lemma sim_call {A} (op1 : Ext W1 A) (op2 : Ext W2 A) :
  sim_ext R op1 op2 -> sim_M R (call op1) (call op2).
Proof.
  intros Hop s1 s2 H. destruct (Hop _ _ H) as [Ho Hw].
  unfold call.
  destruct (op1 (world s1)) as [o1 w1'], (op2 (world s2)) as [o2 w2'].
  simpl in *. repeat split; [exact Ho | exact Hw |].
  exists []. rewrite !app_nil_r. split; reflexivity.
Qed.

Lemma sim_bind {A B} (m1 : M (PyState W1) A) (m2 : M (PyState W2) A)
    (k1 : A -> M (PyState W1) B) (k2 : A -> M (PyState W2) B) :
  sim_M R m1 m2 -> (forall a, sim_M R (k1 a) (k2 a)) ->
  sim_M R (bind m1 k1) (bind m2 k2).
Proof.
  intros Hm Hk s1 s2 H.
  destruct (Hm _ _ H) as (Ho & Hw & msgs & Hs1 & Hs2).
  unfold bind.
  destruct (m1 s1) as [o1 t1], (m2 s2) as [o2 t2]. simpl in *. subst o2.
  destruct o1 as [a | e].
  - destruct (Hk a _ _ Hw) as (Ho' & Hw' & msgs' & Ht1 & Ht2).
    repeat split; [exact Ho' | exact Hw' |].
    exists (msgs ++ msgs')%list.
    rewrite Ht1, Ht2, Hs1, Hs2, !app_assoc. split; reflexivity.
  - simpl. repeat split; [exact Hw |]. exists msgs. split; assumption.
Qed.

Lemma sim_try_except {A B} (b1 : M (PyState W1) A) (b2 : M (PyState W2) A)
    catches (h1 : Exn -> M (PyState W1) B) (h2 : Exn -> M (PyState W2) B)
    (k1 : A -> M (PyState W1) B) (k2 : A -> M (PyState W2) B) :
  sim_M R b1 b2 ->
  (forall e, sim_M R (h1 e) (h2 e)) ->
  (forall a, sim_M R (k1 a) (k2 a)) ->
  sim_M R (try_except b1 catches h1 k1) (try_except b2 catches h2 k2).
Proof.
  intros Hb Hh Hk s1 s2 H.
  destruct (Hb _ _ H) as (Ho & Hw & msgs & Hs1 & Hs2).
  unfold try_except.
  destruct (b1 s1) as [o1 t1], (b2 s2) as [o2 t2]. simpl in *. subst o2.
  destruct o1 as [a | e].
  - destruct (Hk a _ _ Hw) as (Ho' & Hw' & msgs' & Ht1 & Ht2).
    repeat split; [exact Ho' | exact Hw' |].
    exists (msgs ++ msgs')%list.
    rewrite Ht1, Ht2, Hs1, Hs2, !app_assoc. split; reflexivity.
  - destruct (catches e).
    + destruct (Hh e _ _ Hw) as (Ho' & Hw' & msgs' & Ht1 & Ht2).
      repeat split; [exact Ho' | exact Hw' |].
      exists (msgs ++ msgs')%list.
      rewrite Ht1, Ht2, Hs1, Hs2, !app_assoc. split; reflexivity.
    + simpl. repeat split; [exact Hw |]. exists msgs. split; assumption.
Qed.

Lemma sim_mapM {A B} (f1 : A -> M (PyState W1) B) (f2 : A -> M (PyState W2) B)
    (l : list A) :
  (forall x, sim_M R (f1 x) (f2 x)) -> sim_M R (mapM f1 l) (mapM f2 l).
Proof.
  intros Hf. induction l as [| x xs IH]; simpl.
  - apply sim_ret.
  - apply sim_bind; [apply Hf |]. intros y.
    apply sim_bind; [exact IH |]. intros ys. apply sim_ret.
Qed.

End Simulation.


Section ExtractorSimulation.

Context {Path Datetime Image Corners Grid GroupInfo BubbleGroup : Type}.
Context {Fills Threshold OutputSheet Tracker W1 W2 : Type}.
Variable R : W1 -> W2 -> Prop.
Variable P : option Path -> option Path -> Prop.
Variable C1 : Collaborators Path Datetime Image Corners Grid GroupInfo
                BubbleGroup Fills Threshold OutputSheet Tracker W1.
Variable C2 : Collaborators Path Datetime Image Corners Grid GroupInfo
                BubbleGroup Fills Threshold OutputSheet Tracker W2.
Hypothesis HC : Simulates R P C1 C2.

Variables image_path output_folder : Path.
Variables multi_answers_as_f empty_answers_as_g : bool.
Variable form_variant : FormVariant GroupInfo.
Variable files_timestamp : option Datetime.

Lemma group_fill_percents_sim info grid :
  sim_M R (group_fill_percents C1 info grid) (group_fill_percents C2 info grid).
Proof.
  unfold group_fill_percents.
  apply sim_bind; [apply sim_call, (sim_get_group HC) |].
  intros g. apply sim_call, (sim_fill_percents HC).
Qed.

(** The body of the [try], with debug sinks related by [P]. *)
Lemma extraction_body_sim sp1 sp2 :
  P sp1 sp2 ->
  sim_M R
    (extraction_body C1 image_path output_folder multi_answers_as_f
       empty_answers_as_g form_variant files_timestamp sp1)
    (extraction_body C2 image_path output_folder multi_answers_as_f
       empty_answers_as_g form_variant files_timestamp sp2).
Proof.
  intros HP. unfold extraction_body.
  rewrite (sim_grid_h HC), (sim_grid_v HC), (sim_path_name HC).
  apply sim_bind; [apply sim_call, (sim_get_image HC), HP |]. intros image.
  apply sim_bind; [apply sim_call, (sim_prepare HC), HP |]. intros prepared.
  apply sim_try_except; [apply sim_call, (sim_find_corners HC), HP | |].
  { intros e.
    apply sim_bind; [apply sim_print, (sim_stdout_write HC) |].
    intros _. apply sim_ret. }
  intros corners.
  apply sim_bind; [apply sim_call, (sim_dilate HC), HP |]. intros morphed.
  apply sim_bind; [apply sim_call, (sim_grid_init HC), HP |]. intros grid.
  apply sim_bind.
  { apply sim_mapM. intros kv.
    apply sim_bind; [apply group_fill_percents_sim |].
    intros fills. apply sim_ret. }
  intros field_items.
  apply sim_bind; [apply sim_mapM; intros q; apply group_fill_percents_sim |].
  intros afp.
  apply sim_bind; [apply sim_call, (sim_threshold HC), HP |]. intros thr.
  apply sim_bind.
  { apply sim_mapM. intros i. destruct (list_getitem afp i).
    - apply sim_call, (sim_read_answer HC).
    - apply sim_raise. }
  intros answers.
  apply sim_bind.
  { destruct (dict_get (dict_of_items field_items) TEST_FORM_CODE).
    - apply sim_bind; [apply sim_call, (sim_read_field HC) |].
      intros code. apply sim_ret.
    - apply sim_ret. }
  intros form_code.
  apply sim_bind; [apply sim_call, (sim_sheet_init HC) |]. intros sh0.
  apply sim_bind; [apply sim_call, (sim_sheet_add HC) |]. intros sh1.
  apply sim_bind; [apply sim_call, (sim_sheet_clean_up HC) |]. intros sh2.
  apply sim_bind; [apply sim_call, (sim_sheet_save HC) |]. intros out.
  rewrite (sim_path_name HC).
  apply sim_bind; [apply sim_print, (sim_stdout_write HC) |].
  intros _. apply sim_ret.
Qed.

Lemma extraction_handler_sim d e :
  sim_M R (extraction_handler C1 image_path d e)
          (extraction_handler C2 image_path d e).
Proof.
  unfold extraction_handler. rewrite (sim_path_name HC).
  apply sim_bind; [apply sim_print, (sim_stdout_write HC) |]. intros _.
  destruct d; [apply sim_raise | apply sim_ret].
Qed.

(** The protected part of the function, for any two related sinks. *)
Lemma protected_body_sim d sp1 sp2 :
  P sp1 sp2 ->
  sim_M R
    (try_except
       (extraction_body C1 image_path output_folder multi_answers_as_f
          empty_answers_as_g form_variant files_timestamp sp1)
       isinstance_Exception (extraction_handler C1 image_path d) ret)
    (try_except
       (extraction_body C2 image_path output_folder multi_answers_as_f
          empty_answers_as_g form_variant files_timestamp sp2)
       isinstance_Exception (extraction_handler C2 image_path d) ret).
Proof.
  intros HP. apply sim_try_except.
  - apply extraction_body_sim, HP.
  - intros e. apply extraction_handler_sim.
  - intros a. apply sim_ret.
Qed.

Hypothesis HP : forall sp, P sp sp.

Lemma debug_setup_sim d :
  sim_M R (debug_setup C1 image_path output_folder files_timestamp d)
          (debug_setup C2 image_path output_folder files_timestamp d).
Proof.
  unfold debug_setup. destruct d; [| apply sim_ret].
  apply sim_bind; [apply sim_call, (sim_format_timestamp HC) |]. intros stamp.
  rewrite !(sim_path_div HC), (sim_path_stem HC).
  apply sim_bind; [apply sim_call, (sim_make_dir HC) |]. intros _.
  apply sim_bind; [apply sim_call, (sim_make_dir HC) |]. intros _.
  apply sim_ret.
Qed.

(** Same arguments, related worlds: same outcome, related worlds. *)
Lemma extract_sim d :
  sim_M R
    (extract_answer_key_from_image C1 image_path output_folder
       multi_answers_as_f empty_answers_as_g form_variant files_timestamp d)
    (extract_answer_key_from_image C2 image_path output_folder
       multi_answers_as_f empty_answers_as_g form_variant files_timestamp d).
Proof.
  unfold extract_answer_key_from_image.
  apply sim_bind; [apply debug_setup_sim |]. intros dp.
  apply protected_body_sim, HP.
Qed.

Lemma extract_gui_sim tracker d :
  sim_M R
    (extract_answer_key_from_image_gui C1 image_path output_folder
       multi_answers_as_f empty_answers_as_g form_variant files_timestamp
       tracker d)
    (extract_answer_key_from_image_gui C2 image_path output_folder
       multi_answers_as_f empty_answers_as_g form_variant files_timestamp
       tracker d).
Proof.
  unfold extract_answer_key_from_image_gui, tracker_truthy.
  rewrite !(sim_path_name HC).
  assert (Ht : forall t, tracker_bool C1 t = tracker_bool C2 t)
    by apply (sim_tracker_bool HC).
  apply sim_bind.
  { destruct tracker as [t |]; [| apply sim_ret].
    rewrite Ht. destruct (tracker_bool C2 t); [| apply sim_ret].
    apply sim_call, (sim_set_status HC). }
  intros _. apply sim_bind; [apply extract_sim |]. intros result.
  apply sim_bind; [| intros _; apply sim_ret].
  destruct tracker as [t |]; [| apply sim_ret].
  rewrite Ht. destruct (tracker_bool C2 t); [| apply sim_ret].
  destruct result as [p |].
  - rewrite (sim_path_name HC). apply sim_call, (sim_set_status HC).
  - apply sim_call, (sim_set_status HC).
Qed.

End ExtractorSimulation.

(** ** Traces do not disturb a run *)
Section Traces.

Context {Path Datetime Image Corners Grid GroupInfo BubbleGroup : Type}.
Context {Fills Threshold OutputSheet Tracker : Type}.

Local Abbreviation Ev :=
  (Event Path Datetime Image Corners Grid GroupInfo BubbleGroup Fills
     Threshold OutputSheet Tracker).
Local Abbreviation Collab :=
  (Collaborators Path Datetime Image Corners Grid GroupInfo BubbleGroup
     Fills Threshold OutputSheet Tracker).

Lemma traced_op_with_trace {W1 W2 A} (R : W1 -> W2 -> Prop) (pre : list Ev)
    (ev : Ev) (op1 : Ext W1 A) (op2 : Ext W2 A) :
  sim_ext R op1 op2 ->
  sim_ext (with_trace R pre) (traced_op ev op1) (traced_op ev op2).
Proof.
  intros H [w1 l1] [w2 l2] [HR Hl]. simpl in *.
  destruct (H _ _ HR) as [Ho Hw]. unfold traced_op. simpl.
  destruct (op1 w1) as [o1 w1'], (op2 w2) as [o2 w2']. simpl in *.
  repeat split; [exact Ho | exact Hw |].
  subst l2. symmetry. apply app_assoc.
Qed.

Lemma traced_op_erased {W A} (ev : Ev) (op : Ext W A) :
  sim_ext erased (traced_op ev op) op.
Proof.
  intros [w l] w2 H. unfold erased in *. simpl in *. subst w2.
  unfold traced_op. simpl. destruct (op w) as [o w']. split; reflexivity.
Qed.

Lemma unlogged_op_with_trace {W1 W2 A} (R : W1 -> W2 -> Prop)
    (pre : list Ev) (op1 : Ext W1 A) (op2 : Ext W2 A) :
  sim_ext R op1 op2 ->
  sim_ext (with_trace R pre) (unlogged_op op1) (unlogged_op op2).
Proof.
  intros H [w1 l1] [w2 l2] [HR Hl]. simpl in *.
  destruct (H _ _ HR) as [Ho Hw]. unfold unlogged_op. simpl.
  destruct (op1 w1) as [o1 w1'], (op2 w2) as [o2 w2']. simpl in *.
  repeat split; assumption.
Qed.

Lemma unlogged_op_erased {W A} (op : Ext W A) :
  sim_ext erased (unlogged_op (L := list Ev) op) op.
Proof.
  intros [w l] w2 H. unfold erased in *. simpl in *. subst w2.
  unfold unlogged_op. simpl. destruct (op w) as [o w']. split; reflexivity.
Qed.

Lemma unlogged_op_log {W L A} (op : Ext W A) (wl wl' : W * L) o :
  unlogged_op op wl = (o, wl') -> snd wl' = snd wl.
Proof.
  unfold unlogged_op. destruct (op (fst wl)) as [o' w'].
  intros H. inversion H. reflexivity.
Qed.

Lemma traced_op_preserves {W A} (Q : W -> W -> Prop) (w0 : W) (op : Ext W A) :
  (forall a b c, Q a b -> Q b c -> Q a c) ->
  preserves_ext Q op -> sim_ext (within Q w0) op op.
Proof.
  intros Htrans H w1 w2 [-> HQ]. repeat split.
  apply (Htrans _ _ _ HQ), H.
Qed.

(** Tracing both sides keeps a simulation, and keeps the two traces in
    step. *)
Lemma traced_simulates {W1 W2} (R : W1 -> W2 -> Prop) P (pre : list Ev)
    (C1 : Collab W1) (C2 : Collab W2) :
  Simulates R P C1 C2 ->
  Simulates (with_trace R pre) P (traced C1) (traced C2).
Proof.
  intros HC. destruct HC.
  constructor; simpl; intros;
    auto using traced_op_with_trace, unlogged_op_with_trace.
Qed.

(** From one and the same world every collaborator answers alike. *)
Lemma simulates_eq {W} (C : Collab W) : Simulates eq eq C C.
Proof.
  constructor; try reflexivity; intros; subst; intros w1 w2 ->;
    split; reflexivity.
Qed.

(** A traced run is the run itself. *)
Lemma traced_erased {W} (C : Collab W) : Simulates erased eq (traced C) C.
Proof.
  constructor; simpl; intros; subst;
    auto using traced_op_erased, unlogged_op_erased.
Qed.

(** Operations that stay within [Q] simulate themselves within [Q] of
    any starting point. *)
Lemma preserves_simulates {W} (Q : W -> W -> Prop) (w0 : W) (C : Collab W) :
  (forall a b c, Q a b -> Q b c -> Q a c) ->
  Preserves Q C -> Simulates (within Q w0) eq C C.
Proof.
  intros Htrans HC. destruct HC.
  constructor; simpl; intros; subst; auto using traced_op_preserves.
Qed.

End Traces.

(** ** Successful runs, stage by stage *)

Lemma try_except_Return_inv {S A B} (body : M S A) catches
    (h : Exn -> M S B) k s b s' :
  try_except body catches h k s = (Return b, s') ->
  (exists a s1, body s = (Return a, s1) /\ k a s1 = (Return b, s')) \/
  (exists e s1, body s = (Raise e, s1) /\ catches e = true /\
                h e s1 = (Return b, s')).
Proof.
  unfold try_except. destruct (body s) as [[a | e] s1]; intros H.
  - left. exists a, s1. split; [reflexivity | exact H].
  - destruct (catches e) eqn:E; [| discriminate].
    right. exists e, s1. repeat split; assumption.
Qed.

Lemma mapM_length {S A B} (f : A -> M S B) (l : list A) s ys s' :
  mapM f l s = (Return ys, s') -> length ys = length l.
Proof.
  revert s ys s'. induction l as [| x xs IH]; simpl; intros s ys s' H.
  - inversion H. reflexivity.
  - apply bind_Return_inv in H as (y & s1 & _ & H).
    apply bind_Return_inv in H as (ys' & s2 & Hxs & H).
    inversion H; subst. simpl. f_equal. eapply IH, Hxs.
Qed.

Lemma py_range_length n : length (py_range n) = Z.to_nat n.
Proof. unfold py_range. rewrite length_map, length_seq. reflexivity. Qed.

Section SuccessfulRuns.

Context {Path Datetime Image Corners Grid GroupInfo BubbleGroup : Type}.
Context {Fills Threshold OutputSheet Tracker W : Type}.
Variable C : Collaborators Path Datetime Image Corners Grid GroupInfo
               BubbleGroup Fills Threshold OutputSheet Tracker W.

Variables image_path output_folder : Path.
Variables multi_answers_as_f empty_answers_as_g : bool.
Variable form_variant : FormVariant GroupInfo.
Variable files_timestamp : option Datetime.

Local Abbreviation extract :=
  (extract_answer_key_from_image C image_path output_folder
     multi_answers_as_f empty_answers_as_g form_variant files_timestamp).
Local Abbreviation body :=
  (extraction_body C image_path output_folder
     multi_answers_as_f empty_answers_as_g form_variant files_timestamp).
Local Abbreviation setup :=
  (debug_setup C image_path output_folder files_timestamp).
Local Abbreviation steps :=
  (pipeline_steps C image_path output_folder
     multi_answers_as_f empty_answers_as_g form_variant files_timestamp).

(** Every run of the body that returns a path went through all the
    stages. *)
Lemma extraction_body_success dp s p s' :
  body dp s = (Return (Some p), s') ->
  exists r, steps dp s r /\ p = run_output_path r /\
            exists w, reports_success C image_path r w /\
                      s' = run_final_state C image_path r w.
Proof.
  unfold extraction_body. intros H.
  apply bind_Return_inv in H as (image & s1 & H1 & H).
  apply bind_Return_inv in H as (prepared & s2 & H2 & H).
  apply try_except_Return_inv in H
    as [(corners & s3 & H3 & H) | (e & s3 & _ & _ & H)].
  2:{ apply bind_Return_inv in H as (u & s3' & _ & H). discriminate. }
  apply bind_Return_inv in H as (morphed & s4 & H4 & H).
  apply bind_Return_inv in H as (grid & s5 & H5 & H).
  apply bind_Return_inv in H as (field_items & s6 & H6 & H).
  apply bind_Return_inv in H as (afp & s7 & H7 & H).
  apply bind_Return_inv in H as (thr & s8 & H8 & H).
  apply bind_Return_inv in H as (answers & s9 & H9 & H).
  apply bind_Return_inv in H as (form_code & s10 & H10 & H).
  apply bind_Return_inv in H as (sh0 & s11 & H11 & H).
  apply bind_Return_inv in H as (sh1 & s12 & H12 & H).
  apply bind_Return_inv in H as (sh2 & s13 & H13 & H).
  apply bind_Return_inv in H as (out & s14 & H14 & H).
  apply bind_Return_inv in H as (u & s15 & H15 & H).
  inversion H; subst p s'. clear H.
  apply print_Return_inv in H15 as [H15 Hs15].
  destruct (dict_get (dict_of_items field_items) TEST_FORM_CODE)
    as [code_fills |] eqn:Ecode.
  - apply bind_Return_inv in H10 as (code & s10' & H10 & H).
    inversion H; subst form_code s10'. clear H.
    exists (mkRun image prepared corners morphed grid field_items afp thr
              answers (Some code) sh0 sh1 sh2 out
              s1 s2 s3 s4 s5 s6 s7 s8 s9 s10 s11 s12 s13 s14).
    split; [| split; [reflexivity | exists (world s15); split; assumption]].
    unfold pipeline_steps, run_field_fill_percents, run_field_data,
      run_form_code; simpl.
    rewrite Ecode. repeat split; assumption.
  - inversion H10; subst form_code s10. clear H10.
    exists (mkRun image prepared corners morphed grid field_items afp thr
              answers None sh0 sh1 sh2 out
              s1 s2 s3 s4 s5 s6 s7 s8 s9 s9 s11 s12 s13 s14).
    split; [| split; [reflexivity | exists (world s15); split; assumption]].
    unfold pipeline_steps, run_field_fill_percents, run_field_data,
      run_form_code; simpl.
    rewrite Ecode. repeat split; assumption.
Qed.

(** Conversely, when every stage completes and the success line is
    printed the body returns the saved path. *)
Lemma pipeline_steps_complete dp s r w :
  steps dp s r ->
  reports_success C image_path r w ->
  body dp s
  = (Return (Some (run_output_path r)), run_final_state C image_path r w).
Proof.
  intros (H1 & H2 & H3 & H4 & H5 & H6 & H7 & H8 & H9 & H10 & H11 & H12
          & H13 & H14) Hprint.
  unfold extraction_body.
  rewrite (bind_eq _ _ _ _ _ H1), (bind_eq _ _ _ _ _ H2).
  rewrite (try_except_eq _ _ _ _ _ _ _ H3).
  rewrite (bind_eq _ _ _ _ _ H4), (bind_eq _ _ _ _ _ H5).
  rewrite (bind_eq _ _ _ _ _ H6), (bind_eq _ _ _ _ _ H7).
  rewrite (bind_eq _ _ _ _ _ H8), (bind_eq _ _ _ _ _ H9).
  unfold run_field_fill_percents in *.
  assert (Hcode :
    match dict_get (dict_of_items (run_field_items r)) TEST_FORM_CODE with
    | Some code_fills =>
        code <- call (read_field_as_string C TEST_FORM_CODE (run_grid r)
                        (run_threshold r) form_variant code_fills) ;;
        ret (or_empty code)
    | None => ret ""
    end (at_answers r) = (Return (run_form_code r), at_form_code r)).
  { unfold run_form_code.
    destruct (dict_get (dict_of_items (run_field_items r)) TEST_FORM_CODE),
      (run_code r); try contradiction.
    - rewrite (bind_eq _ _ _ _ _ H10). reflexivity.
    - rewrite H10. reflexivity. }
  rewrite (bind_eq _ _ _ _ _ Hcode).
  rewrite (bind_eq _ _ _ _ _ H11).
  unfold run_field_data in H12.
  rewrite (bind_eq _ _ _ _ _ H12), (bind_eq _ _ _ _ _ H13).
  rewrite (bind_eq _ _ _ _ _ H14).
  erewrite bind_eq; [| apply print_eq; exact Hprint].
  reflexivity.
Qed.

(** A run of the whole function that returns a path: the set-up
    completed and the body returned that path. *)
Lemma extract_success d s p s' :
  extract d s = (Return (Some p), s') ->
  exists dp s1, setup d s = (Return dp, s1) /\
                body dp s1 = (Return (Some p), s').
Proof.
  unfold extract_answer_key_from_image. intros H.
  apply bind_Return_inv in H as (dp & s1 & Hs & H).
  exists dp, s1. split; [exact Hs |].
  apply try_except_Return_inv in H
    as [(a & s2 & Hb & H) | (e & s2 & _ & _ & H)].
  - unfold ret in H. inversion H; subst. exact Hb.
  - unfold extraction_handler in H.
    apply bind_Return_inv in H as (u & s3 & _ & H).
    destruct d; discriminate.
Qed.

Lemma extract_of_body d s dp s1 p s' :
  setup d s = (Return dp, s1) ->
  body dp s1 = (Return p, s') ->
  extract d s = (Return p, s').
Proof.
  intros Hs Hb. unfold extract_answer_key_from_image.
  rewrite (bind_eq _ _ _ _ _ Hs), (try_except_eq _ _ _ _ _ _ _ Hb).
  reflexivity.
Qed.

End SuccessfulRuns.

(** ** Dictionaries *)

Lemma Field_eqb_eq a b : Field_eqb a b = true <-> a = b.
Proof.
  destruct a, b; simpl; split; intros H;
    try reflexivity; try discriminate.
  - apply String.eqb_eq in H. subst. reflexivity.
  - inversion H. apply String.eqb_refl.
Qed.

Lemma dict_contains_set {V} (d : dict V) k' v k :
  dict_contains (dict_set d k' v) k = dict_contains d k || Field_eqb k k'.
Proof.
  unfold dict_contains. induction d as [| [k0 v0] d IH]; simpl.
  - destruct (Field_eqb k k'); reflexivity.
  - destruct (Field_eqb k' k0) eqn:E0; simpl.
    + apply Field_eqb_eq in E0. subst k0.
      destruct (Field_eqb k k'); simpl; [reflexivity |].
      destruct (dict_get d k); reflexivity.
    + destruct (Field_eqb k k0); simpl; [reflexivity | exact IH].
Qed.

Lemma dict_contains_fold {V} (items : list (Field * V)) (d : dict V) k :
  dict_contains
    (fold_left (fun d kv => dict_set d (fst kv) (snd kv)) items d) k
  = dict_contains d k || existsb (Field_eqb k) (map fst items).
Proof.
  revert d. induction items as [| [k0 v0] items IH]; intros d; simpl.
  - rewrite orb_false_r. reflexivity.
  - rewrite IH, dict_contains_set, orb_assoc. reflexivity.
Qed.

Lemma dict_contains_of_items {V} (items : list (Field * V)) k :
  dict_contains (dict_of_items items) k
  = existsb (Field_eqb k) (map fst items).
Proof. unfold dict_of_items. rewrite dict_contains_fold. reflexivity. Qed.

(** A comprehension that pairs each key with a computed value keeps
    the keys. *)
Lemma mapM_keys {S K A B} (m : K * A -> M S B) (l : list (K * A)) s items s' :
  mapM (fun kv => v <- m kv ;; ret (fst kv, v)) l s = (Return items, s') ->
  map fst items = map fst l.
Proof.
  revert s items s'. induction l as [| x xs IH]; simpl; intros s items s' H.
  - inversion H. reflexivity.
  - apply bind_Return_inv in H as (y & s1 & Hy & H).
    apply bind_Return_inv in H as (ys & s2 & Hxs & H).
    apply bind_Return_inv in Hy as (v & s0 & _ & Hy).
    inversion H; subst. inversion Hy; subst. simpl. f_equal.
    eapply IH, Hxs.
Qed.

(** ** The order of the stages *)
Section StageOrder.

Context {Path Datetime Image Corners Grid GroupInfo BubbleGroup : Type}.
Context {Fills Threshold OutputSheet Tracker W : Type}.
Variable C : Collaborators Path Datetime Image Corners Grid GroupInfo
               BubbleGroup Fills Threshold OutputSheet Tracker W.

Local Abbreviation Ev :=
  (Event Path Datetime Image Corners Grid GroupInfo BubbleGroup Fills
     Threshold OutputSheet Tracker).
Local Abbreviation TS := (PyState (W * list Ev)).

Variables image_path output_folder : Path.
Variables multi_answers_as_f empty_answers_as_g : bool.
Variable form_variant : FormVariant GroupInfo.
Variable files_timestamp : option Datetime.

Lemma emits_refl (s : TS) : emits s s [].
Proof. exists []. rewrite app_nil_r. split; reflexivity. Qed.

Lemma emits_trans (s s' s'' : TS) l1 l2 :
  emits s s' l1 -> emits s' s'' l2 -> emits s s'' (l1 ++ l2).
Proof.
  intros (seg1 & H1 & E1) (seg2 & H2 & E2).
  exists (seg1 ++ seg2)%list. split.
  - rewrite H2, H1, app_assoc. reflexivity.
  - unfold stages_of in *. rewrite flat_map_app, E1, E2. reflexivity.
Qed.

Lemma emits_call {A} (ev : Ev) (op : Ext W A) (s s' : TS) o :
  call (traced_op ev op) s = (o, s') -> emits s s' (stage_of ev).
Proof.
  unfold call, traced_op. destruct (op (fst (world s))) as [o' w'].
  intros H. inversion H; subst. simpl.
  exists [ev]. split; [reflexivity |]. simpl. apply app_nil_r.
Qed.

Lemma emits_mapM {A B} (f : A -> M TS B) (h : A -> list (Stage GroupInfo))
    (l : list A) :
  (forall x s y s', f x s = (Return y, s') -> emits s s' (h x)) ->
  forall s ys s', mapM f l s = (Return ys, s') -> emits s s' (flat_map h l).
Proof.
  intros Hf. induction l as [| x xs IH]; simpl; intros s ys s' H.
  - inversion H; subst. apply emits_refl.
  - apply bind_Return_inv in H as (y & s1 & Hy & H).
    apply bind_Return_inv in H as (ys' & s2 & Hxs & H).
    inversion H; subst.
    eapply emits_trans; [eapply Hf, Hy | eapply IH, Hxs].
Qed.

Lemma flat_map_singleton {A B} (g : A -> B) (l : list A) :
  flat_map (fun x => [g x]) l = map g l.
Proof. induction l; simpl; [reflexivity | f_equal; assumption]. Qed.

Lemma emits_group_fill_percents info grid (s s' : TS) fills :
  group_fill_percents (traced C) info grid s = (Return fills, s') ->
  emits s s' [StFillMeasurement info].
Proof.
  unfold group_fill_percents. intros H.
  apply bind_Return_inv in H as (g & s1 & H1 & H2).
  apply emits_call in H1. apply emits_call in H2.
  exact (emits_trans _ _ _ _ _ H1 H2).
Qed.

Lemma emits_debug_setup d (s s' : TS) dp :
  debug_setup (traced C) image_path output_folder files_timestamp d s
    = (Return dp, s') ->
  emits s s'
    (if d then [StDebugSetup; StDebugSetup; StDebugSetup] else []).
Proof.
  unfold debug_setup. destruct d; intros H.
  - apply bind_Return_inv in H as (stamp & s1 & H1 & H).
    apply bind_Return_inv in H as (u1 & s2 & H2 & H).
    apply bind_Return_inv in H as (u2 & s3 & H3 & H).
    inversion H; subst.
    apply emits_call in H1. apply emits_call in H2. apply emits_call in H3.
    exact (emits_trans _ _ _ _ _ H1 (emits_trans _ _ _ _ _ H2 H3)).
  - inversion H; subst. apply emits_refl.
Qed.

Lemma emits_pipeline_steps dp (s : TS) r :
  pipeline_steps (traced C) image_path output_folder multi_answers_as_f
    empty_answers_as_g form_variant files_timestamp dp s r ->
  emits s (at_saved r) (expected_stages false form_variant).
Proof.
  intros (H1 & H2 & H3 & H4 & H5 & H6 & H7 & H8 & H9 & H10 & H11 & H12
          & H13 & H14).
  pose proof (mapM_keys _ _ _ _ _ H6) as Hkeys.
  apply emits_call in H1. apply emits_call in H2. apply emits_call in H3.
  apply emits_call in H4. apply emits_call in H5. apply emits_call in H8.
  apply emits_call in H11. apply emits_call in H12.
  apply emits_call in H13. apply emits_call in H14.
  apply (emits_mapM _ (fun kv => [StFillMeasurement (snd kv)])) in H6.
  2:{ intros kv t y t' Hy.
      apply bind_Return_inv in Hy as (fills & t1 & Hg & Hr).
      inversion Hr; subst. eapply emits_group_fill_percents, Hg. }
  apply (emits_mapM _ (fun q => [StFillMeasurement q])) in H7.
  2:{ intros q t y t' Hy. eapply emits_group_fill_percents, Hy. }
  apply (emits_mapM _ (fun i => [StDecodeAnswer i])) in H9.
  2:{ intros i t y t' Hy.
      destruct (list_getitem (run_answer_fill_percents r) i);
        [| discriminate].
      apply emits_call in Hy. exact Hy. }
  rewrite (flat_map_singleton (fun kv => StFillMeasurement (snd kv))) in H6.
  rewrite (flat_map_singleton StFillMeasurement) in H7.
  rewrite (flat_map_singleton StDecodeAnswer) in H9.
  rewrite <- (map_map snd StFillMeasurement) in H6.
  assert (Hcode : emits (at_answers r) (at_form_code r)
            (if has_form_code form_variant
             then [StDecodeField TEST_FORM_CODE] else [])).
  { unfold has_form_code. rewrite <- Hkeys, <- dict_contains_of_items.
    unfold dict_contains. fold (run_field_fill_percents r).
    destruct (dict_get (run_field_fill_percents r) TEST_FORM_CODE),
      (run_code r); try contradiction.
    - apply emits_call in H10. exact H10.
    - rewrite H10. apply emits_refl. }
  unfold expected_stages. simpl app at 1.
  simpl in H1, H2, H3, H4, H5, H8, H11, H12, H13, H14.
  pose proof
    (emits_trans _ _ _ _ _ H1
    (emits_trans _ _ _ _ _ H2
    (emits_trans _ _ _ _ _ H3
    (emits_trans _ _ _ _ _ H4
    (emits_trans _ _ _ _ _ H5
    (emits_trans _ _ _ _ _ H6
    (emits_trans _ _ _ _ _ H7
    (emits_trans _ _ _ _ _ H8
    (emits_trans _ _ _ _ _ H9
    (emits_trans _ _ _ _ _ Hcode
    (emits_trans _ _ _ _ _ H11
    (emits_trans _ _ _ _ _ H12
    (emits_trans _ _ _ _ _ H13 H14))))))))))))) as Hall.
  simpl in Hall. exact Hall.
Qed.

End StageOrder.

(** ** Comprehensions, element by element *)

Lemma mapM_nth_error {S A B} (f : A -> M S B) (l : list A) s ys s' :
  mapM f l s = (Return ys, s') ->
  forall n x, nth_error l n = Some x ->
    exists y t t', nth_error ys n = Some y /\ f x t = (Return y, t').
Proof.
  revert s ys s'. induction l as [| a l IH]; simpl; intros s ys s' H n x Hn.
  - destruct n; discriminate.
  - apply bind_Return_inv in H as (y & s1 & Hy & H).
    apply bind_Return_inv in H as (ys' & s2 & Hl & H).
    inversion H; subst. destruct n as [| n]; simpl in *.
    + inversion Hn; subst. exists y, s, s1. split; [reflexivity | exact Hy].
    + eapply IH; eassumption.
Qed.

Lemma py_range_nth_error n i :
  (0 <= i < n)%Z -> nth_error (py_range n) (Z.to_nat i) = Some i.
Proof.
  intros Hi. unfold py_range.
  rewrite nth_error_map, nth_error_seq.
  destruct (Nat.ltb_spec (Z.to_nat i) (Z.to_nat n)) as [_ | Hge]; [| lia].
  simpl. rewrite Z2Nat.id by lia. reflexivity.
Qed.

(** ** The debug set-up and the progress widget *)
Section SetupAndProgress.

Context {Path Datetime Image Corners Grid GroupInfo BubbleGroup : Type}.
Context {Fills Threshold OutputSheet Tracker : Type}.

Local Abbreviation Ev :=
  (Event Path Datetime Image Corners Grid GroupInfo BubbleGroup Fills
     Threshold OutputSheet Tracker).
Local Abbreviation Collab :=
  (Collaborators Path Datetime Image Corners Grid GroupInfo BubbleGroup
     Fills Threshold OutputSheet Tracker).

Lemma debug_setup_on_inv {W} (C : Collab W) image_path output_folder
    files_timestamp s dp s3 :
  debug_setup C image_path output_folder files_timestamp true s
    = (Return dp, s3) ->
  exists stamp s1 s2,
    call (format_timestamp_for_file C files_timestamp) s = (Return stamp, s1) /\
    call (make_dir_if_not_exists C
            (path_div C output_folder (stamp ++ "debug_extractor"))) s1
      = (Return tt, s2) /\
    call (make_dir_if_not_exists C
            (path_div C (path_div C output_folder (stamp ++ "debug_extractor"))
               (path_stem C image_path))) s2
      = (Return tt, s3) /\
    dp = Some (path_div C
                 (path_div C output_folder (stamp ++ "debug_extractor"))
                 (path_stem C image_path)).
Proof.
  unfold debug_setup. intros H.
  apply bind_Return_inv in H as (stamp & s1 & H1 & H).
  apply bind_Return_inv in H as ([] & s2 & H2 & H).
  apply bind_Return_inv in H as ([] & s3' & H3 & H).
  inversion H; subst.
  exists stamp, s1, s2. repeat split; assumption.
Qed.

(** What one traced call does to the world, the trace and the output. *)
Lemma call_traced_op_inv {W A} (ev : Ev) (op : Ext W A)
    (s s' : PyState (W * list Ev)) o :
  call (traced_op ev op) s = (o, s') ->
  fst (world s') = snd (op (fst (world s))) /\
  snd (world s') = (snd (world s) ++ [ev])%list /\
  stdout s' = stdout s.
Proof.
  unfold call, traced_op. destruct (op (fst (world s))) as [o' w'].
  intros H. inversion H; subst. simpl. repeat split.
Qed.

(** A status update that the relation does not see and that always
    completes is, for the relation, no statement at all. *)
Lemma quiet_call_sim {W1 W2} (R : W1 -> W2 -> Prop) (op : Ext W1 unit) :
  quiet_ext R op -> sim_M R (call op) (ret tt).
Proof.
  intros Hq s1 s2 H. destruct (Hq _ _ H) as [Hw [[] Ho]].
  unfold call, ret. destruct (op (world s1)) as [o w']. simpl in *.
  repeat split; [exact Ho | exact Hw |].
  exists []. rewrite !app_nil_r. split; reflexivity.
Qed.

(** Statements that do nothing around a call leave it as it is. *)
Lemma padded_call {S A} (m : M S A) s :
  (ret tt ;;; result <- m ;; ret tt ;;; ret result) s = m s.
Proof.
  unfold bind, ret. destruct (m s) as [[a | e] s']; reflexivity.
Qed.

End SetupAndProgress.

(** * The claims of the specification *)
Section Claims.

Context {Path Datetime Image Corners Grid GroupInfo BubbleGroup : Type}.
Context {Fills Threshold OutputSheet Tracker W : Type}.
Variable C : Collaborators Path Datetime Image Corners Grid GroupInfo
               BubbleGroup Fills Threshold OutputSheet Tracker W.

Variables image_path output_folder : Path.
Variables multi_answers_as_f empty_answers_as_g : bool.
Variable form_variant : FormVariant GroupInfo.
Variable files_timestamp : option Datetime.

Local Abbreviation extract :=
  (extract_answer_key_from_image C image_path output_folder
     multi_answers_as_f empty_answers_as_g form_variant files_timestamp).
Local Abbreviation extract_traced :=
  (extract_answer_key_from_image (traced C) image_path output_folder
     multi_answers_as_f empty_answers_as_g form_variant files_timestamp).
Local Abbreviation steps :=
  (pipeline_steps C image_path output_folder
     multi_answers_as_f empty_answers_as_g form_variant files_timestamp).

(** Running with a trace beside the world is running without it. *)
Lemma traced_run d s :
  fst (extract_traced d (start_trace s)) = fst (extract d s) /\
  fst (world (snd (extract_traced d (start_trace s))))
    = world (snd (extract d s)) /\
  stdout (snd (extract_traced d (start_trace s))) = stdout (snd (extract d s)).
Proof.
  destruct (extract_sim _ _ _ _ (traced_erased C) image_path output_folder
              multi_answers_as_f empty_answers_as_g form_variant
              files_timestamp (fun sp => eq_refl) d (start_trace s) s
              eq_refl)
    as (Ho & Hw & msgs & H1 & H2).
  repeat split; [exact Ho | exact Hw |].
  rewrite H1, H2. reflexivity.
Qed.

(** C4, as the code has it: on every successful run the collaborators
    are called in the order of [expected_stages]: the debug set-up when
    the flag is on; loading and preparing the image; corner location;
    dilation; grid construction; fill measurement for every configured
    field and then every question; one threshold calibration; answer
    decoding for the indices [0 .. num_questions - 1]; decoding of the
    [TEST_FORM_CODE] field alone, and only when it is configured;
    creation, filling and cleaning of the record; its saving.  Each
    stage works on what the earlier ones produced ([pipeline_steps]):
    the corners are searched on the prepared image, the grid is built
    from these corners, the calibration receives the fill percents just
    measured. *)
Theorem stages_run_in_pipeline_order d s p s' :
  extract d s = (Return (Some p), s') ->
  stages_of (call_trace (extract_traced d) s)
  = expected_stages d form_variant
  /\ exists dp s1 r,
       debug_setup C image_path output_folder files_timestamp d s
         = (Return dp, s1) /\
       steps dp s1 r /\ p = run_output_path r.
Proof.
  intros H. split.
  - destruct (traced_run d s) as (Ho & _ & _).
    rewrite H in Ho. simpl in Ho.
    unfold call_trace.
    destruct (extract_traced d (start_trace s)) as [o t'] eqn:Et.
    simpl in Ho. subst o.
    apply extract_success in Et as (dp & t1 & Hs & Hb).
    apply extraction_body_success in Hb as (r & Hr & _ & w & Hw & Ht').
    apply emits_debug_setup in Hs.
    apply emits_pipeline_steps in Hr.
    destruct (emits_trans _ _ _ _ _ Hs Hr) as (seg & Hseg & Hst).
    apply unlogged_op_log in Hw.
    subst t'. simpl. rewrite Hw, Hseg. simpl.
    rewrite Hst. unfold expected_stages. destruct d; reflexivity.
  - apply extract_success in H as (dp & s1 & Hs & Hb).
    apply extraction_body_success in Hb as (r & Hr & Hp & _).
    exists dp, s1, r. split; [exact Hs |]. split; [exact Hr | exact Hp].
Qed.




(** C10: take a run in which every stage completes and the success
    line is printed.  If the form
    variant configures no [TEST_FORM_CODE] field, or if reading that
    field returned [None] or the empty string, then the form code put in
    the record is the empty string, the row handed to [OutputSheet.add]
    still holds both fields and all the answers, and the function
    returns the saved path: the missing code does not fail the sheet. *)
Theorem missing_form_code_is_recorded_empty d s dp s1 r w :
  debug_setup C image_path output_folder files_timestamp d s
    = (Return dp, s1) ->
  steps dp s1 r ->
  reports_success C image_path r w ->
  has_form_code form_variant = false \/
  run_code r = Some None \/ run_code r = Some (Some "") ->
  run_form_code r = "" /\
  call (OutputSheet_add C (run_sheet_created r)
          [(TEST_FORM_CODE, ""); (IMAGE_FILE, path_name C image_path)]
          (run_answers r)) (at_sheet_created r)
    = (Return (run_sheet_filled r), at_sheet_filled r) /\
  length (run_answers r) = Z.to_nat (num_questions form_variant) /\
  extract d s
  = (Return (Some (run_output_path r)), run_final_state C image_path r w).
Proof.
  intros Hs Hr Hprint Hcode.
  assert (Hempty : run_form_code r = "").
  { pose proof Hr as (_ & _ & _ & _ & _ & H6 & _ & _ & _ & H10 & _).
    unfold run_form_code. destruct Hcode as [Hno | [Hn | He]].
    - apply mapM_keys in H6. unfold has_form_code in Hno.
      rewrite <- H6, <- dict_contains_of_items in Hno.
      unfold dict_contains in Hno. unfold run_field_fill_percents in H10.
      destruct (dict_get (dict_of_items (run_field_items r)) TEST_FORM_CODE);
        [discriminate |].
      destruct (run_code r); [contradiction | reflexivity].
    - rewrite Hn. reflexivity.
    - rewrite He. reflexivity. }
  repeat split.
  - exact Hempty.
  - pose proof Hr as (_ & _ & _ & _ & _ & _ & _ & _ & _ & _ & _ & H12 & _).
    unfold run_field_data in H12. rewrite Hempty in H12. exact H12.
  - destruct Hr as (_ & _ & _ & _ & _ & _ & _ & _ & H9 & _).
    apply mapM_length in H9. rewrite H9. apply py_range_length.
  - eapply extract_of_body; [exact Hs |].
    apply pipeline_steps_complete; assumption.
Qed.

Local Abbreviation extract_gui :=
  (extract_answer_key_from_image_gui C image_path output_folder
     multi_answers_as_f empty_answers_as_g form_variant files_timestamp).

(** C6: let [R] relate worlds that look the same to the collaborators
    (they answer alike from related worlds), and let the collaborators
    write only what [R] does not see.  Then a second run on the same
    arguments, started where the first one stopped, ends as the first
    one did (the same path, the same failure) and makes the same calls
    with the same arguments: the same fill percents reach the
    calibration, the same threshold reaches the decoders, the same
    fields and answers reach the record.  The function itself carries
    nothing from one run to the next. *)
Theorem rerun_yields_same_record (R : W -> W -> Prop) d s :
  (forall w, R w w) ->
  (forall a b c, R a b -> R b c -> R a c) ->
  Simulates R eq C C ->
  Preserves R C ->
  fst (extract d (snd (extract d s))) = fst (extract d s) /\
  call_trace (extract_traced d) (snd (extract d s))
  = call_trace (extract_traced d) s.
Proof.
  intros Hrefl Htrans Hsim Hpres.
  assert (Hstay : R (world s) (world (snd (extract d s)))).
  { destruct (extract_sim _ _ _ _
                (preserves_simulates R (world s) C Htrans Hpres)
                image_path output_folder multi_answers_as_f
                empty_answers_as_g form_variant files_timestamp
                (fun sp => eq_refl) d s s (conj eq_refl (Hrefl _)))
      as (_ & [_ HQ] & _).
    exact HQ. }
  destruct (extract_sim _ _ _ _ (traced_simulates R eq [] C C Hsim)
              image_path output_folder multi_answers_as_f
              empty_answers_as_g form_variant files_timestamp
              (fun sp => eq_refl) d
              (start_trace s) (start_trace (snd (extract d s)))
              (conj Hstay eq_refl))
    as (Ho & [_ Htr] & _).
  destruct (traced_run d s) as (Ho1 & _ & _).
  destruct (traced_run d (snd (extract d s))) as (Ho2 & _ & _).
  split.
  - rewrite <- Ho2, <- Ho1. symmetry. exact Ho.
  - unfold call_trace. exact Htr.
Qed.

(** C2: let [R] relate worlds that differ only in what the debug
    capture writes: the collaborators answer alike from related worlds
    whatever debug sink they are given, and creating the debug
    directories stays within [R].  If a run with the flag off and a run
    with the flag on both succeed, they return the same path, leave
    related worlds, print the same messages, and after the three calls
    of the debug set-up they make the same calls with the same
    arguments: the fill percents handed to the calibration, the
    threshold handed to the decoders, the fields and answers handed to
    the record and the sheet handed to [save] are identical. *)
Theorem debug_capture_is_a_side_channel (R : W -> W -> Prop)
    s1 s2 p1 p2 s1' s2' :
  Simulates R (fun _ _ => True) C C ->
  (forall ts, silent_ext R (format_timestamp_for_file C ts)) ->
  (forall p, silent_ext R (make_dir_if_not_exists C p)) ->
  R (world s1) (world s2) ->
  extract false s1 = (Return (Some p1), s1') ->
  extract true s2 = (Return (Some p2), s2') ->
  p1 = p2 /\
  R (world s1') (world s2') /\
  (exists msgs, stdout s1' = (stdout s1 ++ msgs)%list /\
                stdout s2' = (stdout s2 ++ msgs)%list) /\
  exists setup_calls,
    stages_of setup_calls = [StDebugSetup; StDebugSetup; StDebugSetup] /\
    call_trace (extract_traced true) s2
    = (setup_calls ++ call_trace (extract_traced false) s1)%list.
Proof.
  intros Hsim Hfmt Hdir HR H1 H2.
  (* both runs, with their traces *)
  destruct (traced_run false s1) as (Ho1 & Hw1 & Hout1).
  destruct (traced_run true s2) as (Ho2 & Hw2 & Hout2).
  rewrite H1 in Ho1, Hw1, Hout1. rewrite H2 in Ho2, Hw2, Hout2.
  simpl in Ho1, Hw1, Hout1, Ho2, Hw2, Hout2.
  unfold call_trace.
  destruct (extract_traced false (start_trace s1)) as [o1 t1'] eqn:E1.
  destruct (extract_traced true (start_trace s2)) as [o2 t2'] eqn:E2.
  simpl in *. subst o1 o2.
  apply extract_success in E1 as (dp1 & u1 & Hs1 & Hb1).
  apply extract_success in E2 as (dp2 & u2 & Hs2 & Hb2).
  unfold debug_setup in Hs1. inversion Hs1; subst dp1 u1. clear Hs1.
  (* the debug set-up of the second run *)
  apply debug_setup_on_inv in Hs2
    as (stamp & a1 & a2 & Hc1 & Hc2 & Hc3 & Hdp).
  simpl in Hc1, Hc2, Hc3.
  apply call_traced_op_inv in Hc1 as (Hw_a1 & Ht_a1 & Ho_a1).
  apply call_traced_op_inv in Hc2 as (Hw_a2 & Ht_a2 & Ho_a2).
  apply call_traced_op_inv in Hc3 as (Hw_u2 & Ht_u2 & Ho_u2).
  simpl in Hw_a1, Ht_a1, Ho_a1.
  assert (HRu : R (world s1) (fst (world u2))).
  { rewrite Hw_u2, Hw_a2, Hw_a1. apply Hdir, Hdir, Hfmt, HR. }
  set (pre := [EvFormatTimestamp files_timestamp;
               EvMakeDir (path_div C output_folder
                            (stamp ++ "debug_extractor"));
               EvMakeDir (path_div C
                            (path_div C output_folder
                               (stamp ++ "debug_extractor"))
                            (path_stem C image_path))]
            : list (Event Path Datetime Image Corners Grid GroupInfo
                      BubbleGroup Fills Threshold OutputSheet Tracker)) in *.
  assert (Hpre : snd (world u2) = pre).
  { rewrite Ht_u2, Ht_a2, Ht_a1. reflexivity. }
  (* the two bodies, side by side *)
  destruct (extraction_body_sim _ _ _ _
              (traced_simulates R (fun _ _ => True) pre C C Hsim)
              image_path output_folder multi_answers_as_f
              empty_answers_as_g form_variant files_timestamp
              None dp2 I (start_trace s1) u2)
    as (Ho & [HRf Htr] & msgs & Hm1 & Hm2).
  { split; [exact HRu |]. simpl. exact Hpre. }
  rewrite Hb1 in Ho, HRf, Htr, Hm1. rewrite Hb2 in Ho, HRf, Htr, Hm2.
  simpl in Ho, HRf, Htr, Hm1, Hm2.
  inversion Ho; subst p2.
  split; [reflexivity |].
  split; [rewrite <- Hw1, <- Hw2; exact HRf |].
  split.
  - exists msgs. rewrite <- Hout1, <- Hout2. split; [exact Hm1 |].
    rewrite Hm2, Ho_u2, Ho_a2, Ho_a1. reflexivity.
  - exists pre. split; [reflexivity | exact Htr].
Qed.

(** C9, as the code has it: the progress tracker only receives status
    updates, and the calls of [set_status] are not guarded.  When the
    status updates of the tracker at hand are what they are meant to
    be, calls that complete and write only what [R] does not see (worlds
    related by [R] look the same to the collaborators), the GUI variant
    ends exactly as [extract_answer_key_from_image] does on the same
    arguments: the same returned path or [None], or the same exception;
    the worlds they leave are related and they print the same messages.
    With no tracker, or a falsy one, the two functions are the same
    statement. *)
Theorem gui_variant_returns_the_extraction_result (R : W -> W -> Prop)
    progress_tracker d s1 s2 :
  Simulates R eq C C ->
  (forall t, tracker_truthy C progress_tracker = Some t ->
     forall msg b, quiet_ext R (set_status C t msg b)) ->
  R (world s1) (world s2) ->
  fst (extract_gui progress_tracker d s1) = fst (extract d s2) /\
  R (world (snd (extract_gui progress_tracker d s1)))
    (world (snd (extract d s2))) /\
  (exists msgs,
     stdout (snd (extract_gui progress_tracker d s1))
       = (stdout s1 ++ msgs)%list /\
     stdout (snd (extract d s2)) = (stdout s2 ++ msgs)%list) /\
  (tracker_truthy C progress_tracker = None ->
   extract_gui progress_tracker d s1 = extract d s1).
Proof.
  intros Hsim Hquiet HR.
  assert (Hgui : sim_M R (extract_gui progress_tracker d)
                   (ret tt ;;; result <- extract d ;; ret tt ;;; ret result)).
  { unfold extract_answer_key_from_image_gui.
    destruct (tracker_truthy C progress_tracker) as [t |].
    - specialize (Hquiet t eq_refl).
      apply sim_bind; [apply quiet_call_sim, Hquiet |].
      intros _. apply sim_bind.
      { apply extract_sim with (P := eq); [exact Hsim | reflexivity]. }
      intros result. apply sim_bind; [| intros _; apply sim_ret].
      destruct result; apply quiet_call_sim, Hquiet.
    - apply sim_bind; [apply sim_ret |].
      intros _. apply sim_bind.
      { apply extract_sim with (P := eq); [exact Hsim | reflexivity]. }
      intros result. apply sim_bind; [| intros _; apply sim_ret].
      apply sim_ret. }
  destruct (Hgui s1 s2 HR) as (Ho & Hw & Hmsgs).
  rewrite padded_call in Ho, Hw, Hmsgs.
  split; [exact Ho |]. split; [exact Hw |]. split; [exact Hmsgs |].
  intros Hnone. unfold extract_answer_key_from_image_gui.
  rewrite Hnone. apply padded_call.
Qed.

End Claims.

(** * Concrete runs on the test double *)

(** ** The double meets the assumptions of the general statements *)

Lemma simulates_weaken {Path Datetime Image Corners Grid GroupInfo BubbleGroup
    Fills Threshold OutputSheet Tracker W1 W2 : Type}
    (R : W1 -> W2 -> Prop) (P P' : option Path -> option Path -> Prop)
    (C1 : Collaborators Path Datetime Image Corners Grid GroupInfo BubbleGroup
            Fills Threshold OutputSheet Tracker W1)
    (C2 : Collaborators Path Datetime Image Corners Grid GroupInfo BubbleGroup
            Fills Threshold OutputSheet Tracker W2) :
  (forall a b, P' a b -> P a b) ->
  Simulates R P C1 C2 -> Simulates R P' C1 C2.
Proof.
  intros Himp HC. destruct HC. constructor; intros; auto.
Qed.

Lemma same_scans_refl w : Double.same_scans w w.
Proof. reflexivity. Qed.

Lemma same_scans_trans a b c :
  Double.same_scans a b -> Double.same_scans b c -> Double.same_scans a c.
Proof. unfold Double.same_scans. congruence. Qed.

Lemma scans_capture sp what w :
  Double.scans (Double.capture sp what w) = Double.scans w.
Proof. destruct sp; reflexivity. Qed.

Ltac double_op :=
  unfold Double.same_scans, Double.ok, Double.fail in *; simpl;
  repeat match goal with
         | H : Double.scans _ = Double.scans _ |- _ => rewrite H
         | |- context [match ?x with _ => _ end] => destruct x
         end;
  simpl; rewrite ?scans_capture; auto.

Lemma double_simulates :
  Simulates Double.same_scans (fun _ _ => True)
    Double.collaborators Double.collaborators.
Proof.
  constructor; try reflexivity; intros; intros w1 w2 Hs;
    unfold Double.collaborators; simpl; double_op.
Qed.

Lemma double_preserves :
  Preserves Double.same_scans Double.collaborators.
Proof.
  constructor; intros; intros w;
    unfold Double.collaborators; simpl; double_op.
Qed.

Lemma double_silent_format ts :
  silent_ext Double.same_scans
    (format_timestamp_for_file Double.collaborators ts).
Proof. intros w1 w2 H. exact H. Qed.

Lemma double_silent_make_dir p :
  silent_ext Double.same_scans
    (make_dir_if_not_exists Double.collaborators p).
Proof. intros w1 w2 H. exact H. Qed.

Lemma double_quiet_status t msg b :
  quiet_ext Double.same_scans (set_status Double.collaborators (S t) msg b).
Proof. intros w1 w2 H. split; [exact H | exists tt; reflexivity]. Qed.

Lemma last_map {A B} (f : A -> B) (l : list A) (d : A) (d' : B) :
  d' = f d -> last (map f l) d' = f (last l d).
Proof.
  intros ->. induction l as [| a [| b l] IH]; simpl in *; try reflexivity.
  exact IH.
Qed.

Lemma double_shows_answers :
  shows_answers Double.collaborators Double.last_answers.
Proof.
  split.
  - intros sh fd ans w sh' w' H. inversion H; subst.
    unfold Double.last_answers. simpl. rewrite last_last. reflexivity.
  - intros sh r w sh' w' H. inversion H; subst.
    unfold Double.last_answers. simpl.
    rewrite (last_map
               (fun row : list string * list string =>
                  (fst row, map (Double.replace_empty r) (snd row)))
               (Double.rows sh) ([], []) ([], []) eq_refl).
    reflexivity.
Qed.

(** ** Corner errors (C1) *)

(** A scan with a torn corner, debug mode on: the corner search raises
    [CornerFindingError], and the function returns [None] after printing
    the corner message. *)
Lemma corner_error_aborts_sheet_witness :
  isinstance_CornerFindingError
    (mkExn CornerFindingError "fewer than 4 corner marks") = true /\
  fst (Double.extract Double.torn_image Double.form true Double.start)
    = Return None /\
  stdout (snd (Double.extract Double.torn_image Double.form true Double.start))
    = ["Error finding corners in torn.png: fewer than 4 corner marks"].
Proof.
  split; [reflexivity |].
  erewrite (corner_error_aborts_sheet Double.collaborators Double.torn_image
              Double.out_folder true true Double.form Double.stamp true
              Double.start); cycle 1.
  - do 3 eexists.
    split; [vm_compute; reflexivity |]. split; vm_compute; reflexivity.
  - vm_compute. reflexivity.
  - reflexivity.
  - vm_compute. reflexivity.
  - split; reflexivity.
Defined.

(** The claim as written fails on that sheet: with debug mode on, the
    corner search raises a corner-finding error, yet no exception
    reaches the caller; the function returns [None]. *)
Lemma corner_error_not_propagated_in_debug_mode :
  exists debug_path prepared_image s3 e w4,
    reaches_corner_search Double.collaborators Double.torn_image
      Double.out_folder Double.stamp true Double.start
      debug_path prepared_image s3 /\
    find_corner_marks Double.collaborators prepared_image debug_path (world s3)
      = (Raise e, w4) /\
    isinstance_CornerFindingError e = true /\
    fst (Double.extract Double.torn_image Double.form true Double.start)
      = Return None /\
    forall e' s',
      Double.extract Double.torn_image Double.form true Double.start
      <> (Raise e', s').
Proof.
  do 5 eexists. split.
  { do 3 eexists.
    split; [vm_compute; reflexivity |]. split; vm_compute; reflexivity. }
  split; [vm_compute; reflexivity |].
  split; [reflexivity |]. split; [reflexivity |].
  intros e' s' H. apply (f_equal fst) in H. discriminate H.
Qed.

(** ** The record of a successful run (C3, C7, C8, C10) *)

Lemma key_run_succeeds d :
  fst (Double.extract Double.key_image Double.form d Double.start)
  = Return (Some Double.csv).
Proof. destruct d; vm_compute; reflexivity. Qed.




(** A layout without a form-code field: the run still returns the path
    of the record, whose form code is empty. *)
Lemma missing_form_code_is_recorded_empty_witness :
  has_form_code Double.form_without_code = false /\
  exists (r : Double.Run) w,
    run_form_code r = "" /\
    Double.extract Double.key_image Double.form_without_code false Double.start
    = (Return (Some (run_output_path r)),
       run_final_state Double.collaborators Double.key_image r w).
Proof.
  split; [reflexivity |].
  assert (Hb : extraction_body Double.collaborators Double.key_image
                 Double.out_folder true true Double.form_without_code
                 Double.stamp None Double.start
               = (Return (Some Double.csv),
                  snd (extraction_body Double.collaborators Double.key_image
                         Double.out_folder true true Double.form_without_code
                         Double.stamp None Double.start)))
    by (vm_compute; reflexivity).
  apply extraction_body_success in Hb as (r & Hr & _ & w & Hw & _).
  destruct (missing_form_code_is_recorded_empty Double.collaborators
              Double.key_image Double.out_folder true true
              Double.form_without_code Double.stamp false Double.start None
              Double.start r w eq_refl Hr Hw (or_introl eq_refl))
    as (Hcode & _ & _ & Hrun).
  exists r, w. split; [exact Hcode | exact Hrun].
Defined.

(** ** The order of the stages (C4) *)

(** The stages of the sample run, as the theorem gives them. *)
Lemma stages_run_in_pipeline_order_witness :
  Double.extract Double.key_image Double.form false Double.start
    = (Return (Some Double.csv),
       snd (Double.extract Double.key_image Double.form false Double.start))
  /\ stages_of (call_trace
                  (Double.extract_traced Double.key_image Double.form false)
                  Double.start)
     = [StLoadImage; StPrepareScan; StCornerLocation; StDilate;
        StGridConstruction;
        StFillMeasurement 0%nat; StFillMeasurement 1%nat;
        StFillMeasurement 2%nat; StFillMeasurement 3%nat;
        StFillMeasurement 4%nat;
        StThresholdCalibration;
        StDecodeAnswer 0%Z; StDecodeAnswer 1%Z; StDecodeAnswer 2%Z;
        StDecodeField TEST_FORM_CODE;
        StAssembleRecord; StAssembleRecord; StAssembleRecord; StSaveRecord].
Proof.
  assert (H : Double.extract Double.key_image Double.form false Double.start
              = (Return (Some Double.csv),
                 snd (Double.extract Double.key_image Double.form false
                        Double.start)))
    by (vm_compute; reflexivity).
  split; [exact H |].
  rewrite (proj1 (stages_run_in_pipeline_order Double.collaborators
                    Double.key_image Double.out_folder true true Double.form
                    Double.stamp false Double.start Double.csv _ H)).
  reflexivity.
Defined.

(** The claim as written fails on the sample sheet: its layout
    configures a last-name field, whose bubbles are measured (group 0),
    but the successful run never decodes that field; the only field
    decoded is [TEST_FORM_CODE]. *)
Lemma configured_field_is_measured_but_not_decoded :
  let stages :=
    stages_of (call_trace
                 (Double.extract_traced Double.key_image Double.form false)
                 Double.start) in
  fst (Double.extract Double.key_image Double.form false Double.start)
    = Return (Some Double.csv) /\
  In (OtherField "LAST_NAME", 0%nat) (configured_fields (fields Double.form)) /\
  In (StFillMeasurement 0%nat) stages /\
  ~ In (StDecodeField (OtherField "LAST_NAME")) stages.
Proof.
  split; [vm_compute; reflexivity |].
  split; [left; reflexivity |].
  split.
  - vm_compute. do 5 right. left. reflexivity.
  - vm_compute. intros H.
    repeat (destruct H as [H | H]; [discriminate H |]). exact H.
Qed.

(** ** Debug capture, re-runs and the GUI variant (C2, C6, C9) *)

(** The sample sheet with and without debug capture: the same path, and
    after the three set-up calls the same calls. *)
Lemma debug_capture_is_a_side_channel_witness :
  Double.extract Double.key_image Double.form false Double.start
    = (Return (Some Double.csv),
       snd (Double.extract Double.key_image Double.form false Double.start))
  /\ Double.extract Double.key_image Double.form true Double.start
    = (Return (Some Double.csv),
       snd (Double.extract Double.key_image Double.form true Double.start))
  /\ exists setup_calls,
       stages_of setup_calls = [StDebugSetup; StDebugSetup; StDebugSetup] /\
       call_trace (Double.extract_traced Double.key_image Double.form true)
         Double.start
       = (setup_calls
          ++ call_trace
               (Double.extract_traced Double.key_image Double.form false)
               Double.start)%list.
Proof.
  assert (Hoff : Double.extract Double.key_image Double.form false Double.start
              = (Return (Some Double.csv),
                 snd (Double.extract Double.key_image Double.form false
                        Double.start)))
    by (vm_compute; reflexivity).
  assert (Hon : Double.extract Double.key_image Double.form true Double.start
              = (Return (Some Double.csv),
                 snd (Double.extract Double.key_image Double.form true
                        Double.start)))
    by (vm_compute; reflexivity).
  split; [exact Hoff |]. split; [exact Hon |].
  destruct (debug_capture_is_a_side_channel Double.collaborators
              Double.key_image Double.out_folder true true Double.form
              Double.stamp Double.same_scans Double.start Double.start
              Double.csv Double.csv _ _
              double_simulates double_silent_format
              double_silent_make_dir (same_scans_refl _) Hoff Hon)
    as (_ & _ & _ & Htrace).
  exact Htrace.
Defined.

(** The sample sheet extracted twice in a row, the second run starting
    in the world and with the output the first one left. *)
Lemma rerun_yields_same_record_witness :
  fst (Double.extract Double.key_image Double.form false
         (snd (Double.extract Double.key_image Double.form false Double.start)))
  = fst (Double.extract Double.key_image Double.form false Double.start)
  /\ call_trace (Double.extract_traced Double.key_image Double.form false)
       (snd (Double.extract Double.key_image Double.form false Double.start))
     = call_trace (Double.extract_traced Double.key_image Double.form false)
         Double.start.
Proof.
  exact (rerun_yields_same_record Double.collaborators Double.key_image
           Double.out_folder true true Double.form Double.stamp
           Double.same_scans false Double.start
           same_scans_refl same_scans_trans
           (simulates_weaken _ _ _ _ _ (fun _ _ _ => I) double_simulates)
           double_preserves).
Defined.

(** The sample sheet through the GUI variant with a live progress
    window: the same result as the plain function. *)
Lemma gui_variant_returns_the_extraction_result_witness :
  fst (Double.extract_gui (Some 1%nat) Double.start)
  = fst (Double.extract Double.key_image Double.form false Double.start).
Proof.
  refine (proj1 (gui_variant_returns_the_extraction_result Double.collaborators
                   Double.key_image Double.out_folder true true Double.form
                   Double.stamp Double.same_scans (Some 1%nat) false
                   Double.start Double.start _ _ _)).
  - exact (simulates_weaken _ _ _ _ _ (fun _ _ _ => I) double_simulates).
  - intros t Ht. inversion Ht; subst t. apply double_quiet_status.
  - apply same_scans_refl.
Defined.

(** The claim as written fails for a progress window that has been
    destroyed: on the arguments on which the plain function returns the
    path of the record, the GUI variant raises what [set_status]
    raised. *)
Lemma destroyed_progress_window_raises :
  fst (Double.extract Double.key_image Double.form false Double.start)
    = Return (Some Double.csv) /\
  tracker_truthy Double.collaborators (Some 0%nat) = Some 0%nat /\
  fst (Double.extract_gui (Some 0%nat) Double.start)
    = Raise (mkExn OtherException "window has been destroyed").
Proof. repeat split; vm_compute; reflexivity. Qed.

(** * Further properties of the extractor *)

(** ** What a run prints *)

Lemma prints_nothing_ret {W A} (a : A) : prints_nothing (W := W) (ret a).
Proof. intros s. reflexivity. Qed.

Lemma prints_nothing_raise {W A} (e : Exn) :
  prints_nothing (W := W) (A := A) (raise e).
Proof. intros s. reflexivity. Qed.

Lemma prints_nothing_call {W A} (op : Ext W A) : prints_nothing (call op).
Proof. intros s. apply call_stdout. Qed.

Lemma prints_nothing_bind {W A B} (m : M (PyState W) A)
    (k : A -> M (PyState W) B) :
  prints_nothing m -> (forall a, prints_nothing (k a)) ->
  prints_nothing (bind m k).
Proof.
  intros Hm Hk s. specialize (Hm s). unfold bind.
  destruct (m s) as [[a | e] s1]; simpl in *.
  - rewrite (Hk a s1). exact Hm.
  - exact Hm.
Qed.

Lemma prints_nothing_mapM {W A B} (f : A -> M (PyState W) B) (l : list A) :
  (forall x, prints_nothing (f x)) -> prints_nothing (mapM f l).
Proof.
  intros Hf. induction l as [| x xs IH]; simpl.
  - apply prints_nothing_ret.
  - apply prints_nothing_bind; [apply Hf |]. intros y.
    apply prints_nothing_bind; [exact IH |]. intros ys.
    apply prints_nothing_ret.
Qed.

Lemma outputs_bind {W A B} (m : M (PyState W) A) (k : A -> M (PyState W) B)
    (Q : Outcome B -> list string -> Prop) :
  prints_nothing m -> (forall e, Q (Raise e) []) ->
  (forall a, outputs (k a) Q) -> outputs (bind m k) Q.
Proof.
  intros Hm He Hk s. specialize (Hm s). unfold bind.
  destruct (m s) as [[a | e] s1]; simpl in *.
  - destruct (Hk a s1) as (out & Hout & HQ). exists out.
    rewrite Hout, Hm. split; [reflexivity | exact HQ].
  - exists []. rewrite app_nil_r. split; [exact Hm | apply He].
Qed.

Lemma outputs_try_except {W A B} (b : M (PyState W) A) catches
    (h : Exn -> M (PyState W) B) (k : A -> M (PyState W) B)
    (Q : Outcome B -> list string -> Prop) :
  prints_nothing b -> (forall e, Q (Raise e) []) ->
  (forall e, catches e = true -> outputs (h e) Q) ->
  (forall a, outputs (k a) Q) -> outputs (try_except b catches h k) Q.
Proof.
  intros Hb He Hh Hk s. specialize (Hb s). unfold try_except.
  destruct (b s) as [[a | e] s1]; simpl in *.
  - destruct (Hk a s1) as (out & Hout & HQ). exists out.
    rewrite Hout, Hb. split; [reflexivity | exact HQ].
  - destruct (catches e) eqn:Ec.
    + destruct (Hh e Ec s1) as (out & Hout & HQ). exists out.
      rewrite Hout, Hb. split; [reflexivity | exact HQ].
    + exists []. rewrite app_nil_r. split; [exact Hb | apply He].
Qed.

Lemma outputs_print_ret {W A} (write : string -> Ext W unit) (msg : string)
    (a : A) (Q : Outcome A -> list string -> Prop) :
  Q (Return a) [msg] -> (forall e, Q (Raise e) []) ->
  outputs (print write msg ;;; ret a) Q.
Proof.
  intros HQ He s. unfold bind, print.
  destruct (write msg (world s)) as [[u | e] w']; simpl.
  - exists [msg]. split; [reflexivity | exact HQ].
  - exists []. rewrite app_nil_r. split; [reflexivity | apply He].
Qed.

Section Reports.

Context {Path Datetime Image Corners Grid GroupInfo BubbleGroup : Type}.
Context {Fills Threshold OutputSheet Tracker W : Type}.
Variable C : Collaborators Path Datetime Image Corners Grid GroupInfo
               BubbleGroup Fills Threshold OutputSheet Tracker W.

Variables image_path output_folder : Path.
Variables multi_answers_as_f empty_answers_as_g : bool.
Variable form_variant : FormVariant GroupInfo.
Variable files_timestamp : option Datetime.

Local Abbreviation extract :=
  (extract_answer_key_from_image C image_path output_folder
     multi_answers_as_f empty_answers_as_g form_variant files_timestamp).
Local Abbreviation body :=
  (extraction_body C image_path output_folder
     multi_answers_as_f empty_answers_as_g form_variant files_timestamp).

Lemma prints_nothing_group_fill_percents info grid :
  prints_nothing (group_fill_percents C info grid).
Proof.
  unfold group_fill_percents.
  apply prints_nothing_bind; [apply prints_nothing_call |].
  intros g. apply prints_nothing_call.
Qed.

(** The body of the [try] prints one line when it returns and none
    when it raises. *)
Lemma extraction_body_outputs dp :
  outputs (body dp)
    (fun o out =>
       match o with
       | Return (Some p) => out = [success_message C image_path p]
       | Return None =>
           exists e, isinstance_CornerFindingError e = true /\
                     out = [corner_message C image_path e]
       | Raise _ => out = []
       end).
Proof.
  unfold extraction_body.
  apply outputs_bind; [apply prints_nothing_call | reflexivity |].
  intros image.
  apply outputs_bind; [apply prints_nothing_call | reflexivity |].
  intros prepared.
  apply outputs_try_except; [apply prints_nothing_call | reflexivity | |].
  { intros e He. apply outputs_print_ret; [| reflexivity].
    exists e. split; [exact He | reflexivity]. }
  intros corners.
  apply outputs_bind; [apply prints_nothing_call | reflexivity |].
  intros morphed.
  apply outputs_bind; [apply prints_nothing_call | reflexivity |].
  intros grid.
  apply outputs_bind; [| reflexivity |].
  { apply prints_nothing_mapM. intros kv.
    apply prints_nothing_bind; [apply prints_nothing_group_fill_percents |].
    intros fills. apply prints_nothing_ret. }
  intros field_items.
  apply outputs_bind; [| reflexivity |].
  { apply prints_nothing_mapM. intros q.
    apply prints_nothing_group_fill_percents. }
  intros afp.
  apply outputs_bind; [apply prints_nothing_call | reflexivity |].
  intros thr.
  apply outputs_bind; [| reflexivity |].
  { apply prints_nothing_mapM. intros i.
    destruct (list_getitem afp i);
      [apply prints_nothing_call | apply prints_nothing_raise]. }
  intros answers.
  apply outputs_bind; [| reflexivity |].
  { destruct (dict_get (dict_of_items field_items) TEST_FORM_CODE).
    - apply prints_nothing_bind; [apply prints_nothing_call |].
      intros code. apply prints_nothing_ret.
    - apply prints_nothing_ret. }
  intros form_code.
  apply outputs_bind; [apply prints_nothing_call | reflexivity |].
  intros sh0.
  apply outputs_bind; [apply prints_nothing_call | reflexivity |].
  intros sh1.
  apply outputs_bind; [apply prints_nothing_call | reflexivity |].
  intros sh2.
  apply outputs_bind; [apply prints_nothing_call | reflexivity |].
  intros out. apply outputs_print_ret; reflexivity.
Qed.


End Reports.

(** ** Statements that call nothing *)

Lemma calls_nothing_ret {W L A} (a : A) :
  calls_nothing (W := W) (L := L) (ret a).
Proof. intros s. reflexivity. Qed.

Lemma calls_nothing_raise {W L A} (e : Exn) :
  calls_nothing (W := W) (L := L) (A := A) (raise e).
Proof. intros s. reflexivity. Qed.

Lemma calls_nothing_print {W L} (write : string -> Ext W unit) (msg : string) :
  calls_nothing (print (fun m => unlogged_op (L := L) (write m)) msg).
Proof.
  intros s. unfold print, unlogged_op.
  destruct (write msg (fst (world s))) as [[u | e] w']; reflexivity.
Qed.

Lemma calls_nothing_bind {W L A B} (m : M (PyState (W * L)) A)
    (k : A -> M (PyState (W * L)) B) :
  calls_nothing m -> (forall a, calls_nothing (k a)) ->
  calls_nothing (bind m k).
Proof.
  intros Hm Hk s. specialize (Hm s). unfold bind.
  destruct (m s) as [[a | e] s1]; simpl in *.
  - rewrite (Hk a s1). exact Hm.
  - exact Hm.
Qed.

(** A [try] whose body has stopped calling calls nothing more when its
    handler calls nothing. *)
Lemma calls_nothing_try_except {W L A} (b m : M (PyState (W * L)) A)
    catches (h : Exn -> M (PyState (W * L)) A) s t :
  b s = m t -> calls_nothing m -> (forall e, calls_nothing (h e)) ->
  snd (world (snd (try_except b catches h ret s))) = snd (world t).
Proof.
  intros Hb Hm Hh. specialize (Hm t). unfold try_except. rewrite Hb.
  destruct (m t) as [[a | e] t1]; simpl in *.
  - exact Hm.
  - destruct (catches e); [rewrite (Hh e t1) |]; exact Hm.
Qed.

(** ** Errors raised by the stages

    The extractor is run on collaborators that log how each call
    ended.  The rules below follow the log through a statement. *)
Section Propagation.

Context {Path Datetime Image Corners Grid GroupInfo BubbleGroup : Type}.
Context {Fills Threshold OutputSheet Tracker W : Type}.

Local Abbreviation Ev :=
  (Event Path Datetime Image Corners Grid GroupInfo BubbleGroup Fills
     Threshold OutputSheet Tracker).
Local Abbreviation En :=
  (Entry Path Datetime Image Corners Grid GroupInfo BubbleGroup Fills
     Threshold OutputSheet Tracker).
Local Abbreviation LS := (PyState (W * list En)).

Lemma last_raised_app (seg1 seg2 : list En) ev e :
  Forall completed seg1 -> last_raised seg2 ev e ->
  last_raised (seg1 ++ seg2) ev e.
Proof.
  intros H1 (before & -> & Hb). exists (seg1 ++ before)%list.
  split; [apply app_assoc | apply Forall_app; split; assumption].
Qed.

Lemma completed_not_raised (seg : list En) ev e :
  Forall completed seg -> ~ In (ev, Some e) seg.
Proof.
  intros H Hin. rewrite Forall_forall in H. specialize (H _ Hin).
  discriminate H.
Qed.

(** The call that raised is the only one that did. *)
Lemma last_raised_In (seg : list En) ev e ev' e' :
  last_raised seg ev e -> In (ev', Some e') seg -> ev' = ev /\ e' = e.
Proof.
  intros (before & -> & Hb) Hin. apply in_app_or in Hin as [Hin | Hin].
  - exfalso. exact (completed_not_raised _ _ _ Hb Hin).
  - destruct Hin as [Heq | []]. inversion Heq. split; reflexivity.
Qed.

Section Rules.

Variable P : Ev -> Prop.

Lemma propagates_ret {A} (a : A) : propagates P (W := W) (ret a).
Proof.
  intros s. exists []. rewrite app_nil_r.
  split; [reflexivity |]. split; [reflexivity |]. split; [constructor |].
  left. constructor.
Qed.

Lemma propagates_raise {A} (e : Exn) :
  propagates P (W := W) (A := A) (raise e).
Proof.
  intros s. exists []. rewrite app_nil_r.
  split; [reflexivity |]. split; [reflexivity |]. split; [constructor |].
  left. constructor.
Qed.

Lemma propagates_call {A} (ev : Ev) (op : Ext W A) :
  P ev -> propagates P (call (observed_op ev op)).
Proof.
  intros Hev s. unfold call, observed_op.
  destruct (op (fst (world s))) as [[a | e] w']; simpl.
  - exists [(ev, None)].
    split; [reflexivity |]. split; [reflexivity |].
    split; [repeat constructor; exact Hev |].
    left. repeat constructor.
  - exists [(ev, Some e)].
    split; [reflexivity |]. split; [reflexivity |].
    split; [repeat constructor; exact Hev |].
    right. exists ev, e. split; [| reflexivity].
    exists []. split; [reflexivity | constructor].
Qed.

Lemma propagates_bind {A B} (m : M LS A) (k : A -> M LS B) :
  propagates P m -> (forall a, propagates P (k a)) ->
  propagates P (bind m k).
Proof.
  intros Hm Hk s. destruct (Hm s) as (seg1 & Hl1 & Ho1 & HP1 & Hc1).
  unfold bind. destruct (m s) as [[a | e] s1]; simpl in *.
  - assert (H1 : Forall completed seg1).
    { destruct Hc1 as [H | (ev & e & _ & Habs)]; [exact H | discriminate]. }
    destruct (Hk a s1) as (seg2 & Hl2 & Ho2 & HP2 & Hc2).
    exists (seg1 ++ seg2)%list. rewrite Hl2, Hl1, app_assoc, Ho2.
    split; [reflexivity |]. split; [exact Ho1 |].
    split; [apply Forall_app; split; assumption |].
    destruct Hc2 as [H2 | (ev & e & Hlr & Hr)].
    + left. apply Forall_app. split; assumption.
    + right. exists ev, e.
      split; [apply last_raised_app; assumption | exact Hr].
  - exists seg1. simpl.
    split; [exact Hl1 |]. split; [exact Ho1 |]. split; [exact HP1 |].
    destruct Hc1 as [H | (ev & e' & Hlr & Hr)]; [left; exact H | right].
    exists ev, e'. split; [exact Hlr |]. inversion Hr. reflexivity.
Qed.

Lemma propagates_mapM {A B} (f : A -> M LS B) (l : list A) :
  (forall x, propagates P (f x)) -> propagates P (mapM f l).
Proof.
  intros Hf. induction l as [| x xs IH]; simpl.
  - apply propagates_ret.
  - apply propagates_bind; [apply Hf |]. intros y.
    apply propagates_bind; [exact IH |]. intros ys. apply propagates_ret.
Qed.

Lemma propagates_unexpected_quiet {A} (m : M LS A) :
  calls_nothing m -> propagates_unexpected P m.
Proof.
  intros Hm s. exists []. rewrite app_nil_r.
  split; [apply Hm |]. split; [constructor |]. left. constructor.
Qed.

Lemma propagates_unexpected_bind {A B} (m : M LS A) (k : A -> M LS B) :
  propagates P m -> (forall a, propagates_unexpected P (k a)) ->
  propagates_unexpected P (bind m k).
Proof.
  intros Hm Hk s. destruct (Hm s) as (seg1 & Hl1 & Ho1 & HP1 & Hc1).
  unfold bind. destruct (m s) as [[a | e] s1]; simpl in *.
  - assert (H1 : Forall completed seg1).
    { destruct Hc1 as [H | (ev & e & _ & Habs)]; [exact H | discriminate]. }
    destruct (Hk a s1) as (seg2 & Hl2 & HP2 & Hc2).
    exists (seg1 ++ seg2)%list. rewrite Hl2, Hl1, app_assoc.
    split; [reflexivity |].
    split; [apply Forall_app; split; assumption |].
    destruct Hc2 as [H2 | (ev & e & Hlr & Hr)].
    + left. apply Forall_app. split; assumption.
    + right. exists ev, e. split; [apply last_raised_app; assumption |].
      destruct Hr as [Hr | [Hr Hout]]; [left; exact Hr | right].
      split; [exact Hr | rewrite Hout; exact Ho1].
  - exists seg1. simpl. split; [exact Hl1 |]. split; [exact HP1 |].
    destruct Hc1 as [H | (ev & e' & Hlr & Hr)]; [left; exact H | right].
    exists ev, e'. split; [exact Hlr |]. right.
    split; [inversion Hr; reflexivity | exact Ho1].
Qed.

(** The [try] around the corner search: its handler takes the
    corner-finding errors and calls nothing. *)
Lemma propagates_unexpected_try {A B} (b : M LS A) (h : Exn -> M LS B)
    (k : A -> M LS B) :
  propagates P b -> (forall e, calls_nothing (h e)) ->
  (forall a, propagates_unexpected P (k a)) ->
  propagates_unexpected P (try_except b isinstance_CornerFindingError h k).
Proof.
  intros Hb Hh Hk s. destruct (Hb s) as (seg1 & Hl1 & Ho1 & HP1 & Hc1).
  unfold try_except. destruct (b s) as [[a | e] s1]; simpl in *.
  - assert (H1 : Forall completed seg1).
    { destruct Hc1 as [H | (ev & e & _ & Habs)]; [exact H | discriminate]. }
    destruct (Hk a s1) as (seg2 & Hl2 & HP2 & Hc2).
    exists (seg1 ++ seg2)%list. rewrite Hl2, Hl1, app_assoc.
    split; [reflexivity |].
    split; [apply Forall_app; split; assumption |].
    destruct Hc2 as [H2 | (ev & e & Hlr & Hr)].
    + left. apply Forall_app. split; assumption.
    + right. exists ev, e. split; [apply last_raised_app; assumption |].
      destruct Hr as [Hr | [Hr Hout]]; [left; exact Hr | right].
      split; [exact Hr | rewrite Hout; exact Ho1].
  - destruct (isinstance_CornerFindingError e) eqn:Ec.
    + exists seg1. rewrite (Hh e s1).
      split; [exact Hl1 |]. split; [exact HP1 |].
      destruct Hc1 as [H | (ev & e' & Hlr & Hr)]; [left; exact H | right].
      exists ev, e'. split; [exact Hlr |]. left.
      inversion Hr; subst e'. exact Ec.
    + exists seg1. simpl. split; [exact Hl1 |]. split; [exact HP1 |].
      destruct Hc1 as [H | (ev & e' & Hlr & Hr)]; [left; exact H | right].
      exists ev, e'. split; [exact Hlr |]. right.
      split; [inversion Hr; reflexivity | exact Ho1].
Qed.

End Rules.

Lemma observed_op_without_log {A} (ev : Ev) (op : Ext W A) :
  sim_ext without_log (observed_op ev op) op.
Proof.
  intros [w l] w2 H. unfold without_log in *. simpl in *. subst w2.
  unfold observed_op. simpl. destruct (op w) as [o w']. split; reflexivity.
Qed.

Lemma unlogged_op_without_log {A} (op : Ext W A) :
  sim_ext without_log (unlogged_op (L := list En) op) op.
Proof.
  intros [w l] w2 H. unfold without_log in *. simpl in *. subst w2.
  unfold unlogged_op. simpl. destruct (op w) as [o w']. split; reflexivity.
Qed.

Variable C : Collaborators Path Datetime Image Corners Grid GroupInfo
               BubbleGroup Fills Threshold OutputSheet Tracker W.

(** An observed run is the run itself. *)
Lemma observed_without_log : Simulates without_log eq (observed C) C.
Proof.
  constructor; simpl; intros; subst;
    auto using observed_op_without_log, unlogged_op_without_log.
Qed.

Variables image_path output_folder : Path.
Variables multi_answers_as_f empty_answers_as_g : bool.
Variable form_variant : FormVariant GroupInfo.
Variable files_timestamp : option Datetime.

Local Abbreviation extract :=
  (extract_answer_key_from_image C image_path output_folder
     multi_answers_as_f empty_answers_as_g form_variant files_timestamp).
Local Abbreviation extract_observed :=
  (extract_answer_key_from_image (observed C) image_path output_folder
     multi_answers_as_f empty_answers_as_g form_variant files_timestamp).

Lemma observed_run d s :
  fst (extract_observed d (start_log s)) = fst (extract d s) /\
  stdout (snd (extract_observed d (start_log s))) = stdout (snd (extract d s)).
Proof.
  destruct (extract_sim _ _ _ _ observed_without_log image_path output_folder
              multi_answers_as_f empty_answers_as_g form_variant
              files_timestamp (fun sp => eq_refl) d (start_log s) s
              eq_refl)
    as (Ho & _ & msgs & H1 & H2).
  split; [exact Ho |]. rewrite H1, H2. reflexivity.
Qed.

(** The calls of the debug set-up are not pipeline calls. *)
Lemma debug_setup_propagates d :
  propagates (fun ev => is_pipeline_event ev = false)
    (debug_setup (observed C) image_path output_folder files_timestamp d).
Proof.
  unfold debug_setup. destruct d; [| apply propagates_ret].
  apply propagates_bind; [apply propagates_call; reflexivity |].
  intros stamp.
  apply propagates_bind; [apply propagates_call; reflexivity |]. intros _.
  apply propagates_bind; [apply propagates_call; reflexivity |]. intros _.
  apply propagates_ret.
Qed.

(** Inside the [try], an exception raised by a call ends the body,
    unless it is a corner-finding error. *)
Lemma extraction_body_propagates dp :
  propagates_unexpected (fun ev => is_pipeline_event ev = true)
    (extraction_body (observed C) image_path output_folder
       multi_answers_as_f empty_answers_as_g form_variant files_timestamp dp).
Proof.
  set (P := fun ev : Ev => is_pipeline_event ev = true).
  assert (Hcall : forall A (ev : Ev) (op : Ext W A),
            is_pipeline_event ev = true ->
            propagates P (call (observed_op ev op))).
  { intros A ev op Hev. apply propagates_call. exact Hev. }
  assert (Hgroup : forall info grid,
            propagates P (group_fill_percents (observed C) info grid)).
  { intros info grid. unfold group_fill_percents.
    apply propagates_bind; [apply Hcall; reflexivity |].
    intros g. apply Hcall. reflexivity. }
  assert (Hprint : forall A msg (a : A),
            calls_nothing (print (stdout_write (observed C)) msg ;;; ret a)).
  { intros A msg a.
    apply calls_nothing_bind;
      [apply (calls_nothing_print (stdout_write C)) |].
    intros _. apply calls_nothing_ret. }
  unfold extraction_body.
  apply propagates_unexpected_bind; [apply Hcall; reflexivity |].
  intros image.
  apply propagates_unexpected_bind; [apply Hcall; reflexivity |].
  intros prepared.
  apply propagates_unexpected_try; [apply Hcall; reflexivity | |].
  { intros e. apply Hprint. }
  intros corners.
  apply propagates_unexpected_bind; [apply Hcall; reflexivity |].
  intros morphed.
  apply propagates_unexpected_bind; [apply Hcall; reflexivity |].
  intros grid.
  apply propagates_unexpected_bind.
  { apply propagates_mapM. intros kv.
    apply propagates_bind; [apply Hgroup |].
    intros fills. apply propagates_ret. }
  intros field_items.
  apply propagates_unexpected_bind;
    [apply propagates_mapM; intros q; apply Hgroup |].
  intros afp.
  apply propagates_unexpected_bind; [apply Hcall; reflexivity |].
  intros thr.
  apply propagates_unexpected_bind.
  { apply propagates_mapM. intros i. destruct (list_getitem afp i).
    - apply Hcall. reflexivity.
    - apply propagates_raise. }
  intros answers.
  apply propagates_unexpected_bind.
  { destruct (dict_get (dict_of_items field_items) TEST_FORM_CODE).
    - apply propagates_bind; [apply Hcall; reflexivity |].
      intros code. apply propagates_ret.
    - apply propagates_ret. }
  intros form_code.
  apply propagates_unexpected_bind; [apply Hcall; reflexivity |]. intros sh0.
  apply propagates_unexpected_bind; [apply Hcall; reflexivity |]. intros sh1.
  apply propagates_unexpected_bind; [apply Hcall; reflexivity |]. intros sh2.
  apply propagates_unexpected_bind; [apply Hcall; reflexivity |]. intros out.
  apply propagates_unexpected_quiet, Hprint.
Qed.

Lemma extraction_handler_calls_nothing d e :
  calls_nothing (extraction_handler (observed C) image_path d e).
Proof.
  unfold extraction_handler.
  apply calls_nothing_bind; [apply (calls_nothing_print (stdout_write C)) |].
  intros _. destruct d; [apply calls_nothing_raise | apply calls_nothing_ret].
Qed.

(** An [Exception] with which the body of the [try] ends, whatever
    raised it, is reported and handed to the handler. *)
Lemma raised_in_try_is_reported d s dp s1 e s2 :
  isinstance_Exception e = true ->
  console_accepts C (failure_message C image_path e) ->
  debug_setup C image_path output_folder files_timestamp d s
    = (Return dp, s1) ->
  extraction_body C image_path output_folder multi_answers_as_f
    empty_answers_as_g form_variant files_timestamp dp s1 = (Raise e, s2) ->
  fst (extract d s) = (if d then Raise e else Return None) /\
  stdout (snd (extract d s))
  = (stdout s ++ [failure_message C image_path e])%list.
Proof.
  intros He Hacc Hs Hb.
  destruct (Hacc (world s2)) as [w3 Hw3].
  rewrite (exception_reaches_handler C image_path output_folder
             multi_answers_as_f empty_answers_as_g form_variant
             files_timestamp d s dp s1 e s2 w3 Hs Hb He Hw3).
  simpl. split; [reflexivity |]. f_equal.
  destruct (extraction_body_outputs C image_path output_folder
              multi_answers_as_f empty_answers_as_g form_variant
              files_timestamp dp s1) as (out & Hout & HQ).
  rewrite Hb in Hout, HQ. simpl in Hout, HQ. subst out.
  rewrite app_nil_r in Hout. rewrite Hout.
  pose proof (debug_setup_stdout C image_path output_folder files_timestamp
                d s) as Hsetup.
  rewrite Hs in Hsetup. exact Hsetup.
Qed.


End Propagation.

(** ** Calls that are never made *)
Section OnlyCalls.

Context {Path Datetime Image Corners Grid GroupInfo BubbleGroup : Type}.
Context {Fills Threshold OutputSheet Tracker W : Type}.

Local Abbreviation Ev :=
  (Event Path Datetime Image Corners Grid GroupInfo BubbleGroup Fills
     Threshold OutputSheet Tracker).
Local Abbreviation TS := (PyState (W * list Ev)).

Variable P : Ev -> Prop.

Lemma only_calls_ret {A} (a : A) : only_calls P (W := W) (ret a).
Proof. intros s. exists []. rewrite app_nil_r. split; [reflexivity | constructor]. Qed.

Lemma only_calls_raise {A} (e : Exn) :
  only_calls P (W := W) (A := A) (raise e).
Proof. intros s. exists []. rewrite app_nil_r. split; [reflexivity | constructor]. Qed.

Lemma only_calls_print (write : string -> Ext W unit) (msg : string) :
  only_calls P (print (fun m => unlogged_op (write m)) msg).
Proof.
  intros s. exists []. unfold print, unlogged_op.
  destruct (write msg (fst (world s))) as [[u | e] w']; simpl;
    rewrite app_nil_r; split; (reflexivity || constructor).
Qed.

Lemma only_calls_call {A} (ev : Ev) (op : Ext W A) :
  P ev -> only_calls P (call (traced_op ev op)).
Proof.
  intros Hev s. exists [ev]. unfold call, traced_op.
  destruct (op (fst (world s))) as [o w']. simpl.
  split; [reflexivity | repeat constructor; exact Hev].
Qed.

Lemma only_calls_bind {A B} (m : M TS A) (k : A -> M TS B) :
  only_calls P m -> (forall a, only_calls P (k a)) ->
  only_calls P (bind m k).
Proof.
  intros Hm Hk s. destruct (Hm s) as (seg & Hseg & HP). unfold bind.
  destruct (m s) as [[a | e] s1]; simpl in *.
  - destruct (Hk a s1) as (seg' & Hseg' & HP').
    exists (seg ++ seg')%list. rewrite Hseg', Hseg, app_assoc.
    split; [reflexivity | apply Forall_app; split; assumption].
  - exists seg. split; assumption.
Qed.

Lemma only_calls_try_except {A B} (b : M TS A) catches (h : Exn -> M TS B)
    (k : A -> M TS B) :
  only_calls P b -> (forall e, only_calls P (h e)) ->
  (forall a, only_calls P (k a)) ->
  only_calls P (try_except b catches h k).
Proof.
  intros Hb Hh Hk s. destruct (Hb s) as (seg & Hseg & HP).
  unfold try_except. destruct (b s) as [[a | e] s1]; simpl in *.
  - destruct (Hk a s1) as (seg' & Hseg' & HP').
    exists (seg ++ seg')%list. rewrite Hseg', Hseg, app_assoc.
    split; [reflexivity | apply Forall_app; split; assumption].
  - destruct (catches e).
    + destruct (Hh e s1) as (seg' & Hseg' & HP').
      exists (seg ++ seg')%list. rewrite Hseg', Hseg, app_assoc.
      split; [reflexivity | apply Forall_app; split; assumption].
    + exists seg. split; assumption.
Qed.

Lemma only_calls_mapM {A B} (f : A -> M TS B) (l : list A) :
  (forall x, only_calls P (f x)) -> only_calls P (mapM f l).
Proof.
  intros Hf. induction l as [| x xs IH]; simpl.
  - apply only_calls_ret.
  - apply only_calls_bind; [apply Hf |]. intros y.
    apply only_calls_bind; [exact IH |]. intros ys. apply only_calls_ret.
Qed.

Variable C : Collaborators Path Datetime Image Corners Grid GroupInfo
               BubbleGroup Fills Threshold OutputSheet Tracker W.

Variables image_path output_folder : Path.
Variables multi_answers_as_f empty_answers_as_g : bool.
Variable form_variant : FormVariant GroupInfo.
Variable files_timestamp : option Datetime.

Hypothesis HP : forall ev, is_pipeline_event ev = true -> P ev.

(** Whatever holds of all pipeline events holds of every call the body
    of the [try] makes. *)
Lemma extraction_body_only_calls dp :
  only_calls P
    (extraction_body (traced C) image_path output_folder multi_answers_as_f
       empty_answers_as_g form_variant files_timestamp dp).
Proof.
  assert (Hcall : forall A (ev : Ev) (op : Ext W A),
            is_pipeline_event ev = true ->
            only_calls P (call (traced_op ev op))).
  { intros A ev op Hev. apply only_calls_call, HP, Hev. }
  assert (Hgroup : forall info grid,
            only_calls P (group_fill_percents (traced C) info grid)).
  { intros info grid. unfold group_fill_percents.
    apply only_calls_bind; [apply Hcall; reflexivity |].
    intros g. apply Hcall. reflexivity. }
  unfold extraction_body.
  apply only_calls_bind; [apply Hcall; reflexivity |]. intros image.
  apply only_calls_bind; [apply Hcall; reflexivity |]. intros prepared.
  apply only_calls_try_except; [apply Hcall; reflexivity | |].
  { intros e.
    apply only_calls_bind; [apply (only_calls_print (stdout_write C)) |].
    intros _. apply only_calls_ret. }
  intros corners.
  apply only_calls_bind; [apply Hcall; reflexivity |]. intros morphed.
  apply only_calls_bind; [apply Hcall; reflexivity |]. intros grid.
  apply only_calls_bind.
  { apply only_calls_mapM. intros kv.
    apply only_calls_bind; [apply Hgroup |].
    intros fills. apply only_calls_ret. }
  intros field_items.
  apply only_calls_bind; [apply only_calls_mapM; intros q; apply Hgroup |].
  intros afp.
  apply only_calls_bind; [apply Hcall; reflexivity |]. intros thr.
  apply only_calls_bind.
  { apply only_calls_mapM. intros i. destruct (list_getitem afp i).
    - apply Hcall. reflexivity.
    - apply only_calls_raise. }
  intros answers.
  apply only_calls_bind.
  { destruct (dict_get (dict_of_items field_items) TEST_FORM_CODE).
    - apply only_calls_bind; [apply Hcall; reflexivity |].
      intros code. apply only_calls_ret.
    - apply only_calls_ret. }
  intros form_code.
  apply only_calls_bind; [apply Hcall; reflexivity |]. intros sh0.
  apply only_calls_bind; [apply Hcall; reflexivity |]. intros sh1.
  apply only_calls_bind; [apply Hcall; reflexivity |]. intros sh2.
  apply only_calls_bind; [apply Hcall; reflexivity |]. intros out.
  apply only_calls_bind; [apply (only_calls_print (stdout_write C)) |].
  intros _. apply only_calls_ret.
Qed.

Lemma extract_off_only_calls :
  only_calls P
    (extract_answer_key_from_image (traced C) image_path output_folder
       multi_answers_as_f empty_answers_as_g form_variant files_timestamp
       false).
Proof.
  unfold extract_answer_key_from_image, debug_setup.
  apply only_calls_bind; [apply only_calls_ret |]. intros dp.
  apply only_calls_try_except; [apply extraction_body_only_calls | |].
  - intros e. unfold extraction_handler.
    apply only_calls_bind; [apply (only_calls_print (stdout_write C)) |].
    intros _. apply only_calls_ret.
  - intros a. apply only_calls_ret.
Qed.

End OnlyCalls.

Section Edges.

Context {Path Datetime Image Corners Grid GroupInfo BubbleGroup : Type}.
Context {Fills Threshold OutputSheet Tracker W : Type}.
Variable C : Collaborators Path Datetime Image Corners Grid GroupInfo
               BubbleGroup Fills Threshold OutputSheet Tracker W.

Variables image_path output_folder : Path.
Variables multi_answers_as_f empty_answers_as_g : bool.
Variable form_variant : FormVariant GroupInfo.
Variable files_timestamp : option Datetime.

Local Abbreviation extract :=
  (extract_answer_key_from_image C image_path output_folder
     multi_answers_as_f empty_answers_as_g form_variant files_timestamp).
Local Abbreviation extract_traced :=
  (extract_answer_key_from_image (traced C) image_path output_folder
     multi_answers_as_f empty_answers_as_g form_variant files_timestamp).

(** X2: with debug mode off the function touches nothing but the
    pipeline, however the run ends: it never asks for a timestamp
    string, never creates a directory and never updates a progress
    status. *)
Theorem no_debug_directory_without_debug_mode s :
  Forall (fun ev => is_pipeline_event ev = true)
         (call_trace (extract_traced false) s).
Proof.
  destruct (extract_off_only_calls (fun ev => is_pipeline_event ev = true)
              C image_path output_folder multi_answers_as_f
              empty_answers_as_g form_variant files_timestamp
              (fun ev H => H) (start_trace s))
    as (seg & Hseg & HP).
  unfold call_trace. rewrite Hseg. exact HP.
Qed.

(** X3: a run returns a path only if the layout describes at least as
    many questions as it announces: when [num_questions] exceeds
    [len(questions)] the subscript [answer_fill_percents[i]] raises
    [IndexError] and the sheet yields no record. *)
Theorem record_needs_every_announced_question d s p s' :
  extract_answer_key_from_image C image_path output_folder
    multi_answers_as_f empty_answers_as_g form_variant files_timestamp d s
  = (Return (Some p), s') ->
  (Z.to_nat (num_questions form_variant) <= length (questions form_variant))%nat.
Proof.
  intros H.
  apply extract_success in H as (dp & s1 & _ & Hb).
  apply extraction_body_success in Hb as (r & Hr & _ & _).
  destruct Hr as (_ & _ & _ & _ & _ & _ & H7 & _ & H9 & _).
  apply mapM_length in H7. rewrite <- H7.
  destruct (Z_le_gt_dec (num_questions form_variant) 0) as [Hle | Hgt];
    [lia |].
  assert (Hi : (0 <= num_questions form_variant - 1
                < num_questions form_variant)%Z) by lia.
  destruct (mapM_nth_error _ _ _ _ _ H9 _ _ (py_range_nth_error _ _ Hi))
    as (answer & t & t' & _ & Hf).
  unfold list_getitem in Hf.
  destruct (0 <=? num_questions form_variant - 1)%Z eqn:E; [| lia].
  destruct (nth_error (run_answer_fill_percents r)
              (Z.to_nat (num_questions form_variant - 1))) eqn:En;
    [| discriminate].
  assert (Hlt : (Z.to_nat (num_questions form_variant - 1)
                 < length (run_answer_fill_percents r))%nat).
  { apply nth_error_Some. rewrite En. discriminate. }
  lia.
Qed.

End Edges.

(** ** Where a run stops, and what the progress widget is told *)
Section Protocols.

Context {Path Datetime Image Corners Grid GroupInfo BubbleGroup : Type}.
Context {Fills Threshold OutputSheet Tracker W : Type}.
Variable C : Collaborators Path Datetime Image Corners Grid GroupInfo
               BubbleGroup Fills Threshold OutputSheet Tracker W.

Local Abbreviation Ev :=
  (Event Path Datetime Image Corners Grid GroupInfo BubbleGroup Fills
     Threshold OutputSheet Tracker).

Variables image_path output_folder : Path.
Variables multi_answers_as_f empty_answers_as_g : bool.
Variable form_variant : FormVariant GroupInfo.
Variable files_timestamp : option Datetime.

Local Abbreviation extract :=
  (extract_answer_key_from_image C image_path output_folder
     multi_answers_as_f empty_answers_as_g form_variant files_timestamp).
Local Abbreviation extract_traced :=
  (extract_answer_key_from_image (traced C) image_path output_folder
     multi_answers_as_f empty_answers_as_g form_variant files_timestamp).
Local Abbreviation extract_gui_traced :=
  (extract_answer_key_from_image_gui (traced C) image_path output_folder
     multi_answers_as_f empty_answers_as_g form_variant files_timestamp).

(** A call seen from a run that keeps a trace. *)
Lemma call_traced_lift {A} (ev : Ev) (op : Ext W A) (s s' : PyState W)
    (t : PyState (W * list Ev)) o :
  call op s = (o, s') ->
  fst (world t) = world s -> stdout t = stdout s ->
  call (traced_op ev op) t
  = (o, mkState (world s', (snd (world t) ++ [ev])%list) (stdout s')).
Proof.
  intros H Hw Hout. apply call_inv in H as [Hop Hs'].
  unfold call, traced_op. rewrite Hw, Hop, Hs', Hout. reflexivity.
Qed.

Lemma debug_setup_traced d s dp s1 :
  debug_setup C image_path output_folder files_timestamp d s
    = (Return dp, s1) ->
  exists t1,
    debug_setup (traced C) image_path output_folder files_timestamp d
      (start_trace s) = (Return dp, t1) /\
    fst (world t1) = world s1 /\ stdout t1 = stdout s1 /\
    stages_of (snd (world t1))
    = (if d then [StDebugSetup; StDebugSetup; StDebugSetup] else []).
Proof.
  intros H.
  destruct (debug_setup_sim _ eq _ _ (traced_erased C) image_path output_folder
              files_timestamp d (start_trace s) s eq_refl)
    as (Ho & Hw & msgs & Hm1 & Hm2).
  rewrite H in Ho, Hw, Hm2. simpl in Ho, Hw, Hm2.
  destruct (debug_setup (traced C) image_path output_folder files_timestamp d
              (start_trace s)) as [o t1] eqn:Et.
  simpl in *. subst o. exists t1.
  split; [reflexivity |]. split; [exact Hw |].
  split; [rewrite Hm1, Hm2; reflexivity |].
  apply emits_debug_setup in Et as (seg & Hseg & Hst).
  rewrite Hseg. exact Hst.
Qed.

(** X4: when the corner search raises a corner-finding error the run
    stops there: after the debug set-up (debug mode on) the image is
    loaded, prepared and searched for corners, and no other collaborator
    is called: no dilation, no grid, no measurement, no record, no
    file. *)
Theorem corner_error_stops_the_pipeline d s debug_path prepared_image s3 e w4 :
  reaches_corner_search C image_path output_folder files_timestamp d s
    debug_path prepared_image s3 ->
  find_corner_marks C prepared_image debug_path (world s3) = (Raise e, w4) ->
  isinstance_CornerFindingError e = true ->
  stages_of (call_trace (extract_traced d) s)
  = ((if d then [StDebugSetup; StDebugSetup; StDebugSetup] else [])
     ++ [StLoadImage; StPrepareScan; StCornerLocation])%list.
Proof.
  intros (s1 & image & s2 & Hs & Hi & Hp) Hc He.
  apply debug_setup_traced in Hs as (t1 & Hs & Hw1 & Ho1 & Hst).
  pose proof (call_traced_lift (EvGetImage image_path) _ _ _ t1 _ Hi Hw1 Ho1)
    as Hi'.
  set (t2 := mkState (world s2, (snd (world t1) ++ [EvGetImage image_path])%list)
               (stdout s2)) in *.
  pose proof (call_traced_lift (EvPrepareScan image) _ _ _ t2 _ Hp
                eq_refl eq_refl) as Hp'.
  set (t3 := mkState (world s3, (snd (world t2) ++ [EvPrepareScan image])%list)
               (stdout s3)) in *.
  pose proof (call_traced_lift (EvFindCorners prepared_image) _ _ _ t3 _
                (call_eq _ _ _ _ Hc) eq_refl eq_refl) as Hc'.
  unfold call_trace, extract_answer_key_from_image.
  rewrite (bind_eq _ _ _ _ _ Hs).
  erewrite calls_nothing_try_except.
  2:{ unfold extraction_body.
      erewrite bind_eq; [| exact Hi'].
      erewrite bind_eq; [| exact Hp'].
      erewrite try_except_caught; [| exact Hc' | exact He].
      reflexivity. }
  2:{ apply calls_nothing_bind;
        [apply (calls_nothing_print (stdout_write C)) |].
      intros _. apply calls_nothing_ret. }
  2:{ intros e'. unfold extraction_handler.
      apply calls_nothing_bind;
        [apply (calls_nothing_print (stdout_write C)) |].
      intros _.
      destruct d; [apply calls_nothing_raise | apply calls_nothing_ret]. }
  simpl. unfold stages_of in *.
  rewrite !flat_map_app, Hst. simpl. rewrite <- !app_assoc. reflexivity.
Qed.

(** X5: what the GUI variant tells a truthy progress tracker.  When the
    first status update completes, the calls of the GUI variant are:
    the status "Extracting answer key from ...", then exactly the calls
    of [extract_answer_key_from_image], then one last status, which is
    the success text with the name of the saved file when a path was
    returned and the failure text when [None] was returned; when the
    extraction raises there is no last status. *)
Theorem gui_status_protocol t d s w1 :
  tracker_bool C t = true ->
  set_status C t (gui_start_message C image_path) false (world s)
    = (Return tt, w1) ->
  call_trace (extract_gui_traced (Some t) d) s
  = (EvSetStatus t (gui_start_message C image_path)
     :: call_trace (extract_traced d) (mkState w1 (stdout s))
     ++ match fst (extract d (mkState w1 (stdout s))) with
        | Return result =>
            [EvSetStatus t (gui_final_message C image_path result)]
        | Raise _ => []
        end)%list.
Proof.
  intros Ht Hstatus.
  set (ev1 := EvSetStatus t (gui_start_message C image_path) : Ev).
  set (s1 := mkState w1 (stdout s)).
  set (t1 := mkState (w1, [ev1]) (stdout s) : PyState (W * list Ev)).
  assert (H1 : call (set_status (traced C) t
                       ("Extracting answer key from '"
                        ++ path_name (traced C) image_path ++ "'.") false)
                 (start_trace s) = (Return tt, t1)).
  { exact (call_traced_lift ev1 _ s s1 (start_trace s) _
             (call_eq _ _ _ _ Hstatus) eq_refl eq_refl). }
  (* the extraction, started after the first status *)
  destruct (extract_sim _ _ _ _
              (traced_simulates eq eq [ev1] C C (simulates_eq C))
              image_path output_folder multi_answers_as_f
              empty_answers_as_g form_variant files_timestamp
              (fun sp => eq_refl) d (start_trace s1) t1
              (conj eq_refl eq_refl))
    as (Ho & [Hw Htr] & _).
  destruct (traced_run C image_path output_folder multi_answers_as_f
              empty_answers_as_g form_variant files_timestamp d s1)
    as (Hrun & _ & _).
  rewrite <- Hrun, Ho.
  unfold call_trace, extract_answer_key_from_image_gui, tracker_truthy.
  simpl tracker_bool. rewrite Ht.
  rewrite (bind_eq _ _ _ _ _ H1).
  destruct (extract_traced d t1) as [[result | e] tf] eqn:Et;
    simpl in Htr, Hw.
  - rewrite (bind_eq _ _ _ _ _ Et).
    assert (Hlast : forall msg,
              snd (world (snd ((call (set_status (traced C) t msg false) ;;;
                                ret result) tf)))
              = (snd (world tf) ++ [EvSetStatus t msg])%list).
    { intros msg. unfold bind.
      destruct (call (set_status (traced C) t msg false) tf) as [o tl] eqn:El.
      simpl in El. apply call_traced_op_inv in El as (_ & Htl & _).
      destruct o; simpl; exact Htl. }
    destruct result as [p |]; rewrite Hlast, Htr; reflexivity.
  - rewrite (bind_raise _ _ _ _ _ Et). simpl. rewrite Htr, app_nil_r.
    reflexivity.
Qed.

End Protocols.

(** * Properties of the shell *)

Lemma completes_call {W A} (op : Ext W A) (s : PyState W) :
  completes op -> exists a s', call op s = (Return a, s').
Proof.
  intros H. destruct (H (world s)) as [a Ha]. unfold call.
  destruct (op (world s)) as [o w']. simpl in Ha. subst o.
  exists a, (mkState w' (stdout s)). reflexivity.
Qed.

Lemma filter_all_out {A} (f : A -> bool) (l : list A) :
  (forall x, In x l -> f x = false) -> filter f l = [].
Proof.
  induction l as [| a l IH]; simpl; intros H; [reflexivity |].
  rewrite (H a (or_introl eq_refl)). apply IH.
  intros x Hx. apply H. right. exact Hx.
Qed.

Section ShellProperties.

Context {Path Datetime Image Corners Grid GroupInfo BubbleGroup : Type}.
Context {Fills Threshold OutputSheet Tracker Window W : Type}.
Variable C : Collaborators Path Datetime Image Corners Grid GroupInfo
               BubbleGroup Fills Threshold OutputSheet Tracker W.
Variable S : Shell Path Datetime GroupInfo Tracker Window W.

(** The [try] of the script lets no [Exception] through when the
    status of the window can be set. *)
Lemma extraction_attempt_contains_errors user_input key_image win fv ts s :
  (forall msg, completes (window_set_status S win msg)) ->
  match fst (extraction_attempt C S user_input key_image win fv ts s) with
  | Raise e => isinstance_Exception e = false
  | Return _ => True
  end.
Proof.
  intros Hset. unfold extraction_attempt, try_except, bind.
  destruct (extract_answer_key_from_image C key_image
              (ui_output_folder user_input) (ui_multi_answers_as_f user_input)
              (ui_empty_answers_as_g user_input) fv (Some ts)
              (ui_debug_mode user_input) s) as [[[p |] | e] s1].
  - destruct (completes_call _ s1 (Hset (shell_success_message C p)))
      as ([] & s2 & H).
    rewrite H. exact I.
  - destruct (completes_call _ s1 (Hset shell_failure_message))
      as ([] & s2 & H).
    rewrite H. exact I.
  - destruct (isinstance_Exception e) eqn:Ee; [| exact Ee].
    destruct (completes_call _ s1 (Hset (shell_error_message e)))
      as ([] & s2 & H).
    rewrite H. exact I.
Qed.

(** X6: while the extraction window works, no [Exception] leaves the
    extraction mode of the script, whatever the extractor does and in
    either debug mode: an exception that the extractor raises again in
    debug mode is caught by the script and shown in the window.  What
    can still leave is [sys.exit(0)] after a cancel, or something that
    is not an [Exception]. *)
Theorem extraction_errors_stay_in_the_window user_input key_image s :
  window_works S ->
  match fst (extraction_phase C S user_input key_image s) with
  | Raise e => isinstance_Exception e = false
  | Return _ => True
  end.
Proof.
  intros (Hcreate & Hset & Hstart & Hstop & Hwait & Hcancel & Hnow).
  unfold extraction_phase.
  destruct (completes_call _ s (Hcreate user_input)) as (win & s1 & H1).
  rewrite (bind_eq _ _ _ _ _ H1).
  destruct (completes_call _ s1
              (Hset win "Starting answer key extraction..."))
    as ([] & s2 & H2).
  rewrite (bind_eq _ _ _ _ _ H2).
  destruct (completes_call _ s2 (Hstart win)) as ([] & s3 & H3).
  rewrite (bind_eq _ _ _ _ _ H3).
  destruct (completes_call _ s3 Hnow) as (ts & s4 & H4).
  rewrite (bind_eq _ _ _ _ _ H4).
  pose proof (extraction_attempt_contains_errors user_input key_image win
                (selected_form_variant S user_input) ts s4 (Hset win)) as Ha.
  destruct (extraction_attempt C S user_input key_image win
              (selected_form_variant S user_input) ts s4)
    as [[keys | e] s5] eqn:E5; simpl in Ha.
  2:{ rewrite (bind_raise _ _ _ _ _ E5). exact Ha. }
  rewrite (bind_eq _ _ _ _ _ E5).
  destruct (completes_call _ s5 (Hstop win)) as ([] & s6 & H6).
  rewrite (bind_eq _ _ _ _ _ H6).
  destruct (completes_call _ s6 (Hwait win)) as ([] & s7 & H7).
  rewrite (bind_eq _ _ _ _ _ H7).
  destruct (completes_call _ s7 (Hcancel win)) as (cancelled & s8 & H8).
  rewrite (bind_eq _ _ _ _ _ H8).
  destruct cancelled; simpl; [reflexivity | exact I].
Qed.

(** X7: where the keys file that leaves the extraction mode comes
    from.  When the extraction mode completes, the window was created
    and told the start and the timestamp was read; the keys file is
    then either the one the user chose, or the path that
    [extract_answer_key_from_image] returned when it was called in the
    state these calls left, on the selected image with the user's
    folder, policies and debug flag, the selected form variant and that
    timestamp, and that the window was then told of. *)
Theorem keys_file_comes_from_the_extraction user_input key_image s keys s' :
  extraction_phase C S user_input key_image s = (Return keys, s') ->
  exists win s1 s2 s3 ts s4,
    call (create_extraction_window S user_input) s = (Return win, s1) /\
    call (window_set_status S win "Starting answer key extraction...") s1
      = (Return tt, s2) /\
    call (start_progress S win) s2 = (Return tt, s3) /\
    call (now S) s3 = (Return ts, s4) /\
    (keys = ui_keys_file user_input \/
     exists p s5 s6,
       extract_answer_key_from_image C key_image
         (ui_output_folder user_input) (ui_multi_answers_as_f user_input)
         (ui_empty_answers_as_g user_input)
         (selected_form_variant S user_input) (Some ts)
         (ui_debug_mode user_input) s4
       = (Return (Some p), s5) /\
       call (window_set_status S win (shell_success_message C p)) s5
       = (Return tt, s6) /\
       keys = Some p).
Proof.
  unfold extraction_phase. intros H.
  apply bind_Return_inv in H as (win & s1 & H1 & H).
  apply bind_Return_inv in H as ([] & s2 & H2 & H).
  apply bind_Return_inv in H as ([] & s3 & H3 & H).
  apply bind_Return_inv in H as (ts & s4 & H4 & H).
  apply bind_Return_inv in H as (keys0 & s5 & Ha & H).
  apply bind_Return_inv in H as (u3 & s6 & _ & H).
  apply bind_Return_inv in H as (u4 & s7 & _ & H).
  apply bind_Return_inv in H as (cancelled & s8 & _ & H).
  destruct cancelled; [discriminate |]. inversion H; subst keys0 s8. clear H.
  exists win, s1, s2, s3, ts, s4.
  split; [exact H1 |]. split; [exact H2 |]. split; [exact H3 |].
  split; [exact H4 |].
  unfold extraction_attempt in Ha.
  apply try_except_Return_inv in Ha
    as [(k & t & Hb & Hr) | (e & t & _ & _ & Hh)].
  - inversion Hr; subst k t. clear Hr.
    apply bind_Return_inv in Hb as (result & t' & Hx & Hb).
    destruct result as [p |].
    + apply bind_Return_inv in Hb as ([] & t'' & Hw & Hb).
      inversion Hb; subst. right. exists p, t', s5.
      split; [exact Hx |]. split; [exact Hw | reflexivity].
    + apply bind_Return_inv in Hb as (u & t'' & _ & Hb).
      inversion Hb; subst. left. reflexivity.
  - apply bind_Return_inv in Hh as (u & t'' & _ & Hh).
    inversion Hh; subst. left. reflexivity.
Qed.

(** X8: the images handed on for processing.  When [remaining_images]
    returns, the list is not empty, it holds only images that
    [filter_images] kept, and, in extraction mode, it does not hold the
    image the answer key was extracted from; without extraction mode it
    is the filtered list itself. *)
Theorem remaining_images_exclude_the_key user_input s image_paths s' :
  (forall p, path_eqb S p p = true) ->
  remaining_images S user_input s = (Return image_paths, s') ->
  image_paths <> [] /\
  (forall key_image, key_image_of user_input = Some key_image ->
                     ~ In key_image image_paths) /\
  exists listed s1 kept,
    call (list_file_paths S (ui_input_folder user_input)) s
      = (Return listed, s1) /\
    call (filter_images S listed) s1 = (Return kept, s') /\
    (forall p, In p image_paths -> In p kept) /\
    (key_image_of user_input = None -> image_paths = kept).
Proof.
  intros Hrefl H. unfold remaining_images in H.
  apply bind_Return_inv in H as (listed & s1 & Hl & H).
  apply bind_Return_inv in H as (kept & s2 & Hf & H).
  destruct (key_image_of user_input) as [key |] eqn:Ek.
  - destruct (filter (fun path => negb (path_eqb S path key)) kept)
      as [| p rest] eqn:El; [discriminate |].
    inversion H; subst image_paths s2. clear H.
    split; [discriminate |]. split.
    + intros key' Hk Hin. inversion Hk; subst key'.
      rewrite <- El in Hin. apply filter_In in Hin as [_ Hneg].
      rewrite Hrefl in Hneg. discriminate.
    + exists listed, s1, kept. repeat split; try assumption.
      * intros q Hq. rewrite <- El in Hq. apply filter_In in Hq as [Hq _].
        exact Hq.
      * discriminate.
  - destruct kept as [| p rest]; [discriminate |].
    inversion H; subst image_paths s2. clear H.
    split; [discriminate |]. split; [discriminate |].
    exists listed, s1, (p :: rest). repeat split; try assumption.
    intros q Hq. exact Hq.
Qed.


(** X10: when the script runs to its end, [process_input] was called
    last, and completed, with what the run itself produced: the answers
    of the user that [MainWindow()] returned, who did not cancel; the
    keys file the extraction mode left, or the user's own outside
    extraction mode; the images [remaining_images] kept from the user's
    input folder, a list that is not empty and holds no image equal to
    the one the answer key was extracted from; the form variant selected
    in the main window; the progress widget created for that many
    images, and the timestamp read just before the call. *)
Theorem script_completion s s' :
  main_gui C S s = (Return tt, s') ->
  exists user_input s1 keys_file s2 image_paths s3 progress_tracker s4
         files_timestamp s5,
    call (MainWindow S) s = (Return user_input, s1) /\
    ui_cancelled user_input = false /\
    match key_image_of user_input with
    | Some key_image =>
        extraction_phase C S user_input key_image s1 = (Return keys_file, s2)
    | None => keys_file = ui_keys_file user_input /\ s2 = s1
    end /\
    remaining_images S user_input s2 = (Return image_paths, s3) /\
    image_paths <> [] /\
    (forall key_image, key_image_of user_input = Some key_image ->
       forall p, In p image_paths -> path_eqb S p key_image = false) /\
    call (create_and_pack_progress S user_input
            (Z.of_nat (length image_paths))) s3
      = (Return progress_tracker, s4) /\
    call (now S) s4 = (Return files_timestamp, s5) /\
    call (process_input S image_paths
            (ui_output_folder user_input)
            (ui_multi_answers_as_f user_input)
            (ui_empty_answers_as_g user_input)
            keys_file
            (ui_arrangement_map user_input)
            (ui_sort_results user_input)
            (ui_output_mcta user_input)
            (ui_debug_mode user_input)
            (selected_form_variant S user_input)
            progress_tracker files_timestamp) s5
    = (Return tt, s').
Proof.
  unfold main_gui. intros H.
  apply bind_Return_inv in H as (ui & s1 & Hm & H).
  apply bind_Return_inv in H as (u & s1' & Hc & H).
  apply bind_Return_inv in H as (keys & s2 & Hk & H).
  apply bind_Return_inv in H as (imgs & s3 & Hi & H).
  apply bind_Return_inv in H as (tracker & s4 & Ht & H).
  apply bind_Return_inv in H as (ts & s5 & Hn & H).
  assert (Hnot : ui_cancelled ui = false /\ s1' = s1).
  { destruct (ui_cancelled ui); [discriminate |].
    inversion Hc. split; reflexivity. }
  destruct Hnot as [Hnot ->].
  exists ui, s1, keys, s2, imgs, s3, tracker, s4, ts, s5.
  split; [exact Hm |]. split; [exact Hnot |].
  split.
  { destruct (key_image_of ui); [exact Hk |].
    inversion Hk. split; reflexivity. }
  split; [exact Hi |].
  unfold remaining_images in Hi.
  apply bind_Return_inv in Hi as (listed & t1 & _ & Hi).
  apply bind_Return_inv in Hi as (kept & t2 & _ & Hi).
  split; [| split; [| split; [exact Ht | split; [exact Hn |]]]].
  - destruct (key_image_of ui);
      match type of Hi with
      | context [match ?l with _ => _ end] => destruct l
      end; inversion Hi; discriminate.
  - intros key Hkey p Hp. rewrite Hkey in Hi.
    destruct (filter (fun path => negb (path_eqb S path key)) kept)
      as [| q rest] eqn:El; [discriminate |].
    inversion Hi; subst imgs. rewrite <- El in Hp.
    apply filter_In in Hp as [_ Hneg].
    destruct (path_eqb S p key); [discriminate | reflexivity].
  - destruct u. exact H.
Qed.

End ShellProperties.

(** * Concrete runs for the further properties *)

Lemma double_path_eqb_refl p : Double.path_eqb p p = true.
Proof.
  induction p as [| a p IH]; simpl; [reflexivity |].
  rewrite String.eqb_refl. exact IH.
Qed.

Lemma desk_window_works user_input : window_works (Desk.shell user_input).
Proof.
  unfold window_works, completes. simpl.
  repeat split; intros; eexists; reflexivity.
Qed.

(** The sample layout announces the three questions it describes; one
    that announces a fourth yields no record. *)
Lemma record_needs_every_announced_question_witness :
  (Z.to_nat (num_questions Double.form) <= length (questions Double.form))%nat
  /\ fst (Double.extract Double.key_image Desk.short_form false Double.start)
     = Return None.
Proof.
  split.
  - assert (H : Double.extract Double.key_image Double.form false Double.start
                = (Return (Some Double.csv),
                   snd (Double.extract Double.key_image Double.form false
                          Double.start)))
      by (vm_compute; reflexivity).
    exact (record_needs_every_announced_question Double.collaborators
             Double.key_image Double.out_folder true true Double.form
             Double.stamp false Double.start Double.csv _ H).
  - vm_compute. reflexivity.
Defined.

(** The torn sheet in debug mode: the trace ends with the corner
    search. *)
Lemma corner_error_stops_the_pipeline_witness :
  stages_of (call_trace (Double.extract_traced Double.torn_image Double.form
                           true) Double.start)
  = [StDebugSetup; StDebugSetup; StDebugSetup;
     StLoadImage; StPrepareScan; StCornerLocation].
Proof.
  erewrite (corner_error_stops_the_pipeline Double.collaborators
              Double.torn_image Double.out_folder true true Double.form
              Double.stamp true Double.start); cycle 1.
  - do 3 eexists.
    split; [vm_compute; reflexivity |]. split; vm_compute; reflexivity.
  - vm_compute. reflexivity.
  - reflexivity.
  - reflexivity.
Defined.

(** The sample sheet through the GUI variant: the tracker is told the
    start, then the extraction runs, then the tracker is told the name
    of the saved file. *)
Lemma gui_status_protocol_witness :
  stages_of (call_trace (extract_answer_key_from_image_gui
                           (traced Double.collaborators) Double.key_image
                           Double.out_folder true true Double.form
                           Double.stamp (Some 1%nat) false) Double.start)
  = ([StProgress]
     ++ stages_of (call_trace (Double.extract_traced Double.key_image
                                 Double.form false) Double.start)
     ++ [StProgress])%list.
Proof.
  rewrite (gui_status_protocol Double.collaborators Double.key_image
             Double.out_folder true true Double.form Double.stamp
             1%nat false Double.start
             (Desk.show (gui_start_message Double.collaborators
                           Double.key_image) Double.desk)
             eq_refl eq_refl).
  vm_compute. reflexivity.
Defined.

(** An image that cannot be read, in debug mode: the extractor raises
    the error again, the script shows it and goes on. *)
Lemma extraction_errors_stay_in_the_window_witness :
  fst (extract_answer_key_from_image Double.collaborators Double.missing_image
         Double.out_folder true true Double.form (Some "2024") true
         Double.start)
    = Raise (mkExn OtherException "cannot read image")
  /\ match fst (extraction_phase Double.collaborators
                  (Desk.shell (Desk.request_missing true))
                  (Desk.request_missing true) Double.missing_image
                  Double.start) with
     | Raise e => isinstance_Exception e = false
     | Return _ => True
     end.
Proof.
  split; [vm_compute; reflexivity |].
  exact (extraction_errors_stay_in_the_window Double.collaborators
           (Desk.shell (Desk.request_missing true))
           (Desk.request_missing true) Double.missing_image Double.start
           (desk_window_works _)).
Defined.

(** The sample request: the keys file after the extraction mode is the
    path the extractor returned when it was called in that run. *)
Lemma keys_file_comes_from_the_extraction_witness :
  extraction_phase Double.collaborators (Desk.shell (Desk.request false))
    (Desk.request false) Double.key_image Double.start
  = (Return (Some Double.csv),
     snd (extraction_phase Double.collaborators
            (Desk.shell (Desk.request false)) (Desk.request false)
            Double.key_image Double.start))
  /\ exists ts s4 s5,
       call (now (Desk.shell (Desk.request false)))
            (mkState (Desk.show "Starting answer key extraction..."
                        Double.desk) []) = (Return ts, s4) /\
       extract_answer_key_from_image Double.collaborators
         Double.key_image Double.out_folder true true Double.form
         (Some ts) false s4
       = (Return (Some Double.csv), s5).
Proof.
  assert (H : extraction_phase Double.collaborators
                (Desk.shell (Desk.request false)) (Desk.request false)
                Double.key_image Double.start
              = (Return (Some Double.csv),
                 snd (extraction_phase Double.collaborators
                        (Desk.shell (Desk.request false))
                        (Desk.request false) Double.key_image Double.start)))
    by (vm_compute; reflexivity).
  split; [exact H |].
  destruct (keys_file_comes_from_the_extraction Double.collaborators
              (Desk.shell (Desk.request false)) (Desk.request false)
              Double.key_image Double.start (Some Double.csv) _ H)
    as (win & s1 & s2 & s3 & ts & s4 & H1 & H2 & H3 & H4 & Hkeys).
  inversion H1; subst win s1. inversion H2; subst s2. inversion H3; subst s3.
  destruct Hkeys as [Hown | (p & s5 & s6 & Hx & _ & Hp)];
    [discriminate Hown |].
  inversion Hp; subst p.
  exists ts, s4, s5. split; [exact H4 | exact Hx].
Defined.

(** The sample folder holds the key image and one more sheet: only the
    other sheet is left. *)
Lemma remaining_images_exclude_the_key_witness :
  remaining_images (Desk.shell (Desk.request false)) (Desk.request false)
    Double.start
  = (Return [Double.torn_image], Double.start)
  /\ ~ In Double.key_image [Double.torn_image].
Proof.
  assert (H : remaining_images (Desk.shell (Desk.request false))
                (Desk.request false) Double.start
              = (Return [Double.torn_image], Double.start))
    by (vm_compute; reflexivity).
  split; [exact H |].
  destruct (remaining_images_exclude_the_key
              (Desk.shell (Desk.request false)) (Desk.request false)
              Double.start [Double.torn_image] Double.start
              double_path_eqb_refl H) as (_ & Hkey & _).
  exact (Hkey Double.key_image eq_refl).
Defined.


(** The sample request from start to end: the images left are graded
    with the keys file the extraction mode left. *)
Lemma script_completion_witness :
  Desk.main false Double.start
    = (Return tt, snd (Desk.main false Double.start))
  /\ exists keys_file s2 image_paths s5,
       extraction_phase Double.collaborators
         (Desk.shell (Desk.request false)) (Desk.request false)
         Double.key_image Double.start = (Return keys_file, s2) /\
       image_paths <> [] /\
       call (process_input (Desk.shell (Desk.request false))
               image_paths Double.out_folder true true keys_file None
               false false false Double.form 1%nat "2024") s5
       = (Return tt, snd (Desk.main false Double.start)).
Proof.
  assert (H : Desk.main false Double.start
              = (Return tt, snd (Desk.main false Double.start)))
    by (vm_compute; reflexivity).
  split; [exact H |].
  destruct (script_completion Double.collaborators
              (Desk.shell (Desk.request false)) Double.start _ H)
    as (ui & s1 & keys & s2 & imgs & s3 & tracker & s4 & ts & s5
        & Hm & _ & Hk & _ & Hne & _ & Ht & Hn & Hp).
  inversion Hm; subst ui s1.
  unfold call in Ht, Hn. simpl in Ht, Hn.
  inversion Ht; subst tracker s4. inversion Hn; subst ts.
  exists keys, s2, imgs, s5.
  split; [exact Hk |]. split; [exact Hne | exact Hp].
Defined.

(** ** Unexpected errors (C5) *)


